(** * Sequential reporting controller (europeana_api/sequential_reporting.py)

    A shallow embedding of [SequentialReportingServer]: the citation
    verifier, the report planner, the provider-diversity analysis, the
    multi-strategy source discovery and the [process_section] entry point,
    with the citation pattern analysis, the analysis of a PDF and the
    citation of a record, followed by the properties of the specification
    that concern them and by further properties of the code.

    Conventions of the model.
    - Python [str] is [string]; the model covers ASCII text, so [len] is
      [String.length] and the character classes are the ASCII parts of the
      Unicode ones Python uses.
    - Python [int] is [Z]; [bool] is an [int] subclass, as in Python.
    - The loosely typed records (the input of [process_section], the
      records returned by the search client) are [value]s: the JSON
      universe without floating-point numbers.
    - Code that can raise returns a [result]; [try]/[except] is a [match].
    - The search client is an oracle: the n-th call made to it receives
      the request and either raises or returns a value.
    - Logging, [time.sleep] and the box printed on stderr are not part of
      the state and are left out; writing to stderr succeeds.
    - Integers are unbounded.  [int] of a count ([py_int]) refuses more
      than 4300 digits, CPython's default limit; the digit strings of
      citation tokens and of section numbers are converted whatever their
      length.
    - A Python [set] is a [gset].  Where the code iterates a set of ids
      (the invalid citations of [verify_citations] and the text made of
      them) the model lists the ids in the order of [elements], which is
      not the order of Python's hash table: only the members of such a
      list are meant. *)

From Stdlib Require Import ZArith String Ascii Permutation.
From stdpp Require Import gmap strings list sorting pretty.

Local Open Scope Z_scope.

(** ** Python values *)

#[warnings="-register-all"]
Inductive value : Type :=
  | VNone
  | VBool (b : bool)
  | VInt (n : Z)
  | VStr (s : string)
  | VList (l : list value)
  | VDict (d : list (string * value)).

(** Exceptions.  [ValueError] carries the message the source gives it;
    the other classes are raised by the interpreter or by the client. *)
Inductive exn : Type :=
  | ValueError (msg : string)
  | TypeError
  | AttributeError
  | IndexError
  | ZeroDivisionError
  | ClientError (msg : string).

Inductive result (A : Type) : Type :=
  | Ok (a : A)
  | Raise (e : exn).
Arguments Ok {A} a.
Arguments Raise {A} e.

#[global] Instance result_ret : MRet result := fun A a => Ok a.
#[global] Instance result_bind : MBind result := fun A B k r =>
  match r with
  | Ok a => k a
  | Raise e => Raise e
  end.

(** Hashable values and the key under which a [set] or [dict] files them:
    [True == 1] and [hash(True) == hash(1)], lists and dicts are
    unhashable. *)
Inductive hkey : Type :=
  | KNone
  | KNum (n : Z)
  | KStr (s : string).

#[global] Instance hkey_eq_dec : EqDecision hkey.
Proof. solve_decision. Defined.

#[global] Instance hkey_countable : Countable hkey.
Proof.
  refine (inj_countable'
    (fun k => match k with
              | KNone => inl ()
              | KNum n => inr (inl n)
              | KStr s => inr (inr s)
              end)
    (fun x => match x with
              | inl _ => KNone
              | inr (inl n) => KNum n
              | inr (inr s) => KStr s
              end) _).
  by intros [].
Defined.

Definition hash_key (v : value) : option hkey :=
  match v with
  | VNone => Some KNone
  | VBool b => Some (KNum (Z.b2z b))
  | VInt n => Some (KNum n)
  | VStr s => Some (KStr s)
  | VList _ | VDict _ => None
  end.

(** [bool(v)] *)
Definition truthy (v : value) : bool :=
  match v with
  | VNone => false
  | VBool b => b
  | VInt n => negb (n =? 0)
  | VStr s => negb (String.eqb s EmptyString)
  | VList l => match l with [] => false | _ => true end
  | VDict d => match d with [] => false | _ => true end
  end.

(** [c == v] for an int [c], and [c in l] for a list [l]. *)
Definition eq_int (c : Z) (v : value) : bool :=
  match v with
  | VInt n => n =? c
  | VBool b => Z.b2z b =? c
  | _ => false
  end.

Definition int_in (c : Z) (l : list value) : bool := existsb (eq_int c) l.

Definition eq_str (s : string) (v : value) : bool :=
  match v with
  | VStr t => String.eqb s t
  | _ => false
  end.

(** [d.get(k)], [k in d], [d.get(k, default)] on a dict with string keys. *)
Fixpoint dict_get (k : string) (d : list (string * value)) : option value :=
  match d with
  | [] => None
  | (k', v) :: d' => if String.eqb k k' then Some v else dict_get k d'
  end.

Definition has_key (k : string) (d : list (string * value)) : bool :=
  match dict_get k d with Some _ => true | None => false end.

Definition get_default (k : string) (dflt : value) (d : list (string * value)) : value :=
  match dict_get k d with Some v => v | None => dflt end.

(** ** Text *)

Definition code (c : ascii) : N := N_of_ascii c.

(** [str.isspace] on ASCII: TAB..CR, FS..US and the space. *)
Definition isspace (c : ascii) : bool :=
  ((9 <=? code c) && (code c <=? 13) || (28 <=? code c) && (code c <=? 32))%N.

Definition isdigit (c : ascii) : bool := ((48 <=? code c) && (code c <=? 57))%N.

Definition digit_val (c : ascii) : Z := Z.of_N (code c) - 48.

Definition lower_char (c : ascii) : ascii :=
  if ((65 <=? code c) && (code c <=? 90))%N then ascii_of_N (code c + 32) else c.

Fixpoint lower (s : string) : string :=
  match s with
  | EmptyString => EmptyString
  | String c s' => String (lower_char c) (lower s')
  end.

Definition is_empty (s : string) : bool :=
  match s with EmptyString => true | _ => false end.

Definition len (s : string) : Z := Z.of_nat (String.length s).

Fixpoint lstrip (s : string) : string :=
  match s with
  | EmptyString => EmptyString
  | String c s' => if isspace c then lstrip s' else s
  end.

Fixpoint rstrip (s : string) : string :=
  match s with
  | EmptyString => EmptyString
  | String c s' =>
      let r := rstrip s' in
      if isspace c && is_empty r then EmptyString else String c r
  end.

Definition strip (s : string) : string := rstrip (lstrip s).

(** [sub in s] *)
Fixpoint contains (sub s : string) : bool :=
  String.prefix sub s ||
  match s with
  | EmptyString => false
  | String _ s' => contains sub s'
  end.

Fixpoint endswith (suf s : string) : bool :=
  String.eqb s suf ||
  match s with
  | EmptyString => false
  | String _ s' => endswith suf s'
  end.

Definition newline : ascii := "010"%char.
Definition dquote : ascii := "034"%char.
Definition quoted (s : string) : string :=
  String dquote s +:+ String dquote EmptyString.

(** [s.split('\n\n')]: never empty, cuts at each blank line from the left. *)
Fixpoint split_blank (s : string) : list string :=
  match s with
  | EmptyString => [EmptyString]
  | String c s' =>
      match s' with
      | String c' s'' =>
          if Ascii.eqb c newline && Ascii.eqb c' newline
          then EmptyString :: split_blank s''
          else match split_blank s' with
               | p :: ps => String c p :: ps
               | [] => [String c EmptyString]
               end
      | EmptyString => [String c EmptyString]
      end
  end.

(** [s.split()]: the maximal runs of non-space characters. *)
Fixpoint split_ws_aux (s : string) : string * list string :=
  match s with
  | EmptyString => (EmptyString, [])
  | String c s' =>
      let '(w, ws) := split_ws_aux s' in
      if isspace c
      then (EmptyString, if is_empty w then ws else w :: ws)
      else (String c w, ws)
  end.

Definition split_ws (s : string) : list string :=
  let '(w, ws) := split_ws_aux s in
  if is_empty w then ws else w :: ws.

(** [s.replace(old, new)] for a non-empty [old]; [skip] counts the
    characters of a replaced occurrence still to be passed over. *)
Fixpoint replace_from (old new : string) (skip : nat) (s : string) : string :=
  match s with
  | EmptyString => EmptyString
  | String c s' =>
      match skip with
      | S k => replace_from old new k s'
      | O =>
          if String.prefix old s
          then new +:+ replace_from old new (String.length old - 1) s'
          else String c (replace_from old new 0 s')
      end
  end.

Definition replace (old new s : string) : string := replace_from old new 0 s.

(** Leading run of characters satisfying [f], and what follows it. *)
Fixpoint span (f : ascii -> bool) (s : string) : string * string :=
  match s with
  | EmptyString => (EmptyString, EmptyString)
  | String c s' =>
      if f c then let '(a, b) := span f s' in (String c a, b)
      else (EmptyString, s)
  end.

Fixpoint digits_value (acc : Z) (s : string) : Z :=
  match s with
  | EmptyString => acc
  | String c s' => digits_value (acc * 10 + digit_val c) s'
  end.

(** [int(s)] for a string of decimal digits. *)
Definition int_of_digits (s : string) : Z := digits_value 0 s.

(** [s.isdigit()] *)
Definition str_isdigit (s : string) : bool :=
  negb (is_empty s) && forallb isdigit (list_ascii_of_string s).

(** The whitespace [int] skips around a number is that of C ([Py_ISSPACE]:
    TAB..CR and the space), not that of [str.strip]: the separators
    FS..US are refused. *)
Definition c_isspace (c : ascii) : bool :=
  ((9 <=? code c) && (code c <=? 13) || (code c =? 32))%N.

Fixpoint c_lstrip (s : string) : string :=
  match s with
  | EmptyString => EmptyString
  | String c s' => if c_isspace c then c_lstrip s' else s
  end.

Fixpoint c_rstrip (s : string) : string :=
  match s with
  | EmptyString => EmptyString
  | String c s' =>
      let r := c_rstrip s' in
      if c_isspace c && is_empty r then EmptyString else String c r
  end.

Definition c_strip (s : string) : string := c_rstrip (c_lstrip s).

(** The most digits [int] converts: the default of
    [sys.get_int_max_str_digits()]. *)
Definition int_max_str_digits : Z := 4300.

Definition digit_count (s : string) : Z :=
  Z.of_nat (length (List.filter isdigit (list_ascii_of_string s))).

(** [int(s)] for any string: surrounding C whitespace, one optional sign,
    decimal digits with single underscores between them, no more than
    [int_max_str_digits] digits, leading zeros counted; [None] stands for
    [ValueError]. *)
Fixpoint parse_digits (s : string) (acc : Z) (after_digit : bool) : option Z :=
  match s with
  | EmptyString => if after_digit then Some acc else None
  | String c s' =>
      if isdigit c then parse_digits s' (acc * 10 + digit_val c) true
      else if Ascii.eqb c "_"%char && after_digit
      then match s' with
           | String d _ => if isdigit d then parse_digits s' acc false else None
           | EmptyString => None
           end
      else None
  end.

Definition parse_int (s : string) : option Z :=
  let '(negative, digits) :=
    match c_strip s with
    | String "-"%char r => (true, r)
    | String "+"%char r => (false, r)
    | t => (false, t)
    end in
  if int_max_str_digits <? digit_count digits then None
  else if negative then Z.opp <$> parse_digits digits 0 false
  else parse_digits digits 0 false.

(** [repr] and [str] of a value. *)
Definition hex_digit (n : N) : ascii :=
  if (n <? 10)%N then ascii_of_N (48 + n) else ascii_of_N (87 + n).

Definition repr_char (q : ascii) (c : ascii) : string :=
  if Ascii.eqb c q || Ascii.eqb c "\"%char then String "\"%char (String c EmptyString)
  else if Ascii.eqb c "009"%char then "\t"
  else if Ascii.eqb c newline then "\n"
  else if Ascii.eqb c "013"%char then "\r"
  else if ((code c <? 32) || (code c =? 127))%N
  then String "\"%char (String "x"%char
         (String (hex_digit (code c / 16)) (String (hex_digit (code c mod 16)) EmptyString)))
  else String c EmptyString.

Fixpoint repr_chars (q : ascii) (s : string) : string :=
  match s with
  | EmptyString => EmptyString
  | String c s' => repr_char q c +:+ repr_chars q s'
  end.

Definition repr_str (s : string) : string :=
  let q := if contains "'" s && negb (contains (String dquote EmptyString) s)
           then dquote else "'"%char in
  String q (repr_chars q s) +:+ String q EmptyString.

Fixpoint py_repr (v : value) : string :=
  match v with
  | VNone => "None"
  | VBool true => "True"
  | VBool false => "False"
  | VInt n => pretty n
  | VStr s => repr_str s
  | VList l => "[" +:+ String.concat ", " (map py_repr l) +:+ "]"
  | VDict d =>
      "{" +:+ String.concat ", "
                (map (fun kv => repr_str (fst kv) +:+ ": " +:+ py_repr (snd kv)) d)
          +:+ "}"
  end.

Definition py_str (v : value) : string :=
  match v with
  | VStr s => s
  | _ => py_repr v
  end.

(** ** Citation tokens

    [re.findall(r"\[(\d+)(?:,\s*(?:p\.|page)\s*\d+)?\]", text)]: the ids of
    the non-overlapping matches, scanning from the left. *)

(** A match starting at the head of [s]: the digits of group 1 and the
    number of characters matched. *)
Definition match_citation (s : string) : option (string * nat) :=
  match s with
  | String "["%char r =>
      let '(ds, r1) := span isdigit r in
      if is_empty ds then None
      else
        match r1 with
        | String "]"%char _ => Some (ds, (String.length ds + 2)%nat)
        | String ","%char r2 =>
            let '(sp1, r3) := span isspace r2 in
            let marker :=
              if String.prefix "p." r3 then Some 2%nat
              else if String.prefix "page" r3 then Some 4%nat
              else None in
            match marker with
            | None => None
            | Some m =>
                let r4 := String.substring m (String.length r3 - m) r3 in
                let '(sp2, r5) := span isspace r4 in
                let '(pg, r6) := span isdigit r5 in
                if is_empty pg then None
                else
                  match r6 with
                  | String "]"%char _ =>
                      Some (ds, (String.length ds + String.length sp1 + m
                                 + String.length sp2 + String.length pg + 3)%nat)
                  | _ => None
                  end
            end
        | _ => None
        end
  | _ => None
  end.

Fixpoint findall_citations (skip : nat) (s : string) : list string :=
  match s with
  | EmptyString => []
  | String _ s' =>
      match skip with
      | S k => findall_citations k s'
      | O =>
          match match_citation s with
          | Some (ds, n) => ds :: findall_citations (n - 1) s'
          | None => findall_citations 0 s'
          end
      end
  end.

(** [[int(match) for match in re.findall(citation_regex, paragraph)]] *)
Definition citations (paragraph : string) : list Z :=
  map int_of_digits (findall_citations 0 paragraph).

(** [[p for p in content.split('\n\n') if p.strip()]] *)
Definition paragraphs (content : string) : list string :=
  List.filter (fun p => negb (is_empty (strip p))) (split_blank content).

(** A paragraph the checks look at: 20 characters or more once stripped. *)
Definition qualifying (p : string) : bool := negb (len (strip p) <? 20).

(** [paragraph[:100] + "..." if len(paragraph) > 100 else paragraph] *)
Definition excerpt (p : string) : string :=
  if 100 <? len p then String.substring 0 100 p +:+ "..." else p.

Record paragraph_issue := {
  pi_index : Z;
  pi_text : string;
  pi_issue : string
}.

(** ** [_verify_content_has_citations] *)

Record presence_result := {
  pr_valid : bool;
  pr_paragraph_issues : list paragraph_issue;
  pr_message : string
}.

Definition repr_ints (l : list Z) : string := py_repr (VList (map VInt l)).

Fixpoint presence_issues (i : Z) (ps : list string) (sources_used : list value)
  : list paragraph_issue :=
  match ps with
  | [] => []
  | p :: rest =>
      let later := presence_issues (i + 1) rest sources_used in
      if len (strip p) <? 20 then later
      else
        let paragraph_citations := citations p in
        match paragraph_citations with
        | [] =>
            {| pi_index := i; pi_text := excerpt p;
               pi_issue := "Paragraph contains no citations" |} :: later
        | _ =>
            let invalid_citations :=
              List.filter (fun c => negb (int_in c sources_used)) paragraph_citations in
            match invalid_citations with
            | [] => later
            | _ =>
                {| pi_index := i; pi_text := excerpt p;
                   pi_issue := "Paragraph contains invalid citations: "
                               +:+ repr_ints invalid_citations |} :: later
            end
        end
  end.

(** The early return for an empty [sources_used] has no
    [paragraph_issues] key; its reader uses [.get('paragraph_issues', [])]. *)
Definition _verify_content_has_citations (content : string) (sources_used : list value)
  : presence_result :=
  match sources_used with
  | [] => {| pr_valid := false; pr_paragraph_issues := [];
             pr_message := "No sources provided in sources_used list." |}
  | _ =>
      let paragraph_issues := presence_issues 0 (paragraphs content) sources_used in
      {| pr_valid := match paragraph_issues with [] => true | _ => false end;
         pr_paragraph_issues := paragraph_issues;
         pr_message :=
           match paragraph_issues with
           | [] => "All paragraphs properly cited"
           | _ => pretty (Z.of_nat (length paragraph_issues))
                  +:+ " paragraphs with citation issues"
           end |}
  end.

(** ** [verify_citations] *)

Record citation_check := {
  cc_valid : bool;
  cc_uncited_sources : list value;
  cc_invalid_citations : list Z;
  cc_uncited_paragraphs : list paragraph_issue;
  cc_message : string
}.

(** The loop over the paragraphs: the set of cited ids and the issues. *)
Fixpoint scan_paragraphs (i : Z) (ps : list string) (sources_used : list value)
  (cited_sources : gset Z) : gset Z * list paragraph_issue :=
  match ps with
  | [] => (cited_sources, [])
  | p :: rest =>
      if len (strip p) <? 20
      then scan_paragraphs (i + 1) rest sources_used cited_sources
      else
        let paragraph_citations := citations p in
        let cited_sources := cited_sources ∪ list_to_set paragraph_citations in
        let no_citation :=
          match paragraph_citations with
          | [] => [{| pi_index := i; pi_text := excerpt p;
                      pi_issue := "No citations found" |}]
          | _ => []
          end in
        let invalid_citations :=
          List.filter (fun c => negb (int_in c sources_used)) paragraph_citations in
        let invalid :=
          match invalid_citations with
          | [] => []
          | _ => [{| pi_index := i; pi_text := excerpt p;
                     pi_issue := "Invalid citations: " +:+ repr_ints invalid_citations |}]
          end in
        let '(cited, later) := scan_paragraphs (i + 1) rest sources_used cited_sources in
        (cited, no_citation ++ invalid ++ later)
  end.

(** [[source for source in sources_used if source not in cited_sources]]:
    membership in a set hashes [source]. *)
Fixpoint uncited (sources_used : list value) (cited_sources : gset Z)
  : result (list value) :=
  match sources_used with
  | [] => Ok []
  | source :: rest =>
      match hash_key source with
      | None => Raise TypeError
      | Some k =>
          later ← uncited rest cited_sources;
          Ok (match k with
              | KNum n => if decide (n ∈ cited_sources) then later else source :: later
              | _ => source :: later
              end)
      end
  end.

(** [invalid_citations] iterates the set [cited_sources]: its ids are
    listed here in the order of [elements]. *)
Definition verify_citations (content : string) (sources_used : list value)
  : result citation_check :=
  let '(cited_sources, paragraph_issues) :=
    scan_paragraphs 0 (paragraphs content) sources_used ∅ in
  uncited_sources ← uncited sources_used cited_sources;
  let invalid_citations :=
    List.filter (fun c => negb (int_in c sources_used)) (elements cited_sources) in
  let messages :=
    (match uncited_sources with
     | [] => []
     | _ => ["Sources listed but not cited in content: "
             +:+ String.concat ", " (map py_str uncited_sources)]
     end) ++
    (match invalid_citations with
     | [] => []
     | _ => ["Citations in content not in sources_used list: "
             +:+ String.concat ", " (map (fun c : Z => pretty c) invalid_citations)]
     end) ++
    (match paragraph_issues with
     | [] => []
     | _ => [pretty (Z.of_nat (length paragraph_issues))
             +:+ " paragraphs with citation issues found."]
     end) in
  Ok {| cc_valid :=
          match paragraph_issues, uncited_sources, invalid_citations with
          | [], [], [] => true
          | _, _, _ => false
          end;
        cc_uncited_sources := uncited_sources;
        cc_invalid_citations := invalid_citations;
        cc_uncited_paragraphs := paragraph_issues;
        cc_message :=
          match messages with
          | [] => "All citations validated successfully."
          | _ => String.concat " " messages
          end |}.

(** ** Sources and stable sorting *)

(** The dict built by [process_result].  [s_is_pdf] is [None] for a
    graphic, whose dict has no [is_pdf] key.  No source ever receives a
    [has_pdf] or [pdf_content] key. *)
Record source := {
  s_id : Z;
  s_title : value;
  s_description : value;
  s_url : value;
  s_provider : value;
  s_thumbnail : value;
  s_media_type : value;
  s_rights : value;
  s_date : value;
  s_europeanaId : value;
  s_is_pdf : option bool
}.

(** [sorted(..., reverse=True)] and [list.sort(reverse=True)] are stable:
    each element is put behind the ones that do not compare below it.
    [lt y x] reads "the key of [y] is less than the key of [x]". *)
Section stable_sort.
Context {A : Type} (lt : A -> A -> bool).

Fixpoint insert_desc (x : A) (l : list A) : list A :=
  match l with
  | [] => [x]
  | y :: l' => if lt y x then x :: l else y :: insert_desc x l'
  end.

Definition sort_desc (l : list A) : list A :=
  fold_left (fun acc x => insert_desc x acc) l [].

End stable_sort.

(** ** [create_plan] *)

Record report_plan := {
  pl_topic : string;
  pl_total_sections : Z;
  pl_sections : list (string * bool);
  pl_current_section : value
}.

Definition enhanced_steps : list string :=
  [ "Initialize with topic";
    "Search for sources and extract PDF content";
    "Analyze PDF content for primary source material";
    "Create bibliography with PDFs marked";
    "Write introduction incorporating PDF insights";
    "Develop content sections using PDF extracts";
    "Include images when relevant to illustrate key points";
    "Write conclusion" ].

Definition create_plan (topic : string) (page_count : Z) : report_plan :=
  let total_sections := Z.min (page_count * 2 + 1) 20 in
  let sections := [("Bibliography", true); ("Introduction", false)] in
  let sections :=
    if 2 <=? page_count then sections ++ [("Historical Context", false)] else sections in
  let sections :=
    if 3 <=? page_count
    then sections ++ [("Main Analysis", false); ("Key Findings", false)] else sections in
  let sections :=
    if 4 <=? page_count
    then sections ++ [("Detailed Examination", false); ("Cultural Significance", false)]
    else sections in
  let remaining_sections := total_sections - Z.of_nat (length sections) in
  let sections :=
    sections ++ map (fun i : Z => ("Additional Analysis " +:+ pretty (i + 1), false))
                    (seqZ 0 remaining_sections) in
  let sections := sections ++ [("Conclusion", false)] in
  {| pl_topic := topic;
     pl_total_sections := Z.of_nat (length sections);
     pl_sections := sections;
     pl_current_section := VInt 0 |}.

(** ** [_analyze_provider_diversity]

    Only the first of the four bodies the method carries is reachable;
    the others follow its [return]. *)

Record diversity := {
  diverse_sources : bool;
  total_providers : Z;
  primary_provider : value;
  provider_distribution : list (value * Z)
}.

(** [provider_counts[provider] += 1], the entry being created at 0 when
    absent.  A dict keeps its keys in insertion order and keeps the key
    object first inserted. *)
Fixpoint increment (k : hkey) (provider : value) (counts : list (value * Z))
  : list (value * Z) :=
  match counts with
  | [] => [(provider, 0 + 1)]
  | (p, n) :: rest =>
      if decide (hash_key p = Some k) then (p, n + 1) :: rest
      else (p, n) :: increment k provider rest
  end.

Fixpoint count_providers (sources : list source) (provider_counts : list (value * Z))
  : result (list (value * Z)) :=
  match sources with
  | [] => Ok provider_counts
  | s :: rest =>
      match hash_key (s_provider s) with
      | None => Raise TypeError
      | Some k => count_providers rest (increment k (s_provider s) provider_counts)
      end
  end.

Definition _analyze_provider_diversity (sources : list source) : result diversity :=
  match sources with
  | [] => Ok {| diverse_sources := false; total_providers := 0;
                primary_provider := VStr "None"; provider_distribution := [] |}
  | _ =>
      provider_counts ← count_providers sources [];
      let sorted_providers :=
        sort_desc (fun x y : value * Z => snd x <? snd y) provider_counts in
      let primary_provider :=
        match sorted_providers with
        | p :: _ => fst p
        | [] => VStr "Unknown"
        end in
      let total_providers := Z.of_nat (length provider_counts) in
      Ok {| diverse_sources := 1 <? total_providers;
            total_providers := total_providers;
            primary_provider := primary_provider;
            provider_distribution := provider_counts |}
  end.

(** ** The search client

    [EuropeanaAPI.search], [SearchAPI.advanced_search] and
    [SearchAPI.search_by_type] reach the network; the model takes their
    answers from an oracle.  The n-th call made during a run sees the
    request and either raises or returns a value.  (With the [SearchAPI]
    of this repository [search_by_type] has no [query] parameter, so the
    call of [search_graphics] raises [TypeError] every time: one of the
    behaviours the oracle ranges over.) *)

Inductive endpoint : Type :=
  | AdvancedSearch
  | Search
  | SearchByType.

Record request := {
  rq_endpoint : endpoint;
  rq_query : string;
  rq_type : option string;
  rq_rows : Z
}.

Definition client : Type := nat -> request -> result value.

(** The client of this repository (api.py, search.py).  [http] stands for
    the request and the decoding of its JSON body.  [EuropeanaAPI.search]
    raises [ValueError] without an API key; otherwise it catches every
    failure and returns a dict, which has the key [records] (the [items]
    of the body) only when the body is a dict whose [items] have a
    length.  Of that dict the controller reads [records] alone, the key
    the model keeps.  [SearchAPI.search_by_type] rejects the keyword
    [query] it is called with. *)
Definition search_results (data : result value) : value :=
  match data with
  | Ok (VDict d) =>
      match get_default "items" (VList []) d with
      | (VList _ | VStr _ | VDict _) as items => VDict [("records", items)]
      | _ => VDict [("error", VStr "object has no len()")]
      end
  | Ok _ => VDict [("error", VStr "object has no attribute 'get'")]
  | Raise _ => VDict [("error", VStr "request failed")]
  end.

Definition no_api_key : string :=
  "No Europeana API key available. Set EUROPEANA_API_KEY environment variable or pass api_key parameter.".

Definition repository_client (api_key : bool) (http : nat -> request -> result value)
  : client :=
  fun n rq =>
    match rq_endpoint rq with
    | SearchByType => Raise TypeError
    | AdvancedSearch | Search =>
        if api_key then Ok (search_results (http n rq))
        else Raise (ValueError no_api_key)
    end.

(** [results.get('records', [])] *)
Definition get_records (results : value) : result value :=
  match results with
  | VDict d => Ok (get_default "records" (VList []) d)
  | _ => Raise AttributeError
  end.

(** [search_with_retry], with the request it sends: [n] attempts are left,
    [calls] client calls were made so far.  The exception of the last
    attempt is raised again. *)
Fixpoint search_with_retry (api : client) (rq : request) (n : nat) (calls : nat)
  : nat * result value :=
  match n with
  | O => (calls, Ok (VList []))
  | S n' =>
      match api calls rq ≫= get_records with
      | Ok records => (S calls, Ok records)
      | Raise e =>
          match n' with
          | O => (S calls, Raise e)
          | S _ => search_with_retry api rq n' (S calls)
          end
      end
  end.

Definition max_retries : nat := 3.

(** [for ... in v] *)
Definition iterate (v : value) : result (list value) :=
  match v with
  | VList l => Ok l
  | VStr s => Ok (map (fun c => VStr (String c EmptyString)) (list_ascii_of_string s))
  | VDict d => Ok (map (fun kv => VStr (fst kv)) d)
  | _ => Raise TypeError
  end.

(** [v[0] if isinstance(v, list) else v] *)
Definition first_or_self (v : value) : result value :=
  match v with
  | VList (x :: _) => Ok x
  | VList [] => Raise IndexError
  | _ => Ok v
  end.

(** [r.get(k, [dflt])[0] if isinstance(r.get(k, []), list) else r.get(k, dflt)] *)
Definition field (k : string) (dflt : value) (r : list (string * value)) : result value :=
  match dict_get k r with
  | None => Ok dflt
  | Some v => first_or_self v
  end.

(** [EuropeanaAPI.extract_thumbnail] (api.py) *)
Definition shown_by (v : value) : value :=
  match v with
  | VList (x :: _) => x
  | _ => v
  end.

Fixpoint thumbnail_of_aggregations (aggs : list value) : result value :=
  match aggs with
  | [] => Ok VNone
  | agg :: rest =>
      match agg with
      | VDict a =>
          match dict_get "edmIsShownBy" a with
          | Some v => Ok (shown_by v)
          | None => thumbnail_of_aggregations rest
          end
      | VStr t =>
          if contains "edmIsShownBy" t then Raise TypeError
          else thumbnail_of_aggregations rest
      | VList l =>
          if existsb (eq_str "edmIsShownBy") l then Raise TypeError
          else thumbnail_of_aggregations rest
      | _ => Raise TypeError
      end
  end.

Definition extract_thumbnail (record : list (string * value)) : result value :=
  match dict_get "edmIsShownBy" record with
  | Some v => Ok (shown_by v)
  | None =>
      match dict_get "aggregations" record with
      | Some aggs => aggs ← iterate aggs; thumbnail_of_aggregations aggs
      | None => Ok VNone
      end
  end.

(** ** [search_sources] *)

(** The url of a record: [edmIsShownBy], else [edmIsShownAt], else ['']. *)
Definition record_url (r : list (string * value)) : result value :=
  match dict_get "edmIsShownBy" r with
  | Some v => first_or_self v
  | None =>
      match dict_get "edmIsShownAt" r with
      | Some v => first_or_self v
      | None => Ok (VStr EmptyString)
      end
  end.

(** What [process_result] does once the identifier has entered
    [seen_ids]; [for_sources] is false in [search_graphics], whose
    [process_result] neither counts media types nor looks for a PDF. *)
Definition format_result (for_sources : bool) (topic : string)
  (r : list (string * value)) (id_field : value) (result_type : string) (index : Z)
  : result (option source) :=
  url ← record_url r;
  if negb (truthy url) then Ok None
  else
    title ← field "title" (VStr "Untitled") r;
    description ← field "description" (VStr EmptyString) r;
    let description :=
      if truthy description then description
      else VStr (result_type +:+ " related to " +:+ topic +:+ ": " +:+ py_str title) in
    provider ← field "provider" (VStr "Unknown Provider") r;
    thumbnail ← extract_thumbnail r;
    let media_type := get_default "type" (VStr "Unknown") r in
    _ ← (if for_sources
         then match hash_key media_type with
              | Some _ => Ok ()
              | None => Raise TypeError
              end
         else Ok ());
    rights ← field "rights" (VStr "Unknown Rights") r;
    let date := get_default "year" (VStr "Unknown Date") r in
    is_pdf ← (if for_sources
              then match url with
                   | VStr u => Ok (Some (endswith ".pdf" (lower u)))
                   | _ => Raise AttributeError
                   end
              else Ok None);
    Ok (Some {| s_id := index; s_title := title; s_description := description;
                s_url := url; s_provider := provider; s_thumbnail := thumbnail;
                s_media_type := media_type; s_rights := rights; s_date := date;
                s_europeanaId := id_field; s_is_pdf := is_pdf |}).

(** [process_result]: the running set [seen_ids] and the source, if any.
    Every exception is caught and gives [None]. *)
Definition process_result (for_sources : bool) (topic : string) (seen_ids : gset hkey)
  (result : value) (result_type : string) (index : Z) : gset hkey * option source :=
  match result with
  | VDict r =>
      let id_field := get_default "id" VNone r in
      if negb (truthy id_field) then (seen_ids, None)
      else
        match hash_key id_field with
        | None => (seen_ids, None)
        | Some k =>
            if decide (k ∈ seen_ids) then (seen_ids, None)
            else
              ({[k]} ∪ seen_ids,
               match format_result for_sources topic r id_field result_type index with
               | Ok o => o
               | Raise _ => None
               end)
        end
  | _ => (seen_ids, None)
  end.

(** [for i, result in enumerate(results, start): ...] *)
Fixpoint process_results (for_sources : bool) (topic result_type : string)
  (results : list value) (i : Z) (seen_ids : gset hkey) (all_results : list source)
  : gset hkey * list source :=
  match results with
  | [] => (seen_ids, all_results)
  | r :: rest =>
      let '(seen_ids, o) := process_result for_sources topic seen_ids r result_type i in
      process_results for_sources topic result_type rest (i + 1) seen_ids
        (match o with
         | Some source => all_results ++ [source]
         | None => all_results
         end)
  end.

(** The state of a discovery run. *)
Record discovery := {
  d_calls : nat;
  d_seen : gset hkey;
  d_results : list source
}.

(** One strategy: the search with its retries, then the loop over the
    records; a failure of either leaves the results as they were. *)
Definition run_strategy (api : client) (for_sources : bool) (topic : string)
  (rq : request) (result_type : string) (st : discovery) : discovery :=
  let '(calls, r) := search_with_retry api rq max_retries (d_calls st) in
  match r ≫= iterate with
  | Ok results =>
      let '(seen_ids, all_results) :=
        process_results for_sources topic result_type results
          (Z.of_nat (length (d_results st)) + 1) (d_seen st) (d_results st) in
      {| d_calls := calls; d_seen := seen_ids; d_results := all_results |}
  | Raise _ => {| d_calls := calls; d_seen := d_seen st; d_results := d_results st |}
  end.

(** The request [search_with_retry] of [search_sources] sends.  The
    [language] parameter is added only for a topic with accented letters,
    which ASCII text has not. *)
Definition source_request (query : string) (search_type : option string) (rows : Z)
  : request :=
  let has_complex_syntax := contains " OR " query || contains " AND " query in
  {| rq_endpoint := if has_complex_syntax then AdvancedSearch else Search;
     rq_query := query; rq_type := search_type; rq_rows := rows |}.

(** The quoted phrases of the topic, [re.findall] with a pattern that
    matches a double quote, the longest run of other characters, and a
    double quote, and captures the run. *)
Fixpoint until_quote (s : string) : option (string * nat) :=
  match s with
  | EmptyString => None
  | String c s' =>
      if Ascii.eqb c dquote then Some (EmptyString, O)
      else match until_quote s' with
           | Some (ph, n) => Some (String c ph, S n)
           | None => None
           end
  end.

Fixpoint findall_quoted (skip : nat) (s : string) : list string :=
  match s with
  | EmptyString => []
  | String c s' =>
      match skip with
      | S k => findall_quoted k s'
      | O =>
          if Ascii.eqb c dquote
          then match until_quote s' with
               | Some (ph, n) => ph :: findall_quoted (S n) s'
               | None => findall_quoted 0 s'
               end
          else findall_quoted 0 s'
      end
  end.

Definition keyword_list (topic : string) : list string :=
  let quoted_phrases := findall_quoted 0 topic in
  let temp_topic :=
    fold_left (fun t phrase => replace (quoted phrase) EmptyString t) quoted_phrases topic in
  let words :=
    List.filter
      (fun w => (3 <? len w)
                && negb (existsb (String.eqb (lower w)) ["and"; "or"]))
      (split_ws temp_topic) in
  words ++ quoted_phrases.

Definition keyword_query (keywords : list string) : string :=
  String.concat " OR "
    (map (fun k => if contains " " k then quoted k else k) keywords).

Definition short_of (source_count : Z) (st : discovery) : bool :=
  Z.of_nat (length (d_results st)) <? source_count.

(** Strategy 4: one type-filtered query per media type while sources are
    missing. *)
Fixpoint by_media_type (api : client) (topic : string) (source_count : Z)
  (media_types : list string) (st : discovery) : discovery :=
  match media_types with
  | [] => st
  | media_type :: rest =>
      if negb (short_of source_count st) then st
      else
        by_media_type api topic source_count rest
          (run_strategy api true topic
             (source_request topic (Some media_type)
                (source_count - Z.of_nat (length (d_results st))))
             media_type st)
  end.

(** The strategies of [search_sources], in order. *)
Definition discover_sources (api : client) (calls : nat) (topic : string)
  (source_count : Z) : discovery :=
  let has_or_operators := contains " OR " topic in
  let st := {| d_calls := calls; d_seen := ∅; d_results := [] |} in
  let st := run_strategy api true topic (source_request topic None source_count)
              "Source" st in
  if short_of source_count st && negb has_or_operators
  then
    let st :=
      if short_of source_count st
         && negb (contains (String dquote EmptyString) topic || contains " OR " topic)
      then run_strategy api true topic
             (source_request (quoted topic) None source_count) "Source" st
      else st in
    let st :=
      if short_of source_count st
      then match keyword_list topic with
           | [] => st
           | keywords =>
               run_strategy api true topic
                 (source_request (keyword_query keywords) None source_count) "Source" st
           end
      else st in
    if short_of source_count st
    then by_media_type api topic source_count ["IMAGE"; "VIDEO"; "SOUND"; "TEXT"] st
    else st
  else st.

(** [all_results.sort(key=lambda x: x.get('europeanaId', ''), reverse=True)].
    The identifiers that reach the sort are hashable and true: strings or
    numbers.  Strings compare with strings and numbers with numbers; any
    other pair raises [TypeError], and a sort of two or more elements
    compares across every difference of kind. *)
Definition str_key (s : source) : option string :=
  match s_europeanaId s with
  | VStr t => Some t
  | _ => None
  end.

Definition num_key (s : source) : option Z :=
  match s_europeanaId s with
  | VInt n => Some n
  | VBool b => Some (Z.b2z b)
  | _ => None
  end.

Definition key_lt (x y : source) : bool :=
  match str_key x, str_key y with
  | Some a, Some b => String.ltb a b
  | _, _ =>
      match num_key x, num_key y with
      | Some a, Some b => a <? b
      | _, _ => false
      end
  end.

Definition sort_by_id (l : list source) : result (list source) :=
  match l with
  | [] | [_] => Ok l
  | _ =>
      if forallb (fun s => bool_decide (is_Some (str_key s))) l
         || forallb (fun s => bool_decide (is_Some (num_key s))) l
      then Ok (sort_desc key_lt l)
      else Raise TypeError
  end.

(** The end of [search_sources]: sort, truncate, analyse the providers. *)
Definition rank_sources (source_count : Z) (all_results : list source)
  : result (list source * diversity) :=
  all_results ← sort_by_id all_results;
  let final_results :=
    if 0 <? source_count then take (Z.to_nat source_count) all_results
    else all_results in
  analysis ← _analyze_provider_diversity final_results;
  Ok (final_results, analysis).

(** [search_sources]: the client calls made, the list returned, and the
    value assigned to [self.provider_analysis], if any.  The outer
    [except] returns the empty list. *)
Definition search_sources (api : client) (calls : nat) (topic : string) (source_count : Z)
  : nat * list source * option diversity :=
  let st := discover_sources api calls topic source_count in
  match rank_sources source_count (d_results st) with
  | Ok (final_results, analysis) => (d_calls st, final_results, Some analysis)
  | Raise _ => (d_calls st, [], None)
  end.

(** ** [search_graphics] *)

Definition graphics_request (query search_type : string) (rows : Z) : request :=
  {| rq_endpoint := SearchByType; rq_query := query;
     rq_type := Some search_type; rq_rows := rows |}.

Definition discover_graphics (api : client) (calls : nat) (topic : string) (count : Z)
  : discovery :=
  let st := {| d_calls := calls; d_seen := ∅; d_results := [] |} in
  let st := run_strategy api false topic (graphics_request topic "IMAGE" count) "Image" st in
  let st :=
    if short_of count st
    then match List.filter (fun w => 3 <? len w) (split_ws topic) with
         | [] => st
         | keywords =>
             run_strategy api false topic
               (graphics_request (String.concat " OR " keywords) "IMAGE"
                  (count - Z.of_nat (length (d_results st))))
               "Image" st
         end
    else st in
  let st :=
    if short_of count st
    then run_strategy api false topic
           (graphics_request topic "VIDEO" (count - Z.of_nat (length (d_results st))))
           "Video" st
    else st in
  if short_of count st
  then run_strategy api false topic
         (graphics_request topic "SOUND" (count - Z.of_nat (length (d_results st))))
         "Audio" st
  else st.

(** [all_graphics[:count]] with Python's meaning of a negative bound. *)
Definition slice_to {A} (n : Z) (l : list A) : list A :=
  if 0 <=? n then take (Z.to_nat n) l
  else take (length l - Z.to_nat (- n)) l.

Definition search_graphics (api : client) (calls : nat) (topic : string) (count : Z)
  : nat * list source :=
  let st := discover_graphics api calls topic count in
  match sort_by_id (d_results st) with
  | Ok all_graphics => (d_calls st, slice_to count all_graphics)
  | Raise _ => (d_calls st, [])
  end.

(** ** The session *)

(** The dict [validate_section_data] returns for a section and
    [process_section] appends to [self.report_sections]. *)
Record report_section := {
  section_number : value;
  total_sections : value;
  title : value;
  content : string;
  is_bibliography : value;
  sources_used : value;
  next_section_needed : value
}.

(** The fields of [SequentialReportingServer].  [provider_analysis] is
    [None] for the empty dict it starts as. *)
Record server := {
  topic : option string;
  page_count : Z;
  source_count : Z;
  sources : list source;
  report_sections : list report_section;
  plan : option report_plan;
  _current_step : Z;
  include_graphics : bool;
  graphics : list source;
  provider_analysis : option diversity
}.

Definition DEFAULT_PAGE_COUNT : Z := 4.
Definition DEFAULT_SOURCE_COUNT : Z := 10.

(** [__init__] *)
Definition new_server : server :=
  {| topic := None; page_count := DEFAULT_PAGE_COUNT;
     source_count := DEFAULT_SOURCE_COUNT; sources := []; report_sections := [];
     plan := None; _current_step := 0; include_graphics := false; graphics := [];
     provider_analysis := None |}.

(** What the interpreter supplies and the model does not compute: the
    search client, the text of a traceback, the message of an exception
    the interpreter raises, and the rendering of the progress, which is
    a floating-point division formatted with one decimal. *)
Record runtime := {
  api : client;
  format_exc : exn -> string;
  interpreter_message : exn -> string;
  format_progress : Z -> Z -> string
}.

(** [str(e)] *)
Definition exn_message (rt : runtime) (e : exn) : string :=
  match e with
  | ValueError msg => msg
  | ClientError msg => msg
  | _ => interpreter_message rt e
  end.

(** ** [validate_section_data] *)

(** The four shapes of the dict it returns. *)
Inductive validated : Type :=
  | Init (topic : string) (page_count source_count : option Z)
         (include_graphics : option bool)
  | SearchSources
  | ConfirmSources (confirm_sources : bool)
  | Section (s : report_section).

(** [int(v)]; [None] stands for [ValueError] and [TypeError]. *)
Definition py_int (v : value) : option Z :=
  match v with
  | VInt n => Some n
  | VBool b => Some (Z.b2z b)
  | VStr s => parse_int s
  | _ => None
  end.

(** The integer a [bool] or [int] stands for. *)
Definition as_num (v : value) : option Z :=
  match v with
  | VInt n => Some n
  | VBool b => Some (Z.b2z b)
  | _ => None
  end.

Definition type_repr (v : value) : string :=
  match v with
  | VNone => "<class 'NoneType'>"
  | VBool _ => "<class 'bool'>"
  | VInt _ => "<class 'int'>"
  | VStr _ => "<class 'str'>"
  | VList _ => "<class 'list'>"
  | VDict _ => "<class 'dict'>"
  end.

(** A digit string becomes its number; a [bool] or [int] stays; anything
    else is refused. *)
Definition coerce_number (v : value) (msg : string) : result value :=
  match v with
  | VStr s => if str_isdigit s then Ok (VInt (int_of_digits s)) else Raise (ValueError msg)
  | VInt _ | VBool _ => Ok v
  | _ => Raise (ValueError msg)
  end.

Definition is_list (v : value) : bool :=
  match v with VList _ => true | _ => false end.

Definition validate_section (d : list (string * value)) : result validated :=
  if negb (has_key "section_number" d)
  then Raise (ValueError "Missing required field: section_number")
  else if negb (has_key "total_sections" d)
  then Raise (ValueError "Missing required field: total_sections")
  else
    let is_bibliography := get_default "is_bibliography" (VBool false) d in
    if negb (truthy is_bibliography)
       && (negb (has_key "sources_used" d)
           || negb (truthy (get_default "sources_used" VNone d))
           || negb (is_list (get_default "sources_used" VNone d)))
    then Raise (ValueError
      "Non-bibliography sections must include sources_used with at least one source ID")
    else
      section_number ← coerce_number (get_default "section_number" VNone d)
                          "Invalid sectionNumber: must be a number";
      total_sections ← coerce_number (get_default "total_sections" VNone d)
                          "Invalid totalSections: must be a number";
      let title :=
        get_default "title" (VStr ("Section " +:+ py_str section_number)) d in
      match get_default "content" (VStr EmptyString) d with
      | (VNone | VStr _) as c =>
          let content := match c with VStr t => t | _ => EmptyString end in
          if negb (truthy is_bibliography) && (len (strip content) <? 10)
          then Raise (ValueError
            "Content is required for non-bibliography sections and must be meaningful")
          else
            let sources_used :=
              match get_default "sources_used" (VList []) d with
              | VNone => VList []
              | v => v
              end in
            Ok (Section
                  {| section_number := section_number;
                     total_sections := total_sections;
                     title := title;
                     content := content;
                     is_bibliography := is_bibliography;
                     sources_used := sources_used;
                     next_section_needed :=
                       get_default "next_section_needed" (VBool true) d |})
      | _ => Raise (ValueError "Invalid content: must be a string")
      end.

(** After the second test of [confirm_sources] the source repeats the
    two tests; the repetitions cannot be reached. *)
Definition validate_section_data (input_data : value) : result validated :=
  match input_data with
  | VDict d =>
      if has_key "topic" d
      then Ok (Init (py_str (get_default "topic" VNone d))
                 ((fun v => default DEFAULT_PAGE_COUNT (py_int v))
                    <$> dict_get "page_count" d)
                 ((fun v => default DEFAULT_SOURCE_COUNT (py_int v))
                    <$> dict_get "source_count" d)
                 (truthy <$> dict_get "include_graphics" d))
      else if has_key "search_sources" d && truthy (get_default "search_sources" VNone d)
      then Ok SearchSources
      else if has_key "confirm_sources" d && truthy (get_default "confirm_sources" VNone d)
      then Ok (ConfirmSources true)
      else if has_key "confirm_sources" d
      then Ok (ConfirmSources (truthy (get_default "confirm_sources" VNone d)))
      else validate_section d
  | _ => Raise (ValueError ("Expected dictionary input, got " +:+ type_repr input_data))
  end.

(** ** Responses *)

(** The record [process_section] returns: one text, which is a serialized
    JSON object or a bare string, and the [isError] flag, false when the
    key is absent. *)
Inductive text : Type :=
  | Json (payload : value)
  | Plain (s : string).

Record response := {
  r_text : text;
  isError : bool
}.

Definition ok_response (fields : list (string * value)) : response :=
  {| r_text := Json (VDict fields); isError := false |}.

Definition error_response (fields : list (string * value)) : response :=
  {| r_text := Json (VDict fields); isError := true |}.

Definition opt_str (o : option string) : value :=
  match o with Some s => VStr s | None => VNone end.

Definition json_int (n : nat) : value := VInt (Z.of_nat n).

Definition source_json (s : source) : value :=
  VDict ([ ("id", VInt (s_id s)); ("title", s_title s);
           ("description", s_description s); ("url", s_url s);
           ("provider", s_provider s); ("thumbnail", s_thumbnail s);
           ("media_type", s_media_type s); ("rights", s_rights s);
           ("date", s_date s); ("europeanaId", s_europeanaId s) ]
         ++ match s_is_pdf s with
            | Some b => [("is_pdf", VBool b)]
            | None => []
            end).

Definition issue_json (p : paragraph_issue) : value :=
  VDict [("index", VInt (pi_index p)); ("text", VStr (pi_text p));
         ("issue", VStr (pi_issue p))].

Definition report_guidelines : list string :=
  [ "CRITICAL: NEVER invent or fabricate any information. If sources are insufficient, explicitly state this limitation.";
    "Every statement in the report MUST be directly supported by the content from the sources found.";
    "Use specific citations ([source_id], page X) for EVERY factual claim in the report.";
    "Always include proper references with links to the original sources.";
    "Use PDF content to extract direct quotes and primary source material.";
    "Include images when they help illustrate important concepts.";
    "Explicitly mention where you found each piece of information and explain its relevance.";
    "Try to use at least two different source providers/institutions for varied perspectives.";
    "Include a brief source analysis at the end of each section.";
    "Make connections between different sources when possible.";
    "When analyzing PDFs, cite the specific page number if available.";
    "If sources are insufficient to address an aspect of the topic, clearly state this limitation rather than attempting to fill the gap." ].

Definition plan_json (p : report_plan) : value :=
  VDict [ ("topic", VStr (pl_topic p));
          ("total_sections", VInt (pl_total_sections p));
          ("sections",
           VList (map (fun s : string * bool =>
                         VDict [("title", VStr (fst s)); ("is_bibliography", VBool (snd s))])
                      (pl_sections p)));
          ("current_section", pl_current_section p);
          ("steps", VList (map VStr enhanced_steps));
          ("current_step", VInt 0);
          ("next_step", VStr "Search for sources and extract PDF content");
          ("reportGuidelines", VList (map VStr report_guidelines)) ].

(** The key [json.dumps] writes for a dict key. *)
Definition json_key (v : value) : string :=
  match v with
  | VStr s => s
  | VBool true => "true"
  | VBool false => "false"
  | VNone => "null"
  | _ => py_str v
  end.

Definition distribution_json (o : option diversity) : value :=
  VDict (map (fun e : value * Z => (json_key (fst e), VInt (snd e)))
             (from_option provider_distribution [] o)).

(** ** [format_section]

    The box it builds goes to stderr; what the controller sees of it is
    whether it raises.  A title that is not a string has no [lower], and
    neither has the title of a graphic; [Counter] hashes the providers. *)

Definition is_str (v : value) : bool :=
  match v with VStr _ => true | _ => false end.

(** The providers of the cited sources that exist:
    [if 0 <= source_id - 1 < len(self.sources)]. *)
Fixpoint providers_used (sources : list source) (ids : list value) : result (list value) :=
  match ids with
  | [] => Ok []
  | source_id :: rest =>
      match as_num source_id with
      | None => Raise TypeError
      | Some n =>
          later ← providers_used sources rest;
          if (0 <=? n - 1) && (n - 1 <? Z.of_nat (length sources))
          then match sources !! Z.to_nat (n - 1) with
               | Some source => Ok (s_provider source :: later)
               | None => Ok later
               end
          else Ok later
      end
  end.

(** [len(Counter(providers_used))] *)
Definition count_distinct (providers : list value) : result Z :=
  keys ← mapM (fun p => match hash_key p with
                        | Some k => Ok k
                        | None => Raise TypeError
                        end) providers;
  Ok (Z.of_nat (size (list_to_set keys : gset hkey))).

Definition list_of (v : value) : list value :=
  match v with VList l => l | _ => [] end.

Definition format_section (sv : server) (section : report_section) : result () :=
  let is_bibliography := truthy (is_bibliography section) in
  _ ← (if negb is_bibliography && include_graphics sv
          && negb (bool_decide (graphics sv = []))
       then match title section with
            | VStr t =>
                match split_ws (lower t) with
                | [] => Ok ()
                | _ => if forallb (fun g => is_str (s_title g)) (graphics sv)
                       then Ok () else Raise AttributeError
                end
            | _ => Raise AttributeError
            end
       else Ok ());
  if negb is_bibliography && truthy (sources_used section)
  then providers ← providers_used (sources sv) (list_of (sources_used section));
       _ ← count_distinct providers;
       Ok ()
  else Ok ().

(** ** [process_section] *)

Definition with_sections (sv : server) (l : list report_section) : server :=
  {| topic := topic sv; page_count := page_count sv; source_count := source_count sv;
     sources := sources sv; report_sections := l; plan := plan sv;
     _current_step := _current_step sv; include_graphics := include_graphics sv;
     graphics := graphics sv; provider_analysis := provider_analysis sv |}.

Definition with_plan (sv : server) (p : option report_plan) : server :=
  {| topic := topic sv; page_count := page_count sv; source_count := source_count sv;
     sources := sources sv; report_sections := report_sections sv; plan := p;
     _current_step := _current_step sv; include_graphics := include_graphics sv;
     graphics := graphics sv; provider_analysis := provider_analysis sv |}.

Definition with_step (sv : server) (n : Z) : server :=
  {| topic := topic sv; page_count := page_count sv; source_count := source_count sv;
     sources := sources sv; report_sections := report_sections sv; plan := plan sv;
     _current_step := n; include_graphics := include_graphics sv;
     graphics := graphics sv; provider_analysis := provider_analysis sv |}.

Definition with_sources (sv : server) (l : list source) (a : option diversity) : server :=
  {| topic := topic sv; page_count := page_count sv; source_count := source_count sv;
     sources := l; report_sections := report_sections sv; plan := plan sv;
     _current_step := _current_step sv; include_graphics := include_graphics sv;
     graphics := graphics sv;
     provider_analysis := match a with Some _ => a | None => provider_analysis sv end |}.

Definition with_graphics (sv : server) (l : list source) : server :=
  {| topic := topic sv; page_count := page_count sv; source_count := source_count sv;
     sources := sources sv; report_sections := report_sections sv; plan := plan sv;
     _current_step := _current_step sv; include_graphics := include_graphics sv;
     graphics := l; provider_analysis := provider_analysis sv |}.

(** The two [except] clauses of [process_section]. *)
Definition exception_response (rt : runtime) (e : exn) : response :=
  let prefix := match e with
                | ValueError _ => "Validation error: "
                | _ => "Unexpected error: "
                end in
  error_response [ ("error", VStr (prefix +:+ exn_message rt e));
                   ("status", VStr "failed");
                   ("detailed_message", VStr (format_exc rt e)) ].

(** Initialisation with a topic. *)
Definition initialize (sv : server) (new_topic : string) (pages count : option Z)
  (with_graphics : option bool) : server * response :=
  let page_count := default DEFAULT_PAGE_COUNT pages in
  let source_count := default DEFAULT_SOURCE_COUNT count in
  let include_graphics := default false with_graphics in
  let new_plan := create_plan new_topic page_count in
  ({| topic := Some new_topic; page_count := page_count; source_count := source_count;
      sources := []; report_sections := []; plan := Some new_plan; _current_step := 0;
      include_graphics := include_graphics; graphics := [];
      provider_analysis := provider_analysis sv |},
   ok_response [ ("topic", VStr new_topic);
                 ("pageCount", VInt page_count);
                 ("sourceCount", VInt source_count);
                 ("includeGraphics", VBool include_graphics);
                 ("plan", plan_json new_plan);
                 ("nextStep", VStr "Search for sources using the europeana_search tool") ]).

(** The media type counts of the source summary. *)
Definition media_counts0 : list (string * Z) :=
  [("IMAGE", 0); ("VIDEO", 0); ("SOUND", 0); ("TEXT", 0); ("PDF", 0); ("OTHER", 0)].

Definition bump (k : string) (counts : list (string * Z)) : list (string * Z) :=
  map (fun e : string * Z => if String.eqb (fst e) k then (fst e, snd e + 1) else e) counts.

Fixpoint count_media (l : list source) (media_counts : list (string * Z))
  : result (list (string * Z)) :=
  match l with
  | [] => Ok media_counts
  | source :: rest =>
      match hash_key (s_media_type source) with
      | None => Raise TypeError
      | Some k =>
          let media_type :=
            match k with
            | KStr t => if existsb (String.eqb t) (map fst media_counts0) then t else "OTHER"
            | _ => "OTHER"
            end in
          let media_counts := bump media_type media_counts in
          count_media rest
            (if default false (s_is_pdf source) then bump "PDF" media_counts
             else media_counts)
      end
  end.

Definition no_pdf_warning : string :=
  "WARNING: No sources with readable PDF content were found. This may limit the ability to create a detailed factual report. DO NOT fabricate information - focus only on what is available in the metadata.".

(** The search step, once a topic is known. *)
Definition discover (rt : runtime) (calls : nat) (sv : server) (the_topic : string)
  : nat * server * result response :=
  let '(calls, found, analysis) :=
    search_sources (api rt) calls the_topic (source_count sv) in
  let sv := with_sources sv found analysis in
  match count_media (sources sv) media_counts0 with
  | Raise e => (calls, sv, Raise e)
  | Ok media_counts =>
      let total_found := length (sources sv) in
      match total_found with
      | O =>
          (calls, sv,
           Ok (error_response
                 [ ("error", VStr "No sources found for the topic. Cannot proceed with report generation.");
                   ("status", VStr "failed");
                   ("message", VStr "No sources could be found on this topic. Please try a different search query or topic.") ]))
      | _ =>
          let '(calls, sv) :=
            if include_graphics sv
            then let '(calls, found) := search_graphics (api rt) calls the_topic 5 in
                 (calls, with_graphics sv found)
            else (calls, sv) in
          let sv := with_step sv 1 in
          let shown_graphics := if include_graphics sv then graphics sv else [] in
          let providers := from_option total_providers 0 (provider_analysis sv) in
          let diverse := from_option diverse_sources false (provider_analysis sv) in
          let source_summary :=
            VDict [ ("totalFound", json_int total_found);
                    ("requestedSourceCount", VInt (source_count sv));
                    ("sourcesReturned", json_int (length (sources sv)));
                    ("mediaTypeCounts",
                     VDict (map (fun e : string * Z => (fst e, VInt (snd e))) media_counts));
                    ("sourcesWithPDFContent", VInt 0);
                    ("providersCount", VInt providers);
                    ("graphicsFound", json_int (length shown_graphics)) ] in
          let analysis_message :=
            if diverse
            then "Found " +:+ pretty (Z.of_nat (length (sources sv))) +:+ " sources from "
                 +:+ pretty providers
                 +:+ " different providers. You should use sources from multiple providers in your report for diverse perspectives."
            else "All sources are from a single provider: "
                 +:+ py_str (from_option primary_provider (VStr "Unknown")
                               (provider_analysis sv))
                 +:+ ". Please note this limitation in your report." in
          (calls, sv,
           Ok (ok_response
                 [ ("confirmationRequired", VBool true);
                   ("sourceSummary", source_summary);
                   ("sources", VList (map source_json (sources sv)));
                   ("graphics", VList (map source_json shown_graphics));
                   ("sourceAnalysis",
                    VDict [ ("message", VStr analysis_message);
                            ("providerDistribution",
                             distribution_json (provider_analysis sv));
                            ("diverse", VBool diverse) ]);
                   ("pdfAnalysis", VStr no_pdf_warning);
                   ("sourcesWithContent", VBool false);
                   ("nextStep", VStr "Please confirm if you want to proceed with generating the report using these sources.") ]))
      end
  end.

Definition no_sources_cited : response :=
  error_response
    [ ("error", VStr "No sources cited. Every non-bibliography section must cite specific sources.");
      ("status", VStr "failed");
      ("message", VStr "Please include sources_used parameter with IDs of sources used in this section.") ].

(** The citation checks of a non-bibliography section: [None] when both
    pass, else the response that reports the failure.  The pattern
    analysis that follows them is advisory; its only product is a warning
    that is assigned again before it is read. *)
Definition check_citations (section : report_section) : result (option response) :=
  let content_validation :=
    _verify_content_has_citations (content section) (list_of (sources_used section)) in
  if negb (pr_valid content_validation)
  then Ok (Some (error_response
         [ ("error", VStr ("Content validation failed: " +:+ pr_message content_validation));
           ("status", VStr "failed");
           ("paragraph_issues",
            VList (map issue_json (pr_paragraph_issues content_validation)));
           ("message", VStr "Ensure every substantial paragraph contains citations to source material.") ]))
  else
    citation_check ← verify_citations (content section) (list_of (sources_used section));
    if negb (cc_valid citation_check)
    then Ok (Some (error_response
           [ ("error", VStr ("Citation validation failed: " +:+ cc_message citation_check));
             ("status", VStr "failed");
             ("uncited_sources", VList (cc_uncited_sources citation_check));
             ("invalid_citations", VList (map VInt (cc_invalid_citations citation_check)));
             ("uncited_paragraphs",
              VList (map issue_json (cc_uncited_paragraphs citation_check)));
             ("message", VStr "Every source in sources_used must be cited in the content, and every paragraph must include at least one citation.") ]))
    else Ok None.

Definition num (v : value) : Z := default 0 (as_num v).

(** [l[n]] *)
Definition py_index {A} (l : list A) (n : Z) : result A :=
  let i := if n <? 0 then n + Z.of_nat (length l) else n in
  if i <? 0 then Raise IndexError
  else match l !! Z.to_nat i with
       | Some x => Ok x
       | None => Raise IndexError
       end.

Definition no_content_warning : string :=
  "WARNING: None of the cited sources have extractable content. This severely limits the ability to make factual claims. DO NOT fabricate information - focus only on what is available in the metadata.".

(** What follows the append of an accepted section; the server it
    receives already holds the section. *)
Definition record_section (rt : runtime) (sv : server) (section : report_section)
  : server * result response :=
  match format_section sv section with
  | Raise e => (sv, Raise e)
  | Ok _ =>
      let n := num (section_number section) in
      let '(sv, next_step) :=
        match plan sv with
        | Some p =>
            (with_plan sv (Some {| pl_topic := pl_topic p;
                                   pl_total_sections := pl_total_sections p;
                                   pl_sections := pl_sections p;
                                   pl_current_section := section_number section |}),
             if n <? Z.of_nat (length (pl_sections p))
             then next_section ← py_index (pl_sections p) n;
                  Ok ("Create section " +:+ pretty (n + 1) +:+ ": " +:+ fst next_section)
             else Ok "Report complete")
        | None =>
            (sv, Ok (if negb (truthy (next_section_needed section))
                     then "Report complete" else "Continue writing the report"))
        end in
      (sv,
       next_step ← next_step;
       _ ← (if num (total_sections section) =? 0 then Raise ZeroDivisionError else Ok ());
       let progress :=
         format_progress rt (Z.of_nat (length (report_sections sv)))
           (num (total_sections section)) in
       messages ←
         (if negb (truthy (is_bibliography section)) && truthy (sources_used section)
          then
            providers ← providers_used (sources sv) (list_of (sources_used section));
            distinct ← count_distinct providers;
            let source_analysis_message :=
              if 1 <? distinct
              then "This section uses sources from " +:+ pretty distinct
                   +:+ " different providers. Continue using diverse sources in subsequent sections."
              else match providers with
                   | p :: _ =>
                       "This section uses sources from only one provider: " +:+ py_str p
                       +:+ ". Try to incorporate sources from other providers in the next sections if possible."
                   | [] => "This section doesn't use any sources. Please include citations in your content."
                   end in
            Ok (VStr source_analysis_message,
                VStr "No sources with PDF content were used in this section. Be careful to limit claims to what is explicitly available in metadata.",
                VStr no_content_warning)
          else Ok (VNone, VNone, VNone));
       let '(source_analysis_message, pdf_content_message, warning_message) := messages in
       Ok (ok_response
             [ ("sectionNumber", section_number section);
               ("totalSections", total_sections section);
               ("nextSectionNeeded", next_section_needed section);
               ("progress", VStr progress);
               ("reportSectionsCount", json_int (length (report_sections sv)));
               ("nextStep", VStr next_step);
               ("sources",
                if truthy (is_bibliography section)
                then VList (map source_json (sources sv)) else VNone);
               ("sourceAnalysisMessage", source_analysis_message);
               ("pdfContentMessage", pdf_content_message);
               ("pdfSourcesUsed", VNone);
               ("sourceProviderCount",
                json_int (length (from_option provider_distribution []
                                    (provider_analysis sv))));
               ("imagesAvailable",
                VBool (include_graphics sv && negb (bool_decide (graphics sv = []))));
               ("images",
                if include_graphics sv && negb (bool_decide (graphics sv = []))
                then VList (map source_json (take 3 (graphics sv))) else VNone);
               ("citationWarning", warning_message);
               ("warningMessage", warning_message);
               ("sourceDiversityReminder", VStr "Remember to include proper references with links to original sources, and try to use sources from at least two different providers for varied perspectives.");
               ("noFabricationReminder", VStr "CRITICAL: NEVER invent or fabricate any information. If sources are insufficient, explicitly state these limitations in your report.");
               ("citationReminder", VStr "Every paragraph in your report must contain at least one citation to a source. All statements must be directly supported by the source material.") ]))
  end.

(** A section submission: the input is validated again, the citation
    contract is enforced on a non-bibliography section, and the section
    is appended.  Any other shape of the validated dict has neither
    [is_bibliography] nor [sources_used]. *)
Definition submit_section (rt : runtime) (sv : server) (input_data : value)
  : server * result response :=
  match validate_section_data input_data with
  | Raise e => (sv, Raise e)
  | Ok (Section validated_input) =>
      let checked :=
        if negb (truthy (is_bibliography validated_input))
        then if negb (truthy (sources_used validated_input))
             then Ok (Some no_sources_cited)
             else check_citations validated_input
        else Ok None in
      match checked with
      | Raise e => (sv, Raise e)
      | Ok (Some rejection) => (sv, Ok rejection)
      | Ok None =>
          let validated_input :=
            if num (total_sections validated_input) <? num (section_number validated_input)
            then {| section_number := section_number validated_input;
                    total_sections := section_number validated_input;
                    title := title validated_input;
                    content := content validated_input;
                    is_bibliography := is_bibliography validated_input;
                    sources_used := sources_used validated_input;
                    next_section_needed := next_section_needed validated_input |}
            else validated_input in
          record_section rt
            (with_sections sv (report_sections sv ++ [validated_input]))
            validated_input
      end
  | Ok _ => (sv, Ok no_sources_cited)
  end.

Definition no_topic_text : string :=
  "Error: No topic specified. Please initialize with a topic first.".

Definition process_section (rt : runtime) (calls : nat) (sv : server) (input_data : value)
  : nat * server * response :=
  let caught (r : result response) : response :=
    match r with
    | Ok resp => resp
    | Raise e => exception_response rt e
    end in
  match validate_section_data input_data with
  | Raise e => (calls, sv, exception_response rt e)
  | Ok (Init new_topic pages count with_graphics) =>
      let '(sv, resp) := initialize sv new_topic pages count with_graphics in
      (calls, sv, resp)
  | Ok SearchSources =>
      match topic sv with
      | Some the_topic =>
          if is_empty the_topic
          then (calls, sv, {| r_text := Plain no_topic_text; isError := false |})
          else let '(calls, sv, r) := discover rt calls sv the_topic in
               (calls, sv, caught r)
      | None => (calls, sv, {| r_text := Plain no_topic_text; isError := false |})
      end
  | Ok (ConfirmSources true) =>
      (calls, with_step sv 2,
       ok_response
         [ ("message", VStr "Source selection confirmed. Proceeding with report generation.");
           ("nextStep", VStr "Create bibliography section") ])
  | Ok _ =>
      let '(sv, r) := submit_section rt sv input_data in
      (calls, sv, caught r)
  end.

(** ** Vocabulary of the properties *)

(** The key under which a source's provider and its origin identifier
    are hashed. *)
Definition provider_key (s : source) : option hkey := hash_key (s_provider s).
Definition origin_key (s : source) : option hkey := hash_key (s_europeanaId s).

(** How often a provider occurs in a source list, and where it occurs
    first (the length of the list when it does not occur). *)
Definition frequency (k : hkey) (l : list source) : Z :=
  Z.of_nat (length (List.filter (fun s => bool_decide (provider_key s = Some k)) l)).

Fixpoint first_position (k : hkey) (l : list source) : nat :=
  match l with
  | [] => O
  | s :: rest =>
      if decide (provider_key s = Some k) then O else S (first_position k rest)
  end.

(** The distinct providers of a source list. *)
Definition distinct_providers (l : list source) : gset hkey :=
  list_to_set (omap provider_key l).

(** The provider counts after the sources [done] were read: one entry
    per provider that occurs, holding its frequency, the entries in the
    order in which the providers were first met. *)
Definition tally_entry (done : list source) (e : value * Z) (k : hkey) : Prop :=
  hash_key (fst e) = Some k /\ snd e = frequency k done /\ 0 < snd e
  /\ exists s, s ∈ done /\ s_provider s = fst e.

Definition tallied (done : list source) (counts : list (value * Z)) : Prop :=
  exists ks,
    Forall2 (tally_entry done) counts ks
    /\ NoDup ks
    /\ (forall k, k ∈ ks <-> 0 < frequency k done)
    /\ StronglySorted
         (fun k1 k2 => (first_position k1 done < first_position k2 done)%nat) ks.

(** Ids dense 1..N in list order: the k-th source carries id k. *)
Definition dense_ids (l : list source) : Prop :=
  forall (k : nat) (s : source), l !! k = Some s -> s_id s = Z.of_nat k + 1.

(** A recorded non-bibliography section as the code guarantees it: a
    non-empty list of ids, each cited in a qualifying paragraph of the
    content, and at least ten characters of content apart from
    surrounding whitespace. *)
Definition section_ok (s : report_section) : Prop :=
  truthy (is_bibliography s) = false ->
  (exists l, sources_used s = VList l /\ l <> []
             /\ forall v, v ∈ l ->
                  exists n p, as_num v = Some n /\ p ∈ paragraphs (content s)
                              /\ qualifying p = true /\ n ∈ citations p)
  /\ 10 <= len (strip (content s)).

(** Every id of a non-bibliography section refers to an existing source. *)
Definition section_ids_valid (sv : server) (s : report_section) : Prop :=
  truthy (is_bibliography s) = false ->
  forall v, v ∈ list_of (sources_used s) ->
  exists n, as_num v = Some n /\ 1 <= n <= Z.of_nat (length (sources sv)).

(** A session: the inputs are processed in order; the result is the
    number of client calls, the final state and the responses. *)
Fixpoint run (rt : runtime) (calls : nat) (sv : server) (inputs : list value)
  : nat * server * list response :=
  match inputs with
  | [] => (calls, sv, [])
  | input_data :: rest =>
      let '(calls, sv, r) := process_section rt calls sv input_data in
      let '(calls, sv, rs) := run rt calls sv rest in
      (calls, sv, r :: rs)
  end.

(** The running set and the collected sources of a discovery: the
    sources have pairwise different origin keys, all in the set. *)
Definition deduplicated (seen_ids : gset hkey) (l : list source) : Prop :=
  NoDup (map origin_key l)
  /\ forall s, s ∈ l -> exists k, origin_key s = Some k /\ k ∈ seen_ids.

(** A section submission: a record with none of the keys that select
    another step. *)
Definition section_submission (input_data : value) : Prop :=
  exists d, input_data = VDict d
            /\ has_key "topic" d = false
            /\ has_key "search_sources" d = false
            /\ has_key "confirm_sources" d = false.

(** An error outcome as the interface describes it: the flag is set and
    the payload is an object with an [error] message and a [status]. *)
Definition structured_error (r : response) : Prop :=
  isError r = true /\
  exists fields msg, r_text r = Json (VDict fields)
                     /\ dict_get "error" fields = Some (VStr msg)
                     /\ dict_get "status" fields = Some (VStr "failed").

(** *** Sample data *)

Definition sample_runtime (a : client) : runtime :=
  {| api := a;
     format_exc := fun _ => "Traceback (most recent call last)";
     interpreter_message := fun _ => "error";
     format_progress := fun n d => pretty n +:+ "/" +:+ pretty d |}.

Definition offline : client := fun _ _ => Raise (ClientError "connection refused").

Definition sample_record (eid url provider : string) : value :=
  VDict [ ("id", VStr eid); ("edmIsShownBy", VList [VStr url]);
          ("provider", VList [VStr provider]); ("type", VStr "IMAGE") ].

(** A client that answers the first call with two records and every
    later call with no record. *)
Definition two_records : client := fun n _ =>
  match n with
  | O => Ok (VDict [("records",
                     VList [ sample_record "/9200/a" "http://example.org/a.jpg" "Library";
                             sample_record "/9200/b" "http://example.org/b.jpg" "Museum" ])])
  | S _ => Ok (VDict [("records", VList [])])
  end.

Definition provider_sample (i : Z) (provider eid : string) : source :=
  {| s_id := i; s_title := VStr "Untitled"; s_description := VStr EmptyString;
     s_url := VStr "http://example.org"; s_provider := VStr provider;
     s_thumbnail := VNone; s_media_type := VStr "IMAGE";
     s_rights := VStr "Unknown Rights"; s_date := VStr "Unknown Date";
     s_europeanaId := VStr eid; s_is_pdf := Some false |}.

Definition sources_AAB : list source :=
  [ provider_sample 1 "A" "/1/x"; provider_sample 2 "A" "/1/y";
    provider_sample 3 "B" "/1/z" ].

Definition search_request : value := VDict [("search_sources", VBool true)].
Definition confirm_false : value := VDict [("confirm_sources", VBool false)].

(** A section citing source 99. *)
Definition section_citing_99 : value :=
  VDict [ ("section_number", VInt 2); ("total_sections", VInt 9);
          ("title", VStr "Introduction");
          ("content", VStr "This paragraph is long enough and cites [99].");
          ("sources_used", VList [VInt 99]);
          ("next_section_needed", VBool true) ].

(** A session that sets a topic, discovers two sources, confirms them and
    submits the section citing source 99. *)
Definition session_citing_99 : list value :=
  [ VDict [("topic", VStr "Dutch painting"); ("source_count", VInt 5)];
    search_request;
    VDict [("confirm_sources", VBool true)];
    section_citing_99 ].

Definition long_uncited : string :=
  "This is a long enough paragraph with no citation marker at all.".
Definition long_cited : string :=
  "This is a sufficiently long paragraph citing a source [1] properly.".

(** *** Vocabulary of the further properties *)

(** The same session in another phase: another topic, another step. *)
Definition in_phase (sv : server) (t : option string) (step : Z) : server :=
  {| topic := t; page_count := page_count sv; source_count := source_count sv;
     sources := sources sv; report_sections := report_sections sv; plan := plan sv;
     _current_step := step; include_graphics := include_graphics sv;
     graphics := graphics sv; provider_analysis := provider_analysis sv |}.

(** The plan with another section pointer. *)
Definition plan_at (p : report_plan) (current : value) : report_plan :=
  {| pl_topic := pl_topic p; pl_total_sections := pl_total_sections p;
     pl_sections := pl_sections p; pl_current_section := current |}.

(** Two plans that differ in the section pointer at most. *)
Definition same_plan (p q : option report_plan) : Prop :=
  match p, q with
  | Some a, Some b => exists c, b = plan_at a c
  | None, None => True
  | _, _ => False
  end.

(** The numbers of a recorded section: both are integers and the
    section number does not exceed the total. *)
Definition section_numbers_ok (s : report_section) : Prop :=
  exists n m, as_num (section_number s) = Some n
              /\ as_num (total_sections s) = Some m /\ n <= m.

(** The rule by which a validated section is accepted: a bibliography,
    or a section that passes the presence check and the full
    verification. *)
Definition accepted (s : report_section) : Prop :=
  truthy (is_bibliography s) = true
  \/ (pr_valid (_verify_content_has_citations (content s) (list_of (sources_used s)))
      = true
      /\ exists r, verify_citations (content s) (list_of (sources_used s)) = Ok r
                   /\ cc_valid r = true).

(** A search request: no topic, and a true [search_sources]. *)
Definition search_input (d : list (string * value)) : Prop :=
  has_key "topic" d = false
  /\ truthy (get_default "search_sources" VNone d) = true.

Definition no_sources_found : response :=
  error_response
    [ ("error", VStr "No sources found for the topic. Cannot proceed with report generation.");
      ("status", VStr "failed");
      ("message", VStr "No sources could be found on this topic. Please try a different search query or topic.") ].

Definition init_art : value :=
  VDict [ ("topic", VStr "Art nouveau"); ("page_count", VStr "three");
          ("search_sources", VBool true); ("section_number", VInt 1) ].

(** What [process_result] guarantees of a source it builds; [fs] tells
    [search_sources] from [search_graphics]. *)
Definition well_formed (fs : bool) (s : source) : Prop :=
  1 <= s_id s
  /\ truthy (s_europeanaId s) = true
  /\ is_Some (origin_key s)
  /\ truthy (s_url s) = true
  /\ truthy (s_description s) = true
  /\ if fs
     then (exists u, s_url s = VStr u /\ s_is_pdf s = Some (endswith ".pdf" (lower u)))
          /\ is_Some (hash_key (s_media_type s))
     else s_is_pdf s = None.

(** No source is followed by one with a greater origin identifier. *)
Definition descending (l : list source) : Prop :=
  Sorted (fun x y => key_lt x y = false) l.

(** The answer of the client to the n-th call, as [search_with_retry]
    reads it. *)
Definition answer (a : client) (n : nat) (rq : request) : result value :=
  a n rq ≫= get_records.

Definition failed {A} (r : result A) : Prop :=
  match r with Ok _ => False | Raise _ => True end.

(** The section as it is stored: [total_sections] is raised to the
    section number when that is greater. *)
Definition healed (s : report_section) : report_section :=
  if num (total_sections s) <? num (section_number s)
  then {| section_number := section_number s;
          total_sections := section_number s;
          title := title s;
          content := content s;
          is_bibliography := is_bibliography s;
          sources_used := sources_used s;
          next_section_needed := next_section_needed s |}
  else s.

(** Two states that differ in the sections and the section pointer of
    the plan at most. *)
Definition same_but_sections (sv sv' : server) : Prop :=
  topic sv' = topic sv /\ page_count sv' = page_count sv
  /\ source_count sv' = source_count sv /\ sources sv' = sources sv
  /\ _current_step sv' = _current_step sv
  /\ include_graphics sv' = include_graphics sv /\ graphics sv' = graphics sv
  /\ provider_analysis sv' = provider_analysis sv
  /\ same_plan (plan sv) (plan sv').

Definition flagged (r : result response) : Prop :=
  match r with
  | Ok resp => isError resp = true
  | Raise _ => True
  end.

(** A section whose total is below its number, with a cited source. *)
Definition section_five_of_three : value :=
  VDict [ ("section_number", VInt 5); ("total_sections", VStr "3");
          ("content", VStr long_cited); ("sources_used", VList [VInt 1]) ].

(** A bibliography numbered zero of zero. *)
Definition section_zero_of_zero : value :=
  VDict [ ("section_number", VInt 0); ("total_sections", VInt 0);
          ("content", VStr "Sources"); ("is_bibliography", VBool true) ].

(** ** [analyze_citation_patterns] *)

(** The float [citation_frequency] is kept as the two counts it is
    computed from: it is [paragraphs_with_citations / total_paragraphs
    * 100], and the integer 0 when [total_paragraphs] is 0. *)
Record citation_analysis := {
  ca_valid : bool;
  ca_source_usage : list (value * Z);
  ca_paragraphs_with_citations : Z;
  ca_total_paragraphs : Z;
  ca_paragraphs_without_citations : Z;
  ca_paragraphs_with_multiple_sources : Z;
  ca_all_paragraphs_cited : bool;
  ca_all_sources_used : bool;
  ca_message : string
}.

(** [{source_id: 0 for source_id in sources_used}]: a key equal to an
    earlier one keeps the earlier key and its place. *)
Fixpoint zero_usage (sources_used : list value) (seen : gset hkey)
  : result (list (value * Z)) :=
  match sources_used with
  | [] => Ok []
  | source_id :: rest =>
      match hash_key source_id with
      | None => Raise TypeError
      | Some k =>
          if decide (k ∈ seen) then zero_usage rest seen
          else later ← zero_usage rest ({[k]} ∪ seen); Ok ((source_id, 0) :: later)
      end
  end.

(** [source_id in source_usage] for some [source_id] of the set of the
    paragraph's citations, seen from the key of the dict. *)
Definition cited_in (paragraph_citations : list Z) (key : value) : bool :=
  existsb (fun c => eq_int c key) paragraph_citations.

Record pattern_counts := {
  pc_usage : list (value * Z);
  pc_with_citations : Z;
  pc_without_citations : Z;
  pc_multiple_sources : Z;
  pc_all_cited : bool
}.

(** The loop over the paragraphs. *)
Fixpoint count_patterns (ps : list string) (st : pattern_counts) : pattern_counts :=
  match ps with
  | [] => st
  | p :: rest =>
      if len (strip p) <? 20 then count_patterns rest st
      else
        let paragraph_citations := citations p in
        let cited_sources : gset Z := list_to_set paragraph_citations in
        let source_usage :=
          map (fun e : value * Z =>
                 if cited_in paragraph_citations e.1 then (e.1, e.2 + 1) else e)
              (pc_usage st) in
        count_patterns rest
          match paragraph_citations with
          | [] =>
              {| pc_usage := source_usage;
                 pc_with_citations := pc_with_citations st;
                 pc_without_citations := pc_without_citations st + 1;
                 pc_multiple_sources := pc_multiple_sources st;
                 pc_all_cited := false |}
          | _ =>
              {| pc_usage := source_usage;
                 pc_with_citations := pc_with_citations st + 1;
                 pc_without_citations := pc_without_citations st;
                 pc_multiple_sources :=
                   if 1 <? Z.of_nat (size cited_sources)
                   then pc_multiple_sources st + 1 else pc_multiple_sources st;
                 pc_all_cited := pc_all_cited st |}
          end
  end.

Definition analyze_citation_patterns (content : string) (sources_used : list value)
  : result citation_analysis :=
  let ps := paragraphs content in
  source_usage ← zero_usage sources_used ∅;
  let st :=
    count_patterns ps
      {| pc_usage := source_usage; pc_with_citations := 0; pc_without_citations := 0;
         pc_multiple_sources := 0; pc_all_cited := true |} in
  let unused_sources :=
    map fst (List.filter (fun e : value * Z => e.2 =? 0) (pc_usage st)) in
  let all_sources_used := match unused_sources with [] => true | _ => false end in
  let message_parts :=
    (if pc_all_cited st then []
     else [pretty (pc_without_citations st) +:+ " paragraph(s) without citations"]) ++
    (if all_sources_used then []
     else ["Unused sources: " +:+ String.concat ", " (map py_str unused_sources)]) in
  Ok {| ca_valid := pc_all_cited st && all_sources_used;
        ca_source_usage := pc_usage st;
        ca_paragraphs_with_citations := pc_with_citations st;
        ca_total_paragraphs := Z.of_nat (length ps);
        ca_paragraphs_without_citations := pc_without_citations st;
        ca_paragraphs_with_multiple_sources := pc_multiple_sources st;
        ca_all_paragraphs_cited := pc_all_cited st;
        ca_all_sources_used := all_sources_used;
        ca_message :=
          match message_parts with
          | [] => "All paragraphs properly cited and all sources used."
          | _ => String.concat ". " message_parts
          end |}.

(** The qualifying paragraphs that cite a source, that cite at all, and
    that do not. *)
Definition citing (key : value) (p : string) : bool :=
  qualifying p && cited_in (citations p) key.

Definition is_cited (p : string) : bool :=
  match citations p with [] => false | _ => true end.

Definition cited_paragraph (p : string) : bool := qualifying p && is_cited p.
Definition bare_paragraph (p : string) : bool := qualifying p && negb (is_cited p).

Definition count (f : string -> bool) (ps : list string) : Z :=
  Z.of_nat (length (List.filter f ps)).


(** What holds of the sources and of the graphics of a session at any
    time: the entries are well formed, no two share an origin
    identifier, and they are in descending order of it; the sources are
    no more than a positive [source_count], the graphics no more than
    five. *)
Definition media_ok (fs : bool) (l : list source) : Prop :=
  Forall (well_formed fs) l /\ NoDup (map origin_key l) /\ descending l.

Definition session_media_ok (sv : server) : Prop :=
  media_ok true (sources sv) /\ media_ok false (graphics sv)
  /\ (0 < source_count sv -> Z.of_nat (length (sources sv)) <= source_count sv)
  /\ (length (graphics sv) <= 5)%nat.

Definition art_session : list value :=
  [ VDict [("topic", VStr "Art nouveau"); ("include_graphics", VBool true)];
    search_request;
    VDict [("confirm_sources", VBool true)] ].

(** The repository's client without an API key, over an HTTP layer
    that would answer. *)
Definition keyless : client := repository_client false (fun _ _ => Ok (VDict [])).

Definition art_server : server :=
  (process_section (sample_runtime offline) 0 new_server init_art).1.2.

(** An HTTP layer whose every answer holds two items. *)
Definition two_items : nat -> request -> result value := fun _ _ =>
  Ok (VDict [("items",
              VList [ sample_record "/9200/a" "http://example.org/a.jpg" "Library";
                      sample_record "/9200/b" "http://example.org/b.jpg" "Museum" ])]).

(** ** [extract_and_analyze_pdf_content]

    [record_api.extract_pdf_content] is an oracle: it raises or returns
    a dict, as every return of it in record.py does. *)

Record pdf_analysis := {
  pa_record_id : string;
  pa_source_url : value;
  pa_page_count : value;
  pa_total_pages : value;
  pa_analyzed_pages : value;
  pa_word_count : Z;
  pa_key_terms : list string;
  pa_metadata : value;
  pa_text_sample : string;
  pa_full_text : string;
  pa_content_summary : string
}.

(** The two shapes of the dict it returns: [success] false with an
    error, and [success] true with the analysis. *)
Inductive pdf_outcome : Type :=
  | PdfFailure (record_id : string) (error : value)
  | PdfAnalysis (a : pdf_analysis).

(** [all_text += page.get("content", "") + "\n\n"] for each page. *)
Fixpoint concat_pages (pages : list value) (all_text : string) : result string :=
  match pages with
  | [] => Ok all_text
  | page :: rest =>
      match page with
      | VDict d =>
          match get_default "content" (VStr EmptyString) d with
          | VStr c =>
              concat_pages rest
                (all_text +:+ c +:+ String newline (String newline EmptyString))
          | _ => Raise TypeError
          end
      | _ => Raise AttributeError
      end
  end.

(** [Counter(words)]: the counts in the order in which the words were
    first met. *)
Fixpoint count_word (w : string) (counts : list (string * Z)) : list (string * Z) :=
  match counts with
  | [] => [(w, 1)]
  | (k, c) :: rest =>
      if String.eqb k w then (k, c + 1) :: rest else (k, c) :: count_word w rest
  end.

Definition Counter (words : list string) : list (string * Z) :=
  fold_left (fun counts w => count_word w counts) words [].

(** [most_common(n)]: the [n] first of a stable sort by descending count. *)
Definition most_common (n : nat) (counts : list (string * Z)) : list (string * Z) :=
  take n (sort_desc (fun x y : string * Z => x.2 <? y.2) counts).

(** [min(page_count, 10)]: the first argument unless 10 is less. *)
Definition min_with_10 (page_count : value) : result value :=
  match as_num page_count with
  | Some n => Ok (if 10 <? n then VInt 10 else page_count)
  | None => Raise TypeError
  end.

(** The long words of a text in lower case. *)
Definition long_words (all_text : string) : list string :=
  map lower (List.filter (fun w => 3 <? len w) (split_ws all_text)).

(** The body of the [try]. *)
Definition analyze_pdf (record_id : string) (pdf_result : list (string * value))
  : result pdf_outcome :=
  if has_key "error" pdf_result
  then Ok (PdfFailure record_id
             (get_default "error" (VStr "Unknown error extracting PDF") pdf_result))
  else
    let page_count := get_default "pages" (VInt 0) pdf_result in
    let total_pages := get_default "total_pages" (VInt 0) pdf_result in
    pages ← iterate (get_default "text" (VList []) pdf_result);
    all_text ← concat_pages pages EmptyString;
    if len (strip all_text) <? 100
    then Ok (PdfFailure record_id
               (VStr "Insufficient text content extracted from PDF (less than 100 characters)"))
    else
      let word_count := Z.of_nat (length (split_ws all_text)) in
      let words := long_words all_text in
      let word_freq := most_common 10 (Counter words) in
      let key_terms :=
        map fst (List.filter (fun e : string * Z => 1 <? e.2) word_freq) in
      let pdf_metadata := get_default "pdf_metadata" (VDict []) pdf_result in
      analyzed_pages ← min_with_10 page_count;
      Ok (PdfAnalysis
            {| pa_record_id := record_id;
               pa_source_url := get_default "source" (VStr EmptyString) pdf_result;
               pa_page_count := page_count;
               pa_total_pages := total_pages;
               pa_analyzed_pages := analyzed_pages;
               pa_word_count := word_count;
               pa_key_terms := key_terms;
               pa_metadata := pdf_metadata;
               pa_text_sample :=
                 if 1000 <? len all_text
                 then String.substring 0 1000 all_text +:+ "..." else all_text;
               pa_full_text := all_text;
               pa_content_summary :=
                 "PDF document with " +:+ py_str page_count
                 +:+ " pages extracted out of " +:+ py_str total_pages
                 +:+ " total pages. Contains approximately " +:+ pretty word_count
                 +:+ " words." |}).

Definition extract_and_analyze_pdf_content (rt : runtime)
  (extract_pdf_content : string -> result (list (string * value)))
  (record_id : string) : pdf_outcome :=
  match extract_pdf_content record_id ≫= analyze_pdf record_id with
  | Ok outcome => outcome
  | Raise e =>
      PdfFailure record_id
        (VStr ("Error analyzing PDF content: " +:+ exn_message rt e))
  end.

(** ** [_format_citation] *)

(** [record.get(key, [default])[0] if isinstance(record.get(key, []), list)
    else record.get(key, default)] *)
Definition first_of (key default : string) (record : list (string * value))
  : result value :=
  match dict_get key record with
  | None => Ok (VStr default)
  | Some (VList []) => Raise IndexError
  | Some (VList (x :: _)) => Ok x
  | Some v => Ok v
  end.

Definition _format_citation (record : value) : result string :=
  match record with
  | VDict d =>
      title ← first_of "title" "Unknown Title" d;
      creator ← first_of "creator" "Unknown Creator" d;
      let date := get_default "year" (VStr "n.d.") d in
      provider ← first_of "provider" "Unknown Provider" d;
      let url :=
        match dict_get "edmIsShownAt" d with
        | None => VStr EmptyString
        | Some (VList (x :: _)) => x
        | Some v => v
        end in
      let doc_type := get_default "type" (VStr "TEXT") d in
      let label :=
        if eq_str "IMAGE" doc_type then " [Image]"
        else if eq_str "VIDEO" doc_type then " [Video]"
        else if eq_str "SOUND" doc_type then " [Audio]"
        else EmptyString in
      Ok (py_str creator +:+ ". (" +:+ py_str date +:+ "). " +:+ py_str title
          +:+ label +:+ ". " +:+ py_str provider +:+ ". Retrieved from " +:+ py_str url)
  | _ => Raise AttributeError
  end.

(** How often a word occurs in a list of words. *)
Definition occurrences (k : string) (ws : list string) : Z :=
  Z.of_nat (length (List.filter (String.eqb k) ws)).

(** The counts after the words [ws] were read. *)
Definition counted (ws : list string) (counts : list (string * Z)) : Prop :=
  NoDup (map fst counts)
  /\ (forall k c, (k, c) ∈ counts -> c = occurrences k ws /\ 1 <= c)
  /\ (forall k, k ∉ map fst counts -> occurrences k ws = 0).

(** An extraction of one page that says the same thing twice. *)
Definition one_page : string -> result (list (string * value)) := fun _ =>
  Ok [ ("pages", VInt 1); ("total_pages", VInt 12);
       ("text",
        VList [VDict [("page_number", VInt 1);
                      ("content",
                       VStr "Tulips from Haarlem were traded on paper before the bulbs were lifted. Tulips from Leiden were traded later on.")]]) ].



(** * Properties *)

(** ** Report planner *)

Lemma create_plan_length (t : string) (page_count : Z) :
  1 <= page_count ->
  pl_total_sections (create_plan t page_count) = Z.min (page_count * 2 + 1) 20 + 1.
Proof.
  intros Hpc. unfold create_plan. cbn [pl_total_sections].
  destruct (2 <=? page_count) eqn:H2; destruct (3 <=? page_count) eqn:H3;
    destruct (4 <=? page_count) eqn:H4;
    rewrite ?length_app, ?length_map, ?length_seqZ; cbn [length app]; lia.
Qed.

(** C6. The plan [create_plan] returns for 100 pages has 21 sections, not
    the [min(page_count * 2 + 1, 20) = 20] of the planner's rule: the
    skeleton is filled up to the cap and the conclusion is appended after
    it. *)
Theorem create_plan_100_sections (t : string) :
  pl_total_sections (create_plan t 100) = 21
  /\ Z.min (100 * 2 + 1) 20 = 20
  /\ length (pl_sections (create_plan t 100)) = 21%nat.
Proof. repeat split. Qed.

(** ** Error boundary *)

(** Every response that carries the error flag is a structured error. *)
Lemma exception_response_structured (rt : runtime) (e : exn) :
  structured_error (exception_response rt e).
Proof. split; [done|]. eexists _, _. by repeat split. Qed.

Lemma check_citations_structured (s : report_section) (r : response) :
  check_citations s = Ok (Some r) -> structured_error r.
Proof.
  unfold check_citations. destruct (negb (pr_valid _)).
  - intros [= <-]. split; [done|]. eexists _, _. by repeat split.
  - destruct (verify_citations _ _) as [cc|]; cbn; [|done].
    destruct (negb (cc_valid cc)); [|done].
    intros [= <-]. split; [done|]. eexists _, _. by repeat split.
Qed.

Lemma record_section_unflagged (rt : runtime) (sv : server) (s : report_section)
    (r : response) :
  (record_section rt sv s).2 = Ok r -> isError r = false.
Proof.
  unfold record_section. destruct (format_section sv s); [|done].
  destruct (plan sv); cbn; unfold mbind, result_bind;
    repeat case_match; try done; by intros [= <-].
Qed.

Lemma submit_section_structured (rt : runtime) (sv : server) (input_data : value)
    (r : response) :
  (submit_section rt sv input_data).2 = Ok r -> isError r = true -> structured_error r.
Proof.
  assert (Hnone : structured_error no_sources_cited).
  { split; [done|]. eexists _, _. by repeat split. }
  unfold submit_section.
  destruct (validate_section_data input_data) as [[| | |s]|]; cbn;
    try done; try by intros [= <-].
  destruct (negb (truthy (is_bibliography s))).
  - destruct (negb (truthy (sources_used s))); [by intros [= <-]|].
    destruct (check_citations s) as [[rej|]|] eqn:Hc; cbn; try done.
    + intros [= <-] _. by apply (check_citations_structured s).
    + intros Hr Hflag. apply record_section_unflagged in Hr. congruence.
  - intros Hr Hflag. apply record_section_unflagged in Hr. congruence.
Qed.

Lemma discover_structured (rt : runtime) (calls : nat) (sv : server) (t : string)
    (r : response) :
  (discover rt calls sv t).2 = Ok r -> isError r = true -> structured_error r.
Proof.
  unfold discover.
  destruct (search_sources _ _ _ _) as [[c found] a].
  destruct (count_media _ _); [|done].
  destruct (length _).
  - intros [= <-] _. split; [done|]. eexists _, _. by repeat split.
  - destruct (include_graphics _); [destruct (search_graphics _ _ _ _)|];
      by intros [= <-].
Qed.

Lemma flagged_responses_structured (rt : runtime) (calls : nat) (sv : server)
    (input_data : value) :
  isError (process_section rt calls sv input_data).2 = true ->
  structured_error (process_section rt calls sv input_data).2.
Proof.
  unfold process_section.
  pose proof (submit_section_structured rt sv input_data) as Hsub.
  destruct (validate_section_data input_data) as [[t pc sc ig| |[]|s]|e].
  - done.
  - destruct (topic sv) as [t|]; [|done]. destruct (is_empty t); [done|].
    pose proof (discover_structured rt calls sv t) as Hd.
    destruct (discover rt calls sv t) as [[c sv'] [r|e]]; cbn in *.
    + by apply Hd.
    + intros _. apply exception_response_structured.
  - done.
  - destruct (submit_section rt sv input_data) as [sv' [r|e]]; cbn in *.
    + by apply Hsub.
    + intros _. apply exception_response_structured.
  - destruct (submit_section rt sv input_data) as [sv' [r|e]]; cbn in *.
    + by apply Hsub.
    + intros _. apply exception_response_structured.
  - intros _. apply exception_response_structured.
Qed.

(** C8. A search requested before any topic is set is answered with a
    bare string and without the error flag: not a structured error. *)
Theorem search_without_topic_unflagged (rt : runtime) (calls : nat) :
  process_section rt calls new_server search_request
  = (calls, new_server, {| r_text := Plain no_topic_text; isError := false |})
  /\ ~ structured_error (process_section rt calls new_server search_request).2.
Proof.
  split; [reflexivity|].
  intros [Hflag _]. cbn in Hflag. discriminate.
Qed.

(** C10. The record with [confirm_sources] false is no confirmation: in
    every session state it is rejected on the section path with the
    flagged payload that says no sources were cited, and the state is
    left as it was. *)
Theorem confirm_false_rejected (rt : runtime) (calls : nat) (sv : server) :
  process_section rt calls sv confirm_false = (calls, sv, no_sources_cited)
  /\ structured_error no_sources_cited
  /\ r_text no_sources_cited
     = Json (VDict
         [ ("error", VStr "No sources cited. Every non-bibliography section must cite specific sources.");
           ("status", VStr "failed");
           ("message", VStr "Please include sources_used parameter with IDs of sources used in this section.") ]).
Proof.
  split; [reflexivity|]. split; [|reflexivity].
  split; [reflexivity|]. eexists _, _. repeat split.
Qed.

(** ** Citation verifier *)

Lemma filter_nil_iff {A} (f : A -> bool) (l : list A) :
  List.filter f l = [] <-> forall x, x ∈ l -> f x = false.
Proof.
  induction l as [|a l IH]; cbn.
  - split; [intros _ x Hx; inversion Hx | done].
  - destruct (f a) eqn:Ha.
    + split; [done|]. intros H. specialize (H a (list_elem_of_here _ _)). congruence.
    + rewrite IH. split.
      * intros H x Hx. inversion Hx; subst; auto.
      * intros H x Hx. apply H. by apply list_elem_of_further.
Qed.

Lemma qualifying_false (p : string) :
  qualifying p = false <-> (len (strip p) <? 20) = true.
Proof. unfold qualifying. destruct (len (strip p) <? 20); cbn; split; congruence. Qed.

Lemma presence_issues_exempt (i : Z) (ps : list string) (su : list value) :
  (forall p, p ∈ ps -> qualifying p = false) -> presence_issues i ps su = [].
Proof.
  revert i. induction ps as [|p ps IH]; intros i H; cbn; [done|].
  assert (Hp : qualifying p = false) by (apply H; left).
  apply qualifying_false in Hp. rewrite Hp.
  apply IH. intros q Hq. apply H. by right.
Qed.

(** An issue is only ever raised about a qualifying paragraph. *)
Lemma presence_issues_qualifying (ps : list string) (su : list value) :
  forall (i : Z) (iss : paragraph_issue),
  iss ∈ presence_issues i ps su ->
  exists (j : nat) (p : string),
    ps !! j = Some p /\ pi_index iss = i + Z.of_nat j /\ qualifying p = true.
Proof.
  induction ps as [|p ps IH]; intros i iss Hin; [inversion Hin|].
  cbn [presence_issues] in Hin.
  assert (Hlater : iss ∈ presence_issues (i + 1) ps su ->
            exists (j : nat) (q : string),
              (p :: ps) !! j = Some q /\ pi_index iss = i + Z.of_nat j
              /\ qualifying q = true).
  { intros H. destruct (IH _ _ H) as (j & q & Hj & Hi & Hq).
    exists (S j), q. split; [done|]. split; [lia|done]. }
  destruct (len (strip p) <? 20) eqn:Hlen; [by apply Hlater|].
  assert (Hhere : exists (j : nat) (q : string),
            (p :: ps) !! j = Some q
            /\ i = i + Z.of_nat j /\ qualifying q = true).
  { exists O, p. split; [done|]. split; [lia|]. unfold qualifying. by rewrite Hlen. }
  destruct (citations p) as [|c cs].
  - apply elem_of_cons in Hin as [->|Hin]; [exact Hhere|by apply Hlater].
  - destruct (List.filter _ _).
    + by apply Hlater.
    + apply elem_of_cons in Hin as [->|Hin]; [exact Hhere|by apply Hlater].
Qed.

(** C2. With a non-empty [sources_used], a paragraph under 20 characters
    once stripped is exempt: every issue of the presence check is about a
    paragraph of 20 characters or more, so content whose paragraphs are
    all shorter passes with no paragraph issue, as does the content
    Short.; content that is one paragraph of 20 characters or more
    without a citation token fails with exactly one paragraph issue, as
    does the sample sentence. *)
Theorem presence_check_short_and_uncited (sources_used : list value) :
  sources_used <> [] ->
  (forall (text : string) (iss : paragraph_issue),
     iss ∈ pr_paragraph_issues (_verify_content_has_citations text sources_used) ->
     exists p, paragraphs text !! Z.to_nat (pi_index iss) = Some p
               /\ qualifying p = true)
  /\ (forall text : string,
        (forall p, p ∈ paragraphs text -> qualifying p = false) ->
        pr_valid (_verify_content_has_citations text sources_used) = true
        /\ pr_paragraph_issues (_verify_content_has_citations text sources_used) = [])
  /\ (forall (text p : string),
        paragraphs text = [p] -> qualifying p = true -> citations p = [] ->
        pr_valid (_verify_content_has_citations text sources_used) = false
        /\ length (pr_paragraph_issues
                     (_verify_content_has_citations text sources_used)) = 1%nat)
  /\ _verify_content_has_citations "Short." [VInt 1]
     = {| pr_valid := true; pr_paragraph_issues := [];
          pr_message := "All paragraphs properly cited" |}
  /\ pr_valid (_verify_content_has_citations long_uncited [VInt 1]) = false
  /\ length (pr_paragraph_issues
               (_verify_content_has_citations long_uncited [VInt 1])) = 1%nat.
Proof.
  intros Hne. destruct sources_used as [|v su]; [done|].
  split; [|split; [|split; [|split; [|split]]]].
  - intros text iss Hin. cbn in Hin.
    destruct (presence_issues_qualifying _ _ _ _ Hin) as (j & p & Hj & Hi & Hq).
    exists p. rewrite Hi. split; [|done]. by rewrite Z.add_0_l, Nat2Z.id.
  - intros text Hshort. unfold _verify_content_has_citations.
    rewrite presence_issues_exempt by done. by cbn.
  - intros text p Hp Hq Hc. unfold _verify_content_has_citations.
    rewrite Hp. cbn [presence_issues].
    unfold qualifying in Hq. destruct (len (strip p) <? 20); [done|].
    rewrite Hc. by cbn.
  - vm_compute. reflexivity.
  - vm_compute. reflexivity.
  - vm_compute. reflexivity.
Qed.

Lemma presence_check_short_and_uncited_witness :
  [VInt 1] <> []
  /\ pr_valid (_verify_content_has_citations "Short." [VInt 1]) = true
  /\ length (pr_paragraph_issues
               (_verify_content_has_citations long_uncited [VInt 1])) = 1%nat.
Proof.
  assert (H : [VInt 1] <> []) by discriminate.
  destruct (presence_check_short_and_uncited [VInt 1] H) as (_ & Hshort & Hone & _).
  split; [exact H|]. split.
  - apply (Hshort "Short."). intros p Hp. vm_compute in Hp.
    apply list_elem_of_singleton in Hp. subst p. vm_compute. reflexivity.
  - apply (Hone long_uncited long_uncited); vm_compute; reflexivity.
Defined.

(** The loop of [verify_citations]: the ids it collects are those cited
    in a qualifying paragraph, and it records no issue exactly when every
    qualifying paragraph has a citation and cites listed sources only. *)
Lemma scan_paragraphs_spec (ps : list string) (su : list value) :
  forall (i : Z) (cited : gset Z),
  (forall n, n ∈ (scan_paragraphs i ps su cited).1 <->
     n ∈ cited \/ exists p, p ∈ ps /\ qualifying p = true /\ n ∈ citations p)
  /\ ((scan_paragraphs i ps su cited).2 = [] <->
      forall p, p ∈ ps -> qualifying p = true ->
        citations p <> [] /\ forall c, c ∈ citations p -> int_in c su = true).
Proof.
  induction ps as [|p ps IH]; intros i cited.
  - cbn. split.
    + intros n. split; [auto|]. intros [H|(p & Hp & _)]; [done|inversion Hp].
    + split; [|done]. intros _ p Hp. inversion Hp.
  - cbn [scan_paragraphs]. unfold qualifying in *.
    destruct (len (strip p) <? 20) eqn:Hlen.
    + destruct (IH (i + 1) cited) as [IH1 IH2]. split.
      * intros n. rewrite IH1. split; intros [H|(q & Hq & Hqual & Hn)]; auto; right.
        -- exists q. split; [by right|done].
        -- apply elem_of_cons in Hq as [->|Hq]; [by rewrite Hlen in Hqual|].
           by exists q.
      * rewrite IH2. split; intros H q Hq Hqual.
        -- apply elem_of_cons in Hq as [->|Hq]; [by rewrite Hlen in Hqual|].
           by apply H.
        -- apply H; [by right|done].
    + destruct (IH (i + 1) (cited ∪ list_to_set (citations p))) as [IH1 IH2].
      destruct (scan_paragraphs (i + 1) ps su (cited ∪ list_to_set (citations p)))
        as [cited' later] eqn:Hscan.
      cbn [fst snd] in *. split.
      * intros n. rewrite IH1, elem_of_union, elem_of_list_to_set. split.
        -- intros [[H|H]|(q & Hq & Hqual & Hn)]; auto; right.
           ++ exists p. split; [left|]. by rewrite Hlen.
           ++ exists q. split; [by right|done].
        -- intros [H|(q & Hq & Hqual & Hn)]; auto.
           apply elem_of_cons in Hq as [->|Hq]; auto. right. by exists q.
      * split.
        -- intros H. apply app_eq_nil in H as [Hno H].
           apply app_eq_nil in H as [Hinv Hlater].
           intros q Hq Hqual. apply elem_of_cons in Hq as [->|Hq].
           ++ split.
              ** intros Hc. rewrite Hc in Hno. discriminate.
              ** intros c Hc.
                 destruct (List.filter (fun c => negb (int_in c su)) (citations p))
                   eqn:Hf; [|discriminate].
                 pose proof (proj1 (filter_nil_iff _ _) Hf c Hc) as Hv.
                 by apply negb_false_iff in Hv.
           ++ by apply (proj1 IH2 Hlater).
        -- intros H.
           destruct (H p (list_elem_of_here _ _)) as [Hc Hvalid]; [by rewrite Hlen|].
           assert (Hf : List.filter (fun c => negb (int_in c su)) (citations p) = []).
           { apply filter_nil_iff. intros c Hin. by rewrite (Hvalid c Hin). }
           rewrite Hf. destruct (citations p); [done|]. cbn.
           apply IH2. intros q Hq. apply H. by right.
Qed.

Lemma uncited_spec (su : list value) (cited : gset Z) (l : list value) :
  uncited su cited = Ok l ->
  (l = [] <-> forall v, v ∈ su -> exists n, as_num v = Some n /\ n ∈ cited).
Proof.
  revert l. induction su as [|v su IH]; intros l; cbn.
  - intros [= <-]. split; [|done]. intros _ v Hv. inversion Hv.
  - destruct (hash_key v) as [k|] eqn:Hk; [|done].
    destruct (uncited su cited) as [later|] eqn:Hu; cbn; [|done].
    specialize (IH later eq_refl).
    intros [= <-].
    assert (Hcase : forall n, hash_key v = Some (KNum n) -> as_num v = Some n).
    { intros n. destruct v; cbn; congruence. }
    destruct k as [|n|s].
    + split; [done|]. intros H. destruct (H v (list_elem_of_here _ _)) as (n & Hn & _).
      destruct v; cbn in *; congruence.
    + case_decide as Hin.
      * rewrite IH. split.
        -- intros H w Hw. inversion Hw; subst; [|by apply H].
           exists n. split; [by apply Hcase|done].
        -- intros H w Hw. apply H. by right.
      * split; [done|]. intros H.
        destruct (H v (list_elem_of_here _ _)) as (m & Hm & Hcited).
        rewrite (Hcase n Hk) in Hm. by injection Hm as <-.
    + split; [done|]. intros H. destruct (H v (list_elem_of_here _ _)) as (n & Hn & _).
      destruct v; cbn in *; congruence.
Qed.


Lemma verify_citations_valid_iff (text : string) (su : list value) (r : citation_check) :
  verify_citations text su = Ok r ->
  cc_valid r = true <->
    (forall p, p ∈ paragraphs text -> qualifying p = true -> citations p <> [])
    /\ (forall p c, p ∈ paragraphs text -> qualifying p = true ->
          c ∈ citations p -> int_in c su = true)
    /\ (forall v, v ∈ su ->
          exists n p, as_num v = Some n /\ p ∈ paragraphs text
                      /\ qualifying p = true /\ n ∈ citations p).
Proof.
  unfold verify_citations.
  pose proof (scan_paragraphs_spec (paragraphs text) su 0 ∅) as [Hcited Hissues].
  destruct (scan_paragraphs 0 (paragraphs text) su ∅) as [cited issues] eqn:Hscan.
  cbn [fst snd] in *.
  destruct (uncited su cited) as [unc|] eqn:Hu; cbn; [|done].
  pose proof (uncited_spec _ _ _ Hu) as Hunc.
  intros [= <-]. cbn [cc_valid].
  assert (Hin : forall n, n ∈ cited <->
            exists p, p ∈ paragraphs text /\ qualifying p = true /\ n ∈ citations p).
  { intros n. rewrite Hcited. split; [intros [H|H]; [set_solver|done]|auto]. }
  split.
  - intros Hvalid.
    destruct issues; [|done]. destruct unc; [|done].
    pose proof (proj1 Hissues eq_refl) as Hpar.
    split; [intros p Hp Hq; by apply (Hpar p)|].
    split; [intros p c Hp Hq Hc; by apply (Hpar p)|].
    intros v Hv. destruct (proj1 Hunc eq_refl v Hv) as (n & Hn & Hc).
    apply Hin in Hc as (p & Hp & Hq & Hc). by exists n, p.
  - intros (Hone & Hvalid & Hall).
    assert (Hi : issues = []).
    { apply Hissues. intros p Hp Hq. split; [by apply Hone|]. intros c. by apply Hvalid. }
    assert (Hu' : unc = []).
    { apply Hunc. intros v Hv. destruct (Hall v Hv) as (n & p & Hn & Hp & Hq & Hc).
      exists n. split; [done|]. apply Hin. by exists p. }
    assert (Hf : List.filter (fun c => negb (int_in c su)) (elements cited) = []).
    { apply filter_nil_iff. intros c Hc. apply elem_of_elements, Hin in Hc
        as (p & Hp & Hq & Hc). by rewrite (Hvalid p c). }
    by rewrite Hi, Hu', Hf.
Qed.



(** ** Section submission *)

Lemma get_default_has_key (k : string) (a b : value) (d : list (string * value)) :
  has_key k d = true -> get_default k a d = get_default k b d.
Proof. unfold has_key, get_default. by destruct (dict_get k d). Qed.

Lemma record_section_frame (rt : runtime) (sv : server) (s : report_section) :
  sources (record_section rt sv s).1 = sources sv
  /\ report_sections (record_section rt sv s).1 = report_sections sv.
Proof.
  unfold record_section. destruct (format_section sv s); [|done].
  by destruct (plan sv).
Qed.

(** What [validate_section] accepts: a section whose [sources_used] is
    a non-empty list and whose content has ten characters or more, unless
    it is a bibliography. *)
Lemma validate_section_accepts (d : list (string * value)) (v : validated) :
  validate_section d = Ok v ->
  exists s, v = Section s
    /\ (truthy (is_bibliography s) = false ->
        (exists l, sources_used s = VList l /\ l <> [])
        /\ 10 <= len (strip (content s))).
Proof.
  unfold validate_section.
  destruct (negb (has_key "section_number" d)); [done|].
  destruct (negb (has_key "total_sections" d)); [done|].
  set (bib := get_default "is_bibliography" (VBool false) d).
  destruct (negb (truthy bib) && _) eqn:Hsrc; [done|].
  destruct (coerce_number (get_default "section_number" VNone d) _) as [sn|]; [|done].
  destruct (coerce_number (get_default "total_sections" VNone d) _) as [ts|]; [|done].
  cbn.
  assert (Hlist : truthy bib = false ->
            exists l, match get_default "sources_used" (VList []) d with
                      | VNone => VList []
                      | v => v
                      end = VList l /\ l <> []).
  { intros Hb. rewrite Hb in Hsrc. cbn in Hsrc.
    apply orb_false_iff in Hsrc as [Hsrc Hl].
    apply orb_false_iff in Hsrc as [Hk Ht].
    apply negb_false_iff in Hk, Ht, Hl.
    rewrite <- (get_default_has_key _ VNone) by done.
    destruct (get_default "sources_used" VNone d) as [| | | |l|]; try done.
    exists l. split; [done|]. by destruct l. }
  clear Hsrc.
  destruct (get_default "content" (VStr EmptyString) d) as [| | |t| |]; try done.
  - destruct (negb (truthy bib) && (len _ <? 10)) eqn:Hlen; [done|].
    intros [= <-]. eexists. split; [reflexivity|]. cbn [is_bibliography]. intros Hb.
    split; [by apply Hlist|]. rewrite Hb in Hlen. cbn in Hlen. done.
  - destruct (negb (truthy bib) && (len _ <? 10)) eqn:Hlen; [done|].
    intros [= <-]. eexists. split; [reflexivity|].
    cbn [is_bibliography sources_used content]. intros Hb.
    split; [by apply Hlist|]. rewrite Hb in Hlen. cbn [negb andb] in Hlen. lia.
Qed.

Lemma validate_section_data_accepts (input_data : value) (s : report_section) :
  validate_section_data input_data = Ok (Section s) ->
  truthy (is_bibliography s) = false ->
  (exists l, sources_used s = VList l /\ l <> []) /\ 10 <= len (strip (content s)).
Proof.
  destruct input_data as [| | | | |d]; try done. cbn.
  destruct (has_key "topic" d); [done|].
  destruct (has_key "search_sources" d && _); [done|].
  destruct (has_key "confirm_sources" d && _); [done|].
  destruct (has_key "confirm_sources" d); [done|].
  intros H. apply validate_section_accepts in H as (s' & [= <-] & H). exact H.
Qed.

(** A rejection of the citation checks is an error response; their
    success gives the cited ids. *)
Lemma check_citations_passes (s : report_section) (l : list value) :
  sources_used s = VList l ->
  check_citations s = Ok None ->
  forall v, v ∈ l ->
    exists n p, as_num v = Some n /\ p ∈ paragraphs (content s)
                /\ qualifying p = true /\ n ∈ citations p.
Proof.
  unfold check_citations. intros ->. cbn [list_of].
  destruct (negb (pr_valid _)); [done|].
  destruct (verify_citations (content s) l) as [cc|] eqn:Hv; cbn; [|done].
  destruct (cc_valid cc) eqn:Hvalid; cbn; [|done]. intros _.
  by apply (verify_citations_valid_iff _ _ _ Hv).
Qed.

(** A submission leaves the sources alone and either leaves the sections
    alone or appends one acceptable section. *)
Lemma submit_section_effect (rt : runtime) (sv : server) (input_data : value) :
  sources (submit_section rt sv input_data).1 = sources sv
  /\ (report_sections (submit_section rt sv input_data).1 = report_sections sv
      \/ exists s, report_sections (submit_section rt sv input_data).1
                   = report_sections sv ++ [s] /\ section_ok s).
Proof.
  unfold submit_section.
  destruct (validate_section_data input_data) as [v|e] eqn:Hval; [|by auto].
  destruct v as [| | |s]; try by auto.
  pose proof (validate_section_data_accepts _ _ Hval) as Hacc.
  set (stored := if num (total_sections s) <? num (section_number s) then _ else s).
  assert (Hstored : sources_used stored = sources_used s
                    /\ content stored = content s
                    /\ is_bibliography stored = is_bibliography s).
  { unfold stored. by destruct (_ <? _). }
  destruct Hstored as (Hsu & Hco & Hbib).
  assert (Hok : (truthy (is_bibliography s) = false ->
                 truthy (sources_used s) = true /\ check_citations s = Ok None) ->
                section_ok stored).
  { intros H Hb. rewrite Hbib in Hb. rewrite Hsu, Hco.
    destruct (Hacc Hb) as [(l & Hl & Hne) Hlen]. split; [|done].
    exists l. split; [done|]. split; [done|].
    apply check_citations_passes; [done|]. by apply H. }
  destruct (truthy (is_bibliography s)) eqn:Hb; cbn [negb].
  - destruct (record_section_frame rt
                (with_sections sv (report_sections sv ++ [stored])) stored) as [-> ->].
    split; [done|]. right. exists stored. split; [done|]. by apply Hok.
  - destruct (truthy (sources_used s)) eqn:Ht; cbn [negb]; [|by auto].
    destruct (check_citations s) as [[rej|]|e] eqn:Hc; try by auto.
    destruct (record_section_frame rt
                (with_sections sv (report_sections sv ++ [stored])) stored) as [-> ->].
    split; [done|]. right. exists stored. split; [done|]. by apply Hok.
Qed.

Lemma discover_frame (rt : runtime) (calls : nat) (sv : server) (t : string) :
  report_sections (discover rt calls sv t).1.2 = report_sections sv.
Proof.
  unfold discover.
  destruct (search_sources (api rt) calls t (source_count sv)) as [[c found] a].
  destruct (count_media _ _); [|done].
  destruct (length _); [done|].
  destruct (include_graphics _); [|done].
  by destruct (search_graphics _ _ _ _).
Qed.

Lemma process_section_sections (rt : runtime) (calls : nat) (sv : server)
    (input_data : value) :
  Forall section_ok (report_sections sv) ->
  Forall section_ok (report_sections (process_section rt calls sv input_data).1.2).
Proof.
  intros Hinv. unfold process_section.
  destruct (validate_section_data input_data) as [v|e]; [|done].
  assert (Hsub : Forall section_ok
                   (report_sections (submit_section rt sv input_data).1)).
  { destruct (submit_section_effect rt sv input_data) as [_ [->|(s & -> & Hs)]];
      [done|]. apply Forall_app. split; [done|]. by constructor. }
  destruct v as [t pc sc ig| |[]|s].
  - cbn. constructor.
  - destruct (topic sv) as [t|]; [|done].
    destruct (is_empty t); [done|].
    pose proof (discover_frame rt calls sv t) as Hd.
    destruct (discover rt calls sv t) as [[c sv'] r]. cbn in *. by rewrite Hd.
  - done.
  - by destruct (submit_section rt sv input_data).
  - by destruct (submit_section rt sv input_data).
Qed.

(** C3. A section submission leaves the source list of the session as it
    was, whatever the state and whether the section is accepted or
    rejected. *)
Theorem section_submission_keeps_sources (rt : runtime) (calls : nat) (sv : server)
    (input_data : value) :
  section_submission input_data ->
  sources (process_section rt calls sv input_data).1.2 = sources sv.
Proof.
  intros (d & -> & Ht & Hs & Hc). unfold process_section.
  pose proof (submit_section_effect rt sv (VDict d)) as [Hsrc _].
  cbn [validate_section_data] in *. rewrite Ht, Hs, Hc in *. cbn [andb] in *.
  destruct (validate_section d) as [v|e] eqn:Hv; [|done].
  apply validate_section_accepts in Hv as (s & -> & _).
  by destruct (submit_section rt sv (VDict d)).
Qed.

Lemma section_submission_keeps_sources_witness :
  section_submission section_citing_99
  /\ sources (process_section (sample_runtime offline) 0 new_server
                section_citing_99).1.2 = [].
Proof.
  assert (H : section_submission section_citing_99).
  { eexists. split; [reflexivity|]. by vm_compute. }
  split; [exact H|].
  apply (section_submission_keeps_sources (sample_runtime offline) 0 new_server _ H).
Defined.

(** C7, as the code has it. Every non-bibliography section recorded in a
    session has a non-empty [sources_used] list, each id of which is
    cited in the content, and content of ten characters or more apart
    from surrounding whitespace: the property holds of the sections of a
    state when it held before the inputs were processed. *)
Theorem recorded_sections_ok (rt : runtime) (inputs : list value) :
  forall (calls : nat) (sv : server),
  Forall section_ok (report_sections sv) ->
  Forall section_ok (report_sections (run rt calls sv inputs).1.2).
Proof.
  induction inputs as [|input_data inputs IH]; intros calls sv Hinv; [done|].
  cbn [run].
  pose proof (process_section_sections rt calls sv input_data Hinv) as Hstep.
  destruct (process_section rt calls sv input_data) as [[calls' sv'] r].
  specialize (IH calls' sv' Hstep).
  by destruct (run rt calls' sv' inputs) as [[c s] rs].
Qed.

Lemma recorded_sections_ok_witness :
  Forall section_ok (report_sections new_server)
  /\ Forall section_ok
       (report_sections
          (run (sample_runtime two_records) 0 new_server session_citing_99).1.2).
Proof.
  assert (H : Forall section_ok (report_sections new_server)) by constructor.
  split; [exact H|].
  apply (recorded_sections_ok (sample_runtime two_records) session_citing_99 0
           new_server H).
Defined.


(** C7, as stated, fails: after two sources were discovered, a section
    whose only id is 99 is accepted and recorded. *)
Lemma accepted_section_with_unknown_source :
  let '(_, sv, responses) :=
    run (sample_runtime two_records) 0 new_server session_citing_99 in
  length (sources sv) = 2%nat
  /\ map isError responses = [false; false; false; false]
  /\ length (report_sections sv) = 1%nat
  /\ ~ Forall (section_ids_valid sv) (report_sections sv).
Proof.
  vm_compute.
  split; [reflexivity|]. split; [reflexivity|]. split; [reflexivity|].
  intros H. inversion H as [|s l Hs _]; subst.
  destruct (Hs eq_refl (VInt 99)) as (n & Hn & Hle); [left|].
  injection Hn as <-. destruct Hle as [_ Hle]. by apply Hle.
Qed.

(** ** Source discovery *)

(** C4. With a client that returns two records for the first query,
    [search_sources] returns the second record first, carrying id 2, and
    the first record second, carrying id 1: the ids are those of the
    positions in the search results and the list is then sorted by
    origin identifier. *)
Theorem search_sources_ids_follow_results :
  map s_id (search_sources two_records 0 "Dutch painting" 10).1.2 = [2; 1]
  /\ map s_europeanaId (search_sources two_records 0 "Dutch painting" 10).1.2
     = [VStr "/9200/b"; VStr "/9200/a"]
  /\ ~ dense_ids (search_sources two_records 0 "Dutch painting" 10).1.2.
Proof.
  split; [by vm_compute|]. split; [by vm_compute|].
  intros H. specialize (H 0%nat). vm_compute in H.
  specialize (H _ eq_refl). discriminate H.
Qed.

Lemma format_result_id (fs : bool) (t : string) (r : list (string * value))
    (id_field : value) (result_type : string) (i : Z) (s : source) :
  format_result fs t r id_field result_type i = Ok (Some s) ->
  s_europeanaId s = id_field.
Proof.
  unfold format_result, mbind, result_bind. intros H.
  repeat (case_match; simplify_eq/=); done.
Qed.

Lemma process_result_spec (fs : bool) (t : string) (seen : gset hkey) (r : value)
    (result_type : string) (i : Z) :
  seen ⊆ (process_result fs t seen r result_type i).1
  /\ forall s, (process_result fs t seen r result_type i).2 = Some s ->
       exists k, origin_key s = Some k /\ (k ∉ seen)
                 /\ k ∈ (process_result fs t seen r result_type i).1.
Proof.
  unfold process_result. destruct r as [| | | | |d]; try (split; [done|by intros]).
  destruct (negb (truthy _)); [split; [done|by intros]|].
  destruct (hash_key (get_default "id" VNone d)) as [k|] eqn:Hk;
    [|split; [done|by intros]].
  case_decide as Hin; [split; [done|by intros]|].
  cbn [fst snd]. split; [set_solver|].
  intros s Hs.
  destruct (format_result fs t d _ result_type i) as [o|] eqn:Hf; [|done].
  subst o. apply format_result_id in Hf.
  exists k. unfold origin_key. rewrite Hf. split; [done|]. split; [done|set_solver].
Qed.

Lemma process_results_deduplicated (fs : bool) (t result_type : string)
    (results : list value) :
  forall (i : Z) (seen : gset hkey) (l : list source),
  deduplicated seen l ->
  deduplicated (process_results fs t result_type results i seen l).1
               (process_results fs t result_type results i seen l).2.
Proof.
  induction results as [|r results IH]; intros i seen l Hl; [done|].
  cbn [process_results].
  destruct (process_result_spec fs t seen r result_type i) as [Hsub Hnew].
  destruct (process_result fs t seen r result_type i) as [seen' o].
  cbn [fst snd] in *. apply IH. destruct Hl as [Hnd Hseen].
  destruct o as [s|].
  - destruct (Hnew s eq_refl) as (k & Hk & Hfresh & Hk').
    split.
    + rewrite map_app. cbn. apply NoDup_app. split; [done|]. split.
      * intros o Ho Ho'. apply list_elem_of_singleton in Ho'. subst o.
        apply list_elem_of_fmap in Ho as (s' & Hs' & Hin).
        destruct (Hseen s' Hin) as (k' & Hk'' & Hin'). congruence.
      * apply NoDup_singleton.
    + intros s' Hin. apply elem_of_app in Hin as [Hin|Hin].
      * destruct (Hseen s' Hin) as (k' & ? & ?). exists k'. split; [done|set_solver].
      * apply list_elem_of_singleton in Hin. subst s'. by exists k.
  - split; [done|]. intros s Hin. destruct (Hseen s Hin) as (k & ? & ?).
    exists k. split; [done|set_solver].
Qed.

Lemma run_strategy_deduplicated (a : client) (fs : bool) (t : string) (rq : request)
    (result_type : string) (st : discovery) :
  deduplicated (d_seen st) (d_results st) ->
  deduplicated (d_seen (run_strategy a fs t rq result_type st))
               (d_results (run_strategy a fs t rq result_type st)).
Proof.
  intros H. unfold run_strategy.
  destruct (search_with_retry a rq max_retries (d_calls st)) as [calls r].
  destruct (r ≫= iterate) as [results|]; [|done].
  pose proof (process_results_deduplicated fs t result_type results
                (Z.of_nat (length (d_results st)) + 1) _ _ H) as H'.
  by destruct (process_results _ _ _ _ _ _ _).
Qed.

Lemma by_media_type_deduplicated (a : client) (t : string) (n : Z)
    (media_types : list string) :
  forall st : discovery,
  deduplicated (d_seen st) (d_results st) ->
  deduplicated (d_seen (by_media_type a t n media_types st))
               (d_results (by_media_type a t n media_types st)).
Proof.
  induction media_types as [|m ms IH]; intros st H; [done|].
  cbn [by_media_type]. destruct (negb (short_of n st)); [done|].
  by apply IH, run_strategy_deduplicated.
Qed.

Lemma discover_sources_deduplicated (a : client) (calls : nat) (t : string) (n : Z) :
  deduplicated (d_seen (discover_sources a calls t n))
               (d_results (discover_sources a calls t n)).
Proof.
  unfold discover_sources.
  assert (H0 : deduplicated ∅ []).
  { split; [constructor|]. intros s Hs. inversion Hs. }
  repeat (first [ done | apply by_media_type_deduplicated
                | apply run_strategy_deduplicated | case_match ]).
Qed.

Lemma discover_graphics_deduplicated (a : client) (calls : nat) (t : string) (n : Z) :
  deduplicated (d_seen (discover_graphics a calls t n))
               (d_results (discover_graphics a calls t n)).
Proof.
  unfold discover_graphics.
  assert (H0 : deduplicated ∅ []).
  { split; [constructor|]. intros s Hs. inversion Hs. }
  repeat (first [ done | apply run_strategy_deduplicated | case_match ]).
Qed.

(** The stable sort rearranges and nothing else. *)
Lemma insert_desc_perm {A} (lt : A -> A -> bool) (x : A) (l : list A) :
  insert_desc lt x l ≡ₚ x :: l.
Proof.
  induction l as [|y l IH]; cbn; [done|].
  destruct (lt y x); [done|]. rewrite IH. apply Permutation_swap.
Qed.

Lemma sort_desc_perm {A} (lt : A -> A -> bool) (l : list A) :
  sort_desc lt l ≡ₚ l.
Proof.
  unfold sort_desc.
  assert (H : forall acc, fold_left (fun acc x => insert_desc lt x acc) l acc ≡ₚ acc ++ l).
  { induction l as [|x l IH]; intros acc; cbn; [by rewrite app_nil_r|].
    rewrite IH, insert_desc_perm. cbn. apply Permutation_middle. }
  by rewrite H.
Qed.

Lemma sort_by_id_perm (l l' : list source) : sort_by_id l = Ok l' -> l' ≡ₚ l.
Proof.
  unfold sort_by_id. destruct l as [|x [|y l]]; try by intros [= <-].
  destruct (_ || _); [|done]. intros [= <-]. apply sort_desc_perm.
Qed.

Lemma rank_sources_sublist (n : Z) (l final : list source) (a : diversity) :
  rank_sources n l = Ok (final, a) ->
  exists sorted, sorted ≡ₚ l /\ final `sublist_of` sorted.
Proof.
  unfold rank_sources. destruct (sort_by_id l) as [sorted|] eqn:Hs; cbn; [|done].
  destruct (_analyze_provider_diversity _); cbn; [|done].
  intros [= <- _]. exists sorted. split; [by apply sort_by_id_perm|].
  destruct (0 <? n); [apply sublist_take|done].
Qed.

Lemma origin_keys_distinct (l : list source) :
  NoDup (map origin_key l) -> NoDup (map s_europeanaId l).
Proof.
  intros H. apply (NoDup_fmap_1 hash_key). by rewrite <- list_fmap_compose.
Qed.

(** C5. Whatever the client answers, no two entries of the list
    [search_sources] returns, and no two entries of the list
    [search_graphics] returns, share an origin identifier: neither the
    same [europeanaId] nor two that are equal as dict keys. *)
Theorem discovery_deduplicates (a : client) (calls : nat) (t : string) (n : Z) :
  NoDup (map origin_key (search_sources a calls t n).1.2)
  /\ NoDup (map s_europeanaId (search_sources a calls t n).1.2)
  /\ NoDup (map origin_key (search_graphics a calls t n).2)
  /\ NoDup (map s_europeanaId (search_graphics a calls t n).2).
Proof.
  assert (Hs : NoDup (map origin_key (search_sources a calls t n).1.2)).
  { unfold search_sources.
    destruct (discover_sources_deduplicated a calls t n) as [Hnd _].
    destruct (rank_sources n _) as [[final an]|] eqn:Hr; cbn; [|constructor].
    apply rank_sources_sublist in Hr as (sorted & Hperm & Hsub).
    apply (sublist_NoDup _ (map origin_key sorted)).
    - by rewrite Hperm.
    - by apply fmap_sublist. }
  assert (Hg : NoDup (map origin_key (search_graphics a calls t n).2)).
  { unfold search_graphics.
    destruct (discover_graphics_deduplicated a calls t n) as [Hnd _].
    destruct (sort_by_id _) as [sorted|] eqn:Hr; cbn; [|constructor].
    apply sort_by_id_perm in Hr.
    apply (sublist_NoDup _ (map origin_key sorted)).
    - by rewrite Hr.
    - apply fmap_sublist. unfold slice_to. destruct (0 <=? n); apply sublist_take. }
  split; [done|]. split; [by apply origin_keys_distinct|].
  split; [done|]. by apply origin_keys_distinct.
Qed.

(** ** Provider diversity *)

Lemma frequency_app (k : hkey) (a b : list source) :
  frequency k (a ++ b) = frequency k a + frequency k b.
Proof. unfold frequency. rewrite List.filter_app, length_app. lia. Qed.

Lemma frequency_nonneg (k : hkey) (l : list source) : 0 <= frequency k l.
Proof. unfold frequency. lia. Qed.

Lemma frequency_one (k : hkey) (s : source) :
  frequency k [s] = if decide (provider_key s = Some k) then 1 else 0.
Proof. unfold frequency. cbn. by case_bool_decide; case_decide. Qed.

Lemma frequency_cons (k : hkey) (s : source) (l : list source) :
  frequency k (s :: l)
  = (if decide (provider_key s = Some k) then 1 else 0) + frequency k l.
Proof. by rewrite <- frequency_one, <- frequency_app. Qed.

Lemma first_position_app_absent (k : hkey) (a b : list source) :
  frequency k a = 0 ->
  first_position k (a ++ b) = (length a + first_position k b)%nat.
Proof.
  induction a as [|s a IH]; [done|]. rewrite frequency_cons. cbn.
  pose proof (frequency_nonneg k a) as Hge. case_decide; [lia|]. intros Hz.
  rewrite IH by lia. done.
Qed.

Lemma first_position_app_present (k : hkey) (a b : list source) :
  0 < frequency k a ->
  first_position k (a ++ b) = first_position k a
  /\ (first_position k a < length a)%nat.
Proof.
  induction a as [|s a IH]; [done|]. rewrite frequency_cons. cbn.
  case_decide; [intros _; split; [done|lia]|]. intros Hpos.
  destruct IH as [-> ?]; [lia|]. split; [done|lia].
Qed.

Lemma first_position_absent (k : hkey) (a : list source) :
  frequency k a = 0 -> first_position k a = length a.
Proof.
  intros H. pose proof (first_position_app_absent k a [] H) as H'.
  rewrite app_nil_r in H'. rewrite H'. cbn. lia.
Qed.

Lemma tally_entry_other (done : list source) (s : source) (k : hkey)
    (acc : list (value * Z)) (ks : list hkey) :
  provider_key s = Some k -> k ∉ ks ->
  Forall2 (tally_entry done) acc ks ->
  Forall2 (tally_entry (done ++ [s])) acc ks.
Proof.
  intros Hs Hk H.
  induction H as [|e k' acc ks (He & Hn & Hpos & s' & Hs' & Hp) _ IH]; [constructor|].
  apply not_elem_of_cons in Hk as [Hne Hk]. constructor; [|by apply IH].
  split; [done|]. split; [|split; [done|]].
  - rewrite frequency_app, frequency_one, decide_False by congruence. lia.
  - exists s'. split; [|done]. apply elem_of_app. by left.
Qed.

Lemma increment_present (done : list source) (s : source) (k : hkey)
    (acc : list (value * Z)) (ks : list hkey) :
  provider_key s = Some k -> NoDup ks -> k ∈ ks ->
  Forall2 (tally_entry done) acc ks ->
  Forall2 (tally_entry (done ++ [s])) (increment k (s_provider s) acc) ks.
Proof.
  intros Hs Hnd Hk H.
  induction H as [|[p n] k' acc ks (He & Hn & Hpos & s' & Hs' & Hp) Hrest IH];
    [inversion Hk|].
  cbn in He, Hn, Hpos, Hp. apply NoDup_cons in Hnd as [Hfresh Hnd]. cbn [increment].
  assert (Hstill : exists s0, s0 ∈ done ++ [s] /\ s_provider s0 = p).
  { exists s'. split; [|done]. apply elem_of_app. by left. }
  case_decide as Heq.
  - assert (k' = k) as -> by congruence.
    constructor; [|by apply (tally_entry_other _ _ k)].
    split; [done|]. cbn. split; [|split; [lia|done]].
    rewrite frequency_app, frequency_one, decide_True by done. lia.
  - assert (k' <> k) by congruence.
    apply elem_of_cons in Hk as [->|Hk]; [done|].
    constructor; [|by apply IH].
    split; [done|]. cbn. split; [|split; [done|done]].
    rewrite frequency_app, frequency_one, decide_False by congruence. lia.
Qed.

Lemma increment_absent (done : list source) (s : source) (k : hkey)
    (acc : list (value * Z)) (ks : list hkey) :
  provider_key s = Some k -> k ∉ ks -> frequency k done = 0 ->
  Forall2 (tally_entry done) acc ks ->
  Forall2 (tally_entry (done ++ [s])) (increment k (s_provider s) acc) (ks ++ [k]).
Proof.
  intros Hs Hk Hz H.
  induction H as [|[p n] k' acc ks (He & Hn & Hpos & s' & Hs' & Hp) Hrest IH];
    cbn [increment app].
  - constructor; [|constructor]. split; [done|]. cbn. split; [|split; [lia|]].
    + rewrite frequency_app, frequency_one, decide_True by done. lia.
    + exists s. split; [|done]. apply elem_of_app. right. left.
  - cbn in He, Hn, Hpos, Hp. apply not_elem_of_cons in Hk as [Hne Hk].
    rewrite decide_False by congruence.
    constructor; [|by apply IH].
    split; [done|]. cbn. split; [|split; [done|]].
    + rewrite frequency_app, frequency_one, decide_False by congruence. lia.
    + exists s'. split; [|done]. apply elem_of_app. by left.
Qed.

Lemma strongly_sorted_change {A} (R R' : A -> A -> Prop) (l : list A) :
  (forall x y, x ∈ l -> y ∈ l -> R x y -> R' x y) ->
  StronglySorted R l -> StronglySorted R' l.
Proof.
  intros Himp H. induction H as [|x l Hs IH Hall]; constructor.
  - apply IH. intros y z Hy Hz. apply Himp; by right.
  - apply Forall_forall. intros y Hy. apply Himp; [left|by right|].
    by apply (proj1 (Forall_forall _ _) Hall).
Qed.

(** Reading one more source keeps the counts a tally. *)
Lemma tallied_step (done : list source) (s : source) (k : hkey)
    (acc : list (value * Z)) :
  provider_key s = Some k -> tallied done acc ->
  tallied (done ++ [s]) (increment k (s_provider s) acc).
Proof.
  intros Hs (ks & Hent & Hnd & Hmem & Hsorted).
  assert (Hfreq : forall k', frequency k' (done ++ [s])
             = frequency k' done + if decide (provider_key s = Some k') then 1 else 0).
  { intros k'. by rewrite frequency_app, frequency_one. }
  assert (Hkeep : forall k', k' ∈ ks ->
            first_position k' (done ++ [s]) = first_position k' done
            /\ (first_position k' done < length done)%nat).
  { intros k' Hk'. apply first_position_app_present. by apply Hmem. }
  destruct (decide (k ∈ ks)) as [Hk|Hk].
  - exists ks. split; [by apply increment_present|]. split; [done|]. split.
    + intros k'. rewrite Hmem, Hfreq. pose proof (frequency_nonneg k' done).
      case_decide as Hd; [|lia]. assert (k' = k) as -> by congruence.
      apply Hmem in Hk. lia.
    + apply (fun H => strongly_sorted_change _ _ ks H Hsorted).
      intros x y Hx Hy. destruct (Hkeep x Hx) as [-> _].
      by destruct (Hkeep y Hy) as [-> _].
  - assert (Hz : frequency k done = 0).
    { pose proof (frequency_nonneg k done). destruct (decide (0 < frequency k done));
        [by apply Hmem in l|lia]. }
    exists (ks ++ [k]). split; [by apply increment_absent|]. split.
    { apply NoDup_app. split; [done|]. split; [|apply NoDup_singleton].
      intros x Hx Hx'. apply list_elem_of_singleton in Hx'. by subst. }
    split.
    + intros k'. rewrite elem_of_app, list_elem_of_singleton, Hmem, Hfreq.
      pose proof (frequency_nonneg k' done).
      case_decide as Hd.
      * assert (k' = k) as -> by congruence. split; [lia|by right].
      * split; [intros [? | ->]; [lia|done]|]. intros ?. left. lia.
    + apply StronglySorted_app_2.
      * intros x y Hx Hy. apply list_elem_of_singleton in Hy. subst y.
        destruct (Hkeep x Hx) as [-> Hlt].
        rewrite first_position_app_absent by done. cbn. rewrite decide_True by done. lia.
      * apply (fun H => strongly_sorted_change _ _ ks H Hsorted).
        intros x y Hx Hy. destruct (Hkeep x Hx) as [-> _].
        by destruct (Hkeep y Hy) as [-> _].
      * repeat constructor.
Qed.

Lemma count_providers_tallied (rest : list source) :
  forall (done : list source) (acc : list (value * Z)),
  tallied done acc ->
  Forall (fun s => is_Some (provider_key s)) rest ->
  exists counts, count_providers rest acc = Ok counts /\ tallied (done ++ rest) counts.
Proof.
  induction rest as [|s rest IH]; intros done acc Hacc Hhash.
  - exists acc. by rewrite app_nil_r.
  - apply Forall_cons in Hhash as [[k Hk] Hhash]. cbn [count_providers].
    unfold provider_key in Hk. rewrite Hk.
    destruct (IH (done ++ [s]) (increment k (s_provider s) acc)) as (counts & Hc & Ht);
      [by apply tallied_step|done|].
    exists counts. split; [done|]. by rewrite cons_middle, app_assoc.
Qed.

Lemma frequency_positive (k : hkey) (l : list source) :
  0 < frequency k l <-> k ∈ omap provider_key l.
Proof.
  rewrite list_elem_of_omap. induction l as [|s l IH].
  - split; [done|]. intros (s & Hs & _). inversion Hs.
  - rewrite frequency_cons. pose proof (frequency_nonneg k l). split.
    + case_decide as Hd; [intros _; exists s; split; [left|done]|].
      intros Hpos. destruct (proj1 IH) as (s' & Hs' & Hk'); [lia|].
      exists s'. split; [by right|done].
    + intros (s' & Hs' & Hk'). apply elem_of_cons in Hs' as [->|Hs'].
      * rewrite decide_True by done. lia.
      * assert (0 < frequency k l) by (apply IH; by exists s'). case_decide; lia.
Qed.

(** The head of a list sorted by descending key is the first element of
    the greatest key. *)
Lemma insert_desc_head {A} (lt : A -> A -> bool) (x : A) (l : list A) :
  head (insert_desc lt x l)
  = match head l with
    | None => Some x
    | Some y => if lt y x then Some x else Some y
    end.
Proof. destruct l as [|y l]; cbn; [done|]. by destruct (lt y x). Qed.

Lemma sort_desc_snoc {A} (lt : A -> A -> bool) (x : A) (l : list A) :
  sort_desc lt (l ++ [x]) = insert_desc lt x (sort_desc lt l).
Proof. unfold sort_desc. by rewrite fold_left_app. Qed.

Lemma sort_desc_first_max {A} (f : A -> Z) (l : list A) :
  l <> [] ->
  exists x l1 l2,
    l = l1 ++ x :: l2
    /\ head (sort_desc (fun a b => f a <? f b) l) = Some x
    /\ (forall y, y ∈ l1 -> f y < f x)
    /\ (forall y, y ∈ l2 -> f y <= f x).
Proof.
  induction l as [|x l IH] using rev_ind; [done|]. intros _.
  rewrite sort_desc_snoc, insert_desc_head.
  destruct l as [|z l'].
  - exists x, [], []. cbn. split; [done|]. split; [done|].
    split; intros y Hy; inversion Hy.
  - destruct IH as (m & l1 & l2 & Heq & Hhd & Hbefore & Hafter); [done|].
    rewrite Hhd, Heq. destruct (f m <? f x) eqn:Hlt.
    + apply Z.ltb_lt in Hlt. exists x, (l1 ++ m :: l2), []. split; [done|].
      split; [done|]. split; [|intros y Hy; inversion Hy].
      intros y Hy. apply elem_of_app in Hy as [Hy|Hy].
      * specialize (Hbefore y Hy). lia.
      * apply elem_of_cons in Hy as [->|Hy]; [done|]. specialize (Hafter y Hy). lia.
    + apply Z.ltb_ge in Hlt. exists m, l1, (l2 ++ [x]).
      split; [by rewrite <- app_assoc|]. split; [done|]. split; [done|].
      intros y Hy. apply elem_of_app in Hy as [Hy|Hy]; [by apply Hafter|].
      apply list_elem_of_singleton in Hy. by subst.
Qed.

Lemma Forall2_elem_r {A B} (P : A -> B -> Prop) (l : list A) (k : list B) (y : B) :
  Forall2 P l k -> y ∈ k -> exists x, x ∈ l /\ P x y.
Proof.
  intros H. induction H as [|x y' l k Hxy _ IH]; intros Hy; [inversion Hy|].
  apply elem_of_cons in Hy as [->|Hy].
  - exists x. split; [left|done].
  - destruct (IH Hy) as (x' & Hx' & HP). exists x'. split; [by right|done].
Qed.

(** C9. For a non-empty source list whose providers can be dict keys (as
    the strings of a Source are), the analysis reports as
    [total_providers] the number of distinct providers, as
    [diverse_sources] whether that number exceeds 1, and as
    [primary_provider] the provider of a source of the list whose
    frequency no provider exceeds and which, among the providers of that
    frequency, is met first; for the providers A, A, B it reports
    diverse, 2 providers and A. *)
Theorem provider_diversity_analysis (l : list source) :
  l <> [] ->
  Forall (fun s => is_Some (provider_key s)) l ->
  (exists r k,
     _analyze_provider_diversity l = Ok r
     /\ total_providers r = Z.of_nat (size (distinct_providers l))
     /\ (diverse_sources r = true <-> 1 < Z.of_nat (size (distinct_providers l)))
     /\ hash_key (primary_provider r) = Some k
     /\ (exists s, s ∈ l /\ s_provider s = primary_provider r)
     /\ (forall k', frequency k' l <= frequency k l)
     /\ (forall k', frequency k' l = frequency k l ->
           (first_position k l <= first_position k' l)%nat))
  /\ _analyze_provider_diversity sources_AAB
     = Ok {| diverse_sources := true; total_providers := 2;
             primary_provider := VStr "A";
             provider_distribution := [(VStr "A", 2); (VStr "B", 1)] |}.
Proof.
  intros Hne Hhash. split; [|by vm_compute].
  assert (H0 : tallied [] []).
  { exists []. split; [constructor|]. split; [constructor|].
    split; [|constructor]. intros k. split; [intros H; inversion H|done]. }
  destruct (count_providers_tallied l [] [] H0 Hhash)
    as (counts & Hcount & ks & Hent & Hnd & Hmem & Hsorted).
  cbn [app] in *.
  assert (Hsize : size (distinct_providers l) = length counts).
  { rewrite (Forall2_length _ _ _ Hent), <- (size_list_to_set (C := gset hkey)) by done.
    f_equal. unfold distinct_providers. apply set_eq. intros k.
    by rewrite !elem_of_list_to_set, Hmem, frequency_positive. }
  assert (Hcne : counts <> []).
  { destruct l as [|s l]; [done|]. apply Forall_cons in Hhash as [[k Hk] _].
    assert (Hin : k ∈ ks).
    { apply Hmem. rewrite frequency_cons, decide_True by done.
      pose proof (frequency_nonneg k l). lia. }
    intros ->. apply Forall2_nil_inv_l in Hent. subst ks. inversion Hin. }
  destruct (sort_desc_first_max (fun e : value * Z => snd e) counts Hcne)
    as (x & l1 & l2 & Hsplit & Hhd & Hbefore & Hafter).
  subst counts.
  apply Forall2_app_inv_l in Hent as (k1 & k2' & Hent1 & Hent2 & ->).
  apply Forall2_cons_inv_l in Hent2 as (kx & k2 & (Hkx & Hfx & Hpos & sx & Hsx & Hpx)
                                        & Hent2 & ->).
  assert (Hentry : forall k', 0 < frequency k' l ->
            (exists e, e ∈ l1 /\ snd e = frequency k' l)
            \/ k' = kx
            \/ (k' ∈ k2 /\ exists e, e ∈ l2 /\ snd e = frequency k' l)).
  { intros k' Hk'. apply Hmem in Hk'.
    apply elem_of_app in Hk' as [Hk'|Hk'].
    - left. destruct (Forall2_elem_r _ _ _ _ Hent1 Hk') as (e & He & _ & Hf & _).
      by exists e.
    - apply elem_of_cons in Hk' as [->|Hk']; [by right; left|].
      right. right. split; [done|].
      destruct (Forall2_elem_r _ _ _ _ Hent2 Hk') as (e & He & _ & Hf & _).
      by exists e. }
  eexists _, kx. unfold _analyze_provider_diversity.
  destruct l as [|s0 l0]; [done|]. rewrite Hcount. cbn [mbind result_bind].
  split; [reflexivity|]. cbn [total_providers diverse_sources primary_provider].
  rewrite Hsize.
  split; [done|]. split; [apply Z.ltb_lt|].
  destruct (sort_desc _ _) as [|hd tl]; [done|]. injection Hhd as ->.
  split; [done|]. split; [by exists sx|].
  split.
  - intros k'. pose proof (frequency_nonneg k' (s0 :: l0)) as Hge.
    destruct (decide (0 < frequency k' (s0 :: l0))) as [Hk'|]; [|lia].
    destruct (Hentry k' Hk') as [(e & He & <-)|[->|(_ & e & He & <-)]].
    + specialize (Hbefore e He). lia.
    + lia.
    + specialize (Hafter e He). lia.
  - intros k' Heq.
    destruct (Hentry k') as [(e & He & Hf)|[->|(Hin & _)]]; [lia| | |].
    + specialize (Hbefore e He). lia.
    + done.
    + apply StronglySorted_app_1_r in Hsorted.
      apply StronglySorted_inv in Hsorted as [_ Hall].
      pose proof (proj1 (Forall_forall _ _) Hall k' Hin) as Hlt. cbn beta in Hlt. lia.
Qed.

Lemma provider_diversity_analysis_witness :
  exists r, _analyze_provider_diversity sources_AAB = Ok r
            /\ total_providers r = 2 /\ diverse_sources r = true
            /\ primary_provider r = VStr "A".
Proof.
  assert (Hne : sources_AAB <> []) by discriminate.
  assert (Hhash : Forall (fun s => is_Some (provider_key s)) sources_AAB).
  { repeat constructor; by eexists. }
  destruct (provider_diversity_analysis sources_AAB Hne Hhash) as [_ H].
  eexists. split; [exact H|]. by cbn.
Defined.

(** With the client of this repository every query of [search_graphics]
    fails, and the list it returns is empty. *)
Lemma search_with_retry_by_type (k : bool) (http : nat -> request -> result value)
    (query search_type : string) (rows : Z) (n calls : nat) :
  (search_with_retry (repository_client k http)
     (graphics_request query search_type rows) (S n) calls).2 = Raise TypeError.
Proof.
  revert calls. induction n as [|n IH]; intros calls; [done|].
  specialize (IH (S calls)). by cbn in *.
Qed.

Lemma run_strategy_by_type (k : bool) (http : nat -> request -> result value)
    (t query search_type result_type : string) (rows : Z) (st : discovery) :
  d_results (run_strategy (repository_client k http) false t
               (graphics_request query search_type rows) result_type st)
  = d_results st.
Proof.
  unfold run_strategy.
  pose proof (search_with_retry_by_type k http query search_type rows 2 (d_calls st))
    as H. fold max_retries in H.
  destruct (search_with_retry _ _ _ _) as [calls r]. cbn in H. by subst r.
Qed.

Lemma search_graphics_repository (k : bool) (http : nat -> request -> result value)
    (calls : nat) (t : string) (count : Z) :
  (search_graphics (repository_client k http) calls t count).2 = [].
Proof.
  assert (H : d_results (discover_graphics (repository_client k http) calls t count)
              = []).
  { unfold discover_graphics.
    repeat (first [ rewrite run_strategy_by_type | case_match ]); done. }
  unfold search_graphics, slice_to. rewrite H. cbn.
  destruct (0 <=? count); apply take_nil.
Qed.

(** * Further properties of the code *)

(** ** The steps of [process_section] *)

(** [int] on the edges of what it converts: C whitespace around the
    number is skipped, the separators FS..US are not; a sign must touch
    the digits; 4300 digits are converted and 4301 are not. *)
Lemma py_int_edges :
  py_int (VStr (String "009" (String "011" "5 "))) = Some 5
  /\ py_int (VStr (String "028" "5")) = None
  /\ py_int (VStr (String "053" (String "031" EmptyString))) = None
  /\ py_int (VStr " +1_0 ") = Some 10
  /\ py_int (VStr "- 5") = None
  /\ py_int (VStr "three") = None
  /\ is_Some (py_int (VStr (string_of_list_ascii (repeat "1"%char 4300))))
  /\ py_int (VStr (string_of_list_ascii (repeat "0"%char 4301))) = None
  /\ py_int (VBool true) = Some 1
  /\ py_int (VList [VInt 5]) = None.
Proof.
  repeat split; try by vm_compute.
  eexists. by vm_compute.
Qed.

(** X1. A record with a [topic] key initialises the session whatever
    else it holds and whatever the state: the topic is stored as a
    string, each count is what [int] makes of the value given and the
    default when absent or not convertible, sources, graphics and
    sections are emptied, the step is 0 and a fresh plan is made.  The
    provider analysis of the previous session is kept. *)
Theorem topic_reinitializes (rt : runtime) (calls : nat) (sv : server)
    (d : list (string * value)) :
  has_key "topic" d = true ->
  exists sv' r,
    process_section rt calls sv (VDict d) = (calls, sv', r)
    /\ topic sv' = Some (py_str (get_default "topic" VNone d))
    /\ page_count sv' = match dict_get "page_count" d with
                        | Some v => default DEFAULT_PAGE_COUNT (py_int v)
                        | None => DEFAULT_PAGE_COUNT
                        end
    /\ source_count sv' = match dict_get "source_count" d with
                          | Some v => default DEFAULT_SOURCE_COUNT (py_int v)
                          | None => DEFAULT_SOURCE_COUNT
                          end
    /\ include_graphics sv' = match dict_get "include_graphics" d with
                              | Some v => truthy v
                              | None => false
                              end
    /\ sources sv' = [] /\ graphics sv' = [] /\ report_sections sv' = []
    /\ _current_step sv' = 0
    /\ plan sv' = Some (create_plan (py_str (get_default "topic" VNone d))
                          (page_count sv'))
    /\ provider_analysis sv' = provider_analysis sv
    /\ isError r = false.
Proof.
  intros Ht. unfold process_section. cbn [validate_section_data]. rewrite Ht.
  unfold initialize. eexists _, _. split; [reflexivity|]. cbn.
  destruct (dict_get "page_count" d), (dict_get "source_count" d),
    (dict_get "include_graphics" d); by repeat split.
Qed.

Lemma topic_reinitializes_witness :
  exists sv r,
    process_section (sample_runtime offline) 7
      (run (sample_runtime two_records) 0 new_server session_citing_99).1.2 init_art
    = (7%nat, sv, r)
    /\ topic sv = Some "Art nouveau" /\ page_count sv = 4 /\ sources sv = []
    /\ report_sections sv = [].
Proof.
  destruct (topic_reinitializes (sample_runtime offline) 7
              (run (sample_runtime two_records) 0 new_server session_citing_99).1.2
              (match init_art with VDict d => d | _ => [] end) eq_refl)
    as (sv' & r & Heq & Ht & Hpc & _ & _ & Hs & _ & Hr & _).
  exists sv', r. split; [exact Heq|]. by rewrite Ht, Hpc, Hs, Hr.
Defined.

(** ** Discovery *)

Lemma format_result_well_formed (fs : bool) (t : string) (r : list (string * value))
    (id_field : value) (result_type : string) (i : Z) (s : source) :
  format_result fs t r id_field result_type i = Ok (Some s) ->
  s_id s = i /\ s_europeanaId s = id_field
  /\ truthy (s_url s) = true /\ truthy (s_description s) = true
  /\ if fs
     then (exists u, s_url s = VStr u /\ s_is_pdf s = Some (endswith ".pdf" (lower u)))
          /\ is_Some (hash_key (s_media_type s))
     else s_is_pdf s = None.
Proof.
  unfold format_result, mbind, result_bind. intros H.
  repeat (case_match; simplify_eq/=);
    repeat match goal with
           | H : negb _ = false |- _ => apply negb_false_iff in H
           end;
    repeat split; eauto;
    by destruct result_type.
Qed.

Lemma process_result_well_formed (fs : bool) (t : string) (seen : gset hkey)
    (r : value) (result_type : string) (i : Z) (s : source) :
  1 <= i ->
  (process_result fs t seen r result_type i).2 = Some s -> well_formed fs s.
Proof.
  intros Hi. unfold process_result. destruct r as [| | | | |d]; try done.
  destruct (negb (truthy _)) eqn:Hid; [done|]. apply negb_false_iff in Hid.
  destruct (hash_key (get_default "id" VNone d)) as [k|] eqn:Hk; [|done].
  case_decide; [done|]. cbn [snd].
  destruct (format_result fs t d _ result_type i) as [o|] eqn:Hf; [|done].
  intros ->. apply format_result_well_formed in Hf as (Hi' & Hid' & Hu & Hd & Hfs).
  unfold well_formed, origin_key. rewrite Hi', Hid', Hk. by repeat split.
Qed.

Lemma process_results_well_formed (fs : bool) (t result_type : string)
    (results : list value) :
  forall (i : Z) (seen : gset hkey) (l : list source),
  1 <= i -> Forall (well_formed fs) l ->
  Forall (well_formed fs) (process_results fs t result_type results i seen l).2.
Proof.
  induction results as [|r results IH]; intros i seen l Hi Hl; [done|].
  cbn [process_results].
  pose proof (process_result_well_formed fs t seen r result_type i) as Hnew.
  destruct (process_result fs t seen r result_type i) as [seen' [s|]];
    apply IH; try lia; try done.
  apply Forall_app. split; [done|]. constructor; [by apply Hnew|done].
Qed.

Lemma run_strategy_well_formed (a : client) (fs : bool) (t : string) (rq : request)
    (result_type : string) (st : discovery) :
  Forall (well_formed fs) (d_results st) ->
  Forall (well_formed fs) (d_results (run_strategy a fs t rq result_type st)).
Proof.
  intros H. unfold run_strategy.
  destruct (search_with_retry a rq max_retries (d_calls st)) as [calls r].
  destruct (r ≫= iterate) as [results|]; [|done].
  pose proof (process_results_well_formed fs t result_type results
                (Z.of_nat (length (d_results st)) + 1) (d_seen st) _ ltac:(lia) H).
  by destruct (process_results _ _ _ _ _ _ _).
Qed.

Lemma by_media_type_well_formed (a : client) (t : string) (n : Z)
    (media_types : list string) :
  forall st : discovery,
  Forall (well_formed true) (d_results st) ->
  Forall (well_formed true) (d_results (by_media_type a t n media_types st)).
Proof.
  induction media_types as [|m ms IH]; intros st H; [done|].
  cbn [by_media_type]. destruct (negb (short_of n st)); [done|].
  by apply IH, run_strategy_well_formed.
Qed.

Lemma discover_sources_well_formed (a : client) (calls : nat) (t : string) (n : Z) :
  Forall (well_formed true) (d_results (discover_sources a calls t n)).
Proof.
  unfold discover_sources.
  repeat (first [ apply by_media_type_well_formed
                | apply run_strategy_well_formed | case_match
                | by constructor | done ]).
Qed.

Lemma discover_graphics_well_formed (a : client) (calls : nat) (t : string) (n : Z) :
  Forall (well_formed false) (d_results (discover_graphics a calls t n)).
Proof.
  unfold discover_graphics.
  repeat (first [ apply run_strategy_well_formed | case_match
                | by constructor | done ]).
Qed.

Lemma count_providers_hashable (l : list source) :
  forall (acc counts : list (value * Z)),
  count_providers l acc = Ok counts -> Forall (fun s => is_Some (provider_key s)) l.
Proof.
  induction l as [|s l IH]; intros acc counts H; [constructor|].
  cbn in H. unfold provider_key.
  destruct (hash_key (s_provider s)) as [k|] eqn:Hk; [|done].
  constructor; [by rewrite Hk|]. by eapply IH.
Qed.

Lemma analysis_hashable (l : list source) (a : diversity) :
  _analyze_provider_diversity l = Ok a -> Forall (fun s => is_Some (provider_key s)) l.
Proof.
  destruct l as [|s l]; [constructor|]. unfold _analyze_provider_diversity.
  destruct (count_providers (s :: l) []) as [counts|] eqn:Hc; [|done].
  intros _. by eapply count_providers_hashable.
Qed.

(** What [search_sources] returns together with its sources. *)
Lemma search_sources_ranked (a : client) (calls : nat) (t : string) (n : Z) :
  (search_sources a calls t n).1.2 = [] /\ (search_sources a calls t n).2 = None
  \/ exists sorted an,
       sorted ≡ₚ d_results (discover_sources a calls t n)
       /\ sort_by_id (d_results (discover_sources a calls t n)) = Ok sorted
       /\ (search_sources a calls t n).1.2
          = (if 0 <? n then take (Z.to_nat n) sorted else sorted)
       /\ (search_sources a calls t n).2 = Some an
       /\ _analyze_provider_diversity (search_sources a calls t n).1.2 = Ok an.
Proof.
  unfold search_sources, rank_sources.
  destruct (sort_by_id _) as [sorted|] eqn:Hs; cbn; [|by left].
  destruct (_analyze_provider_diversity _) as [an|] eqn:Ha; cbn; [|by left].
  right. exists sorted, an. split; [by apply sort_by_id_perm|done].
Qed.

(** X2. Every source [search_sources] returns has an id of 1 or more, a
    true and hashable origin identifier, a non-empty string as url with
    the key [is_pdf] telling whether the url ends in .pdf whatever its
    case, a true description, a hashable media type and a hashable
    provider.  Every graphic [search_graphics] returns has an id of 1 or
    more, a true and hashable origin identifier, a true url and
    description, and no key [is_pdf]. *)
Theorem discovered_sources_well_formed (a : client) (calls : nat) (t : string) (n : Z) :
  Forall (well_formed true) (search_sources a calls t n).1.2
  /\ Forall (fun s => is_Some (provider_key s)) (search_sources a calls t n).1.2
  /\ Forall (well_formed false) (search_graphics a calls t n).2.
Proof.
  split; [|split].
  - destruct (search_sources_ranked a calls t n)
      as [[-> _]|(sorted & an & Hperm & _ & -> & _)]; [constructor|].
    assert (H : Forall (well_formed true) sorted).
    { rewrite Hperm. apply discover_sources_well_formed. }
    destruct (0 <? n); [by apply Forall_take|done].
  - destruct (search_sources_ranked a calls t n)
      as [[-> _]|(sorted & an & _ & _ & _ & _ & Han)]; [constructor|].
    by eapply analysis_hashable.
  - unfold search_graphics.
    destruct (sort_by_id _) as [sorted|] eqn:Hs; cbn; [|constructor].
    apply sort_by_id_perm in Hs.
    assert (H : Forall (well_formed false) sorted).
    { rewrite Hs. apply discover_graphics_well_formed. }
    unfold slice_to. destruct (0 <=? n); by apply Forall_take.
Qed.

Lemma key_lt_asym (x y : source) : key_lt x y = true -> key_lt y x = false.
Proof.
  unfold key_lt.
  assert (Hnum : match num_key x, num_key y with
                 | Some a, Some b => a <? b
                 | _, _ => false
                 end = true ->
                 match num_key y, num_key x with
                 | Some a, Some b => a <? b
                 | _, _ => false
                 end = false).
  { destruct (num_key x), (num_key y); try done. intros H. apply Z.ltb_lt in H.
    apply Z.ltb_ge. lia. }
  destruct (str_key x) as [a|], (str_key y) as [b|]; try done.
  unfold String.ltb. rewrite (String.compare_antisym a b).
  by destruct (String.compare b a).
Qed.

Lemma insert_desc_sorted (x : source) (l : list source) :
  descending l -> descending (insert_desc key_lt x l).
Proof.
  unfold descending. induction l as [|y l IH]; intros Hl; cbn.
  - by repeat constructor.
  - apply Sorted_inv in Hl as [Hl Hhd]. destruct (key_lt y x) eqn:Hyx.
    + constructor; [by constructor|]. constructor. by apply key_lt_asym.
    + constructor; [by apply IH|].
      destruct l as [|z l]; cbn; [by constructor|].
      destruct (key_lt z x); constructor; [done|]. by apply HdRel_inv in Hhd.
Qed.

Lemma sort_desc_sorted (l : list source) : descending (sort_desc key_lt l).
Proof.
  induction l as [|x l IH] using rev_ind; [constructor|].
  rewrite sort_desc_snoc. by apply insert_desc_sorted.
Qed.

Lemma descending_take (n : nat) (l : list source) :
  descending l -> descending (take n l).
Proof.
  unfold descending. revert n. induction l as [|x l IH]; intros n Hl.
  - by destruct n.
  - destruct n as [|n]; [constructor|]. cbn.
    apply Sorted_inv in Hl as [Hl Hhd]. constructor; [by apply IH|].
    destruct l as [|y l]; [by destruct n; constructor|].
    destruct n; constructor. by apply HdRel_inv in Hhd.
Qed.

Lemma sort_by_id_sorted (l sorted : list source) :
  sort_by_id l = Ok sorted -> descending sorted.
Proof.
  unfold sort_by_id. destruct l as [|x [|y l]].
  - intros [= <-]. constructor.
  - intros [= <-]. by repeat constructor.
  - destruct (_ || _); [|done]. intros [= <-]. apply sort_desc_sorted.
Qed.

(** X3. The lists [search_sources] and [search_graphics] return are in
    descending order of origin identifier: no entry is followed by one
    whose identifier is greater. *)
Theorem discovery_sorted_by_identifier (a : client) (calls : nat) (t : string) (n : Z) :
  descending (search_sources a calls t n).1.2
  /\ descending (search_graphics a calls t n).2.
Proof.
  split.
  - destruct (search_sources_ranked a calls t n)
      as [[-> _]|(sorted & an & _ & Hs & -> & _)]; [constructor|].
    apply sort_by_id_sorted in Hs.
    destruct (0 <? n); [by apply descending_take|done].
  - unfold search_graphics.
    destruct (sort_by_id _) as [sorted|] eqn:Hs; cbn; [|constructor].
    apply sort_by_id_sorted in Hs. unfold slice_to.
    destruct (0 <=? n); by apply descending_take.
Qed.

(** X4. [search_sources] returns at most [source_count] sources when
    that count is positive, and [search_graphics] at most [count]
    graphics when that count is not negative. *)
Theorem discovery_bounded (a : client) (calls : nat) (t : string) (n : Z) :
  (0 < n -> Z.of_nat (length (search_sources a calls t n).1.2) <= n)
  /\ (0 <= n -> Z.of_nat (length (search_graphics a calls t n).2) <= n).
Proof.
  split; intros Hn.
  - destruct (search_sources_ranked a calls t n)
      as [[-> _]|(sorted & an & _ & _ & -> & _)]; [cbn; lia|].
    rewrite (proj2 (Z.ltb_lt 0 n) Hn), length_take. lia.
  - unfold search_graphics. destruct (sort_by_id _); cbn; [|lia].
    unfold slice_to. rewrite (proj2 (Z.leb_le 0 n) Hn), length_take. lia.
Qed.

Lemma discovery_bounded_witness :
  Z.of_nat (length (search_sources two_records 0 "Dutch painting" 1).1.2) <= 1.
Proof.
  apply (proj1 (discovery_bounded two_records 0 "Dutch painting" 1)). lia.
Defined.

(** The retries of one search. *)
Lemma search_with_retry_spec (a : client) (rq : request) (n : nat) :
  forall calls : nat,
  (calls < (search_with_retry a rq (S n) calls).1 <= calls + S n)%nat
  /\ (forall j, (calls <= j < (search_with_retry a rq (S n) calls).1 - 1)%nat ->
        failed (answer a j rq))
  /\ (search_with_retry a rq (S n) calls).2
     = answer a ((search_with_retry a rq (S n) calls).1 - 1) rq
  /\ (failed (search_with_retry a rq (S n) calls).2 ->
      (search_with_retry a rq (S n) calls).1 = (calls + S n)%nat).
Proof.
  induction n as [|n IH]; intros calls.
  - cbn [search_with_retry]. fold (answer a calls rq).
    destruct (answer a calls rq) as [v|e] eqn:Ha; cbn [fst snd];
      rewrite ?Nat.sub_succ, ?Nat.sub_0_r, ?Ha;
      (split; [lia|]); (split; [intros j Hj; lia|]); split; try done; lia.
  - change (search_with_retry a rq (S (S n)) calls)
      with (match answer a calls rq with
            | Ok records => (S calls, Ok records)
            | Raise e => search_with_retry a rq (S n) (S calls)
            end).
    destruct (answer a calls rq) as [v|e] eqn:Ha.
    + cbn [fst snd]. rewrite ?Nat.sub_succ, ?Nat.sub_0_r, ?Ha.
      split; [lia|]. split; [intros j Hj; lia|]. by split.
    + destruct (IH (S calls)) as (Hc & Hf & Hr & Hall).
      split; [lia|]. split; [|split; [done|intros H; rewrite (Hall H); lia]].
      intros j Hj. destruct (decide (j = calls)) as [->|]; [by rewrite Ha|].
      apply Hf. lia.
Qed.

(** X5. One search makes one, two or three calls to the client.  It
    returns the records of its last call, every call before the last
    having failed, and it raises exactly when all three calls failed, with
    the exception of the third. *)
Theorem search_with_retry_three_attempts (a : client) (rq : request) (calls : nat) :
  (calls < (search_with_retry a rq max_retries calls).1 <= calls + 3)%nat
  /\ (forall j, (calls <= j < (search_with_retry a rq max_retries calls).1 - 1)%nat ->
        failed (answer a j rq))
  /\ (search_with_retry a rq max_retries calls).2
     = answer a ((search_with_retry a rq max_retries calls).1 - 1) rq
  /\ (failed (search_with_retry a rq max_retries calls).2 <->
      failed (answer a calls rq) /\ failed (answer a (calls + 1) rq)
      /\ failed (answer a (calls + 2) rq)).
Proof.
  unfold max_retries.
  destruct (search_with_retry_spec a rq 2 calls) as (Hc & Hf & Hr & Hall).
  split; [lia|]. split; [done|]. split; [done|]. split.
  - intros H. specialize (Hall H). rewrite Hall in Hf.
    split; [apply Hf; lia|]. split; [apply Hf; lia|].
    rewrite Hr, Hall in H. by replace (calls + 3 - 1)%nat with (calls + 2)%nat in H by lia.
  - intros (H0 & H1 & H2). rewrite Hr.
    set (c := (search_with_retry a rq 3 calls).1) in *.
    assert (c = S calls \/ c = S (S calls) \/ c = S (S (S calls))) as [-> | [-> | ->]] by lia.
    + by rewrite Nat.sub_succ, Nat.sub_0_r.
    + rewrite Nat.sub_succ, Nat.sub_0_r. by replace (S calls) with (calls + 1)%nat by lia.
    + rewrite Nat.sub_succ, Nat.sub_0_r.
      by replace (S (S calls)) with (calls + 2)%nat by lia.
Qed.

Lemma run_strategy_calls (a : client) (fs : bool) (t : string) (rq : request)
    (result_type : string) (st : discovery) :
  (d_calls st < d_calls (run_strategy a fs t rq result_type st) <= d_calls st + 3)%nat.
Proof.
  unfold run_strategy, max_retries.
  destruct (search_with_retry_spec a rq 2 (d_calls st)) as (Hc & _).
  destruct (search_with_retry a rq 3 (d_calls st)) as [calls r]. cbn [fst] in Hc.
  destruct (r ≫= iterate) as [results|]; [|done].
  by destruct (process_results _ _ _ _ _ _ _).
Qed.

Lemma by_media_type_calls (a : client) (t : string) (n : Z) (media_types : list string) :
  forall st : discovery,
  (d_calls st <= d_calls (by_media_type a t n media_types st)
   <= d_calls st + 3 * length media_types)%nat.
Proof.
  induction media_types as [|m ms IH]; intros st; cbn [by_media_type length]; [lia|].
  destruct (negb (short_of n st)); [lia|].
  pose proof (run_strategy_calls a true t
                (source_request t (Some m) (n - Z.of_nat (length (d_results st)))) m st).
  specialize (IH (run_strategy a true t
                    (source_request t (Some m) (n - Z.of_nat (length (d_results st))))
                    m st)).
  lia.
Qed.

Lemma discover_sources_calls (a : client) (calls : nat) (t : string) (n : Z) :
  (calls < d_calls (discover_sources a calls t n) <= calls + 21)%nat
  /\ (contains " OR " t = true \/ n <= 0 ->
      (d_calls (discover_sources a calls t n) <= calls + 3)%nat).
Proof.
  unfold discover_sources.
  set (st0 := {| d_calls := calls; d_seen := ∅; d_results := [] |}).
  set (st1 := run_strategy a true t (source_request t None n) "Source" st0).
  pose proof (run_strategy_calls a true t (source_request t None n) "Source" st0) as H1.
  change (d_calls st0) with calls in H1. fold st1 in H1.
  split.
  - destruct (short_of n st1 && negb (contains " OR " t)); [|lia].
    set (st2 := if _ && _ then _ else st1).
    assert (H2 : (d_calls st1 <= d_calls st2 <= d_calls st1 + 3)%nat).
    { unfold st2. destruct (_ && _); [|lia].
      pose proof (run_strategy_calls a true t (source_request (quoted t) None n)
                    "Source" st1). lia. }
    set (st3 := if short_of n st2 then _ else st2).
    assert (H3 : (d_calls st2 <= d_calls st3 <= d_calls st2 + 3)%nat).
    { unfold st3. destruct (short_of n st2); [|lia].
      destruct (keyword_list t) as [|k ks]; [lia|].
      pose proof (run_strategy_calls a true t
                    (source_request (keyword_query (k :: ks)) None n) "Source" st2).
      lia. }
    destruct (short_of n st3); [|lia].
    pose proof (by_media_type_calls a t n ["IMAGE"; "VIDEO"; "SOUND"; "TEXT"] st3) as H4.
    cbn [length] in H4. lia.
  - intros Hone.
    assert (Hskip : short_of n st1 && negb (contains " OR " t) = false).
    { destruct Hone as [-> | Hn]; [by rewrite andb_false_r|].
      unfold short_of. replace (_ <? n) with false; [done|].
      symmetry. apply Z.ltb_ge. lia. }
    rewrite Hskip. lia.
Qed.

Lemma discover_graphics_calls (a : client) (calls : nat) (t : string) (n : Z) :
  (calls < d_calls (discover_graphics a calls t n) <= calls + 12)%nat.
Proof.
  unfold discover_graphics.
  set (st0 := {| d_calls := calls; d_seen := ∅; d_results := [] |}).
  set (st1 := run_strategy a false t (graphics_request t "IMAGE" n) "Image" st0).
  pose proof (run_strategy_calls a false t (graphics_request t "IMAGE" n) "Image" st0)
    as H1.
  change (d_calls st0) with calls in H1. fold st1 in H1.
  set (st2 := if short_of n st1 then _ else st1).
  assert (H2 : (d_calls st1 <= d_calls st2 <= d_calls st1 + 3)%nat).
  { unfold st2. destruct (short_of n st1); [|lia].
    destruct (List.filter _ _) as [|k ks]; [lia|].
    pose proof (run_strategy_calls a false t
                  (graphics_request (String.concat " OR " (k :: ks)) "IMAGE"
                     (n - Z.of_nat (length (d_results st1)))) "Image" st1).
    lia. }
  set (st3 := if short_of n st2 then _ else st2).
  assert (H3 : (d_calls st2 <= d_calls st3 <= d_calls st2 + 3)%nat).
  { unfold st3. destruct (short_of n st2); [|lia].
    pose proof (run_strategy_calls a false t
                  (graphics_request t "VIDEO" (n - Z.of_nat (length (d_results st2))))
                  "Video" st2). lia. }
  destruct (short_of n st3); [|lia].
  pose proof (run_strategy_calls a false t
                (graphics_request t "SOUND" (n - Z.of_nat (length (d_results st3))))
                "Audio" st3). lia.
Qed.

Lemma search_sources_calls (a : client) (calls : nat) (t : string) (n : Z) :
  (search_sources a calls t n).1.1 = d_calls (discover_sources a calls t n).
Proof. unfold search_sources. by destruct (rank_sources _ _) as [[]|]. Qed.

(** X6. A run of [search_sources] makes at least one and at most 21
    calls to the client (seven queries of three attempts), and at most
    three when the topic holds an OR operator or the requested count is
    not positive, since only the direct query is then made.  A run of
    [search_graphics] makes at least one and at most 12 calls. *)
Theorem discovery_call_budget (a : client) (calls : nat) (t : string) (n : Z) :
  (calls < (search_sources a calls t n).1.1 <= calls + 21)%nat
  /\ (contains " OR " t = true \/ n <= 0 ->
      ((search_sources a calls t n).1.1 <= calls + 3)%nat)
  /\ (calls < (search_graphics a calls t n).1 <= calls + 12)%nat.
Proof.
  rewrite search_sources_calls.
  destruct (discover_sources_calls a calls t n) as [H1 H2].
  split; [done|]. split; [done|].
  pose proof (discover_graphics_calls a calls t n) as H3.
  unfold search_graphics. by destruct (sort_by_id _).
Qed.






(** ** The search step *)

Lemma validate_search_input (d : list (string * value)) :
  search_input d -> validate_section_data (VDict d) = Ok SearchSources.
Proof.
  intros [Ht Hs]. cbn. rewrite Ht. unfold has_key, get_default in *.
  destruct (dict_get "search_sources" d); [by rewrite Hs|done].
Qed.

Lemma count_media_total (l : list source) :
  forall acc : list (string * Z),
  Forall (fun s => is_Some (hash_key (s_media_type s))) l ->
  exists m, count_media l acc = Ok m.
Proof.
  induction l as [|s l IH]; intros acc H; [by eexists|].
  apply Forall_cons in H as [[k Hk] H]. cbn. rewrite Hk. by apply IH.
Qed.

Lemma count_media_discovered (a : client) (calls : nat) (t : string) (n : Z)
    (acc : list (string * Z)) :
  exists m, count_media (search_sources a calls t n).1.2 acc = Ok m.
Proof.
  apply count_media_total.
  assert (H : Forall (well_formed true) (search_sources a calls t n).1.2).
  { destruct (search_sources_ranked a calls t n)
      as [[-> _]|(sorted & an & Hperm & _ & -> & _)]; [constructor|].
    assert (H : Forall (well_formed true) sorted).
    { rewrite Hperm. apply discover_sources_well_formed. }
    destruct (0 <? n); [by apply Forall_take|done]. }
  eapply Forall_impl; [exact H|]. intros s Hs. apply Hs.
Qed.

(** X8. When discovery finds no source, the search step fails for good:
    the response is the flagged error that no sources were found, the
    source list of the session is emptied, and the step, the graphics,
    the sections and the plan stay as they were; no graphics are
    searched. *)
Theorem search_without_results (rt : runtime) (calls : nat) (sv : server)
    (d : list (string * value)) (t : string) :
  search_input d -> topic sv = Some t -> t <> EmptyString ->
  (search_sources (api rt) calls t (source_count sv)).1.2 = [] ->
  (process_section rt calls sv (VDict d)).2 = no_sources_found
  /\ (process_section rt calls sv (VDict d)).1.1
     = (search_sources (api rt) calls t (source_count sv)).1.1
  /\ sources (process_section rt calls sv (VDict d)).1.2 = []
  /\ _current_step (process_section rt calls sv (VDict d)).1.2 = _current_step sv
  /\ graphics (process_section rt calls sv (VDict d)).1.2 = graphics sv
  /\ report_sections (process_section rt calls sv (VDict d)).1.2 = report_sections sv
  /\ plan (process_section rt calls sv (VDict d)).1.2 = plan sv.
Proof.
  intros Hd Ht Hne Hnone. unfold process_section.
  rewrite (validate_search_input d Hd), Ht.
  destruct t as [|c t']; [done|]. cbn [is_empty]. unfold discover.
  destruct (search_sources (api rt) calls (String c t') (source_count sv))
    as [[c' found] an]. cbn in Hnone. subst found. by cbn.
Qed.

Lemma search_without_results_witness :
  (process_section (sample_runtime offline) 0
     (process_section (sample_runtime offline) 0 new_server init_art).1.2
     search_request).2 = no_sources_found.
Proof.
  destruct (search_without_results (sample_runtime offline) 0
              (process_section (sample_runtime offline) 0 new_server init_art).1.2
              [("search_sources", VBool true)] "Art nouveau") as (Hr & _);
    [by split|by vm_compute|done|by vm_compute|exact Hr].
Defined.

(** X9. When discovery finds a source, the search step stores the list
    found, sets the step to 1 and answers without the error flag; the
    provider analysis of the session is then the analysis of the stored
    sources, and the graphics are searched exactly when graphics were
    asked for.  Sections, plan and topic stay as they were. *)
Theorem search_with_results (rt : runtime) (calls : nat) (sv : server)
    (d : list (string * value)) (t : string) :
  search_input d -> topic sv = Some t -> t <> EmptyString ->
  (search_sources (api rt) calls t (source_count sv)).1.2 <> [] ->
  isError (process_section rt calls sv (VDict d)).2 = false
  /\ sources (process_section rt calls sv (VDict d)).1.2
     = (search_sources (api rt) calls t (source_count sv)).1.2
  /\ _current_step (process_section rt calls sv (VDict d)).1.2 = 1
  /\ (exists an,
        provider_analysis (process_section rt calls sv (VDict d)).1.2 = Some an
        /\ _analyze_provider_diversity
             (sources (process_section rt calls sv (VDict d)).1.2) = Ok an)
  /\ graphics (process_section rt calls sv (VDict d)).1.2
     = (if include_graphics sv
        then (search_graphics (api rt)
                (search_sources (api rt) calls t (source_count sv)).1.1 t 5).2
        else graphics sv)
  /\ report_sections (process_section rt calls sv (VDict d)).1.2 = report_sections sv
  /\ plan (process_section rt calls sv (VDict d)).1.2 = plan sv
  /\ topic (process_section rt calls sv (VDict d)).1.2 = Some t.
Proof.
  intros Hd Ht Hne Hsome. unfold process_section.
  rewrite (validate_search_input d Hd), Ht.
  destruct t as [|c t']; [done|]. cbn [is_empty]. unfold discover.
  destruct (count_media_discovered (api rt) calls (String c t') (source_count sv)
              media_counts0) as [m Hm].
  destruct (search_sources_ranked (api rt) calls (String c t') (source_count sv))
    as [[Hnil _]|(sorted & an & _ & _ & _ & Han & Hanalysis)]; [done|].
  destruct (search_sources (api rt) calls (String c t') (source_count sv))
    as [[c' found] an'].
  cbn [fst snd] in *. subst an'. cbn [with_sources sources]. rewrite Hm.
  destruct found as [|s0 found]; [done|]. cbn [length].
  destruct (include_graphics sv) eqn:Hg; cbn [with_sources include_graphics];
    rewrite Hg.
  - destruct (search_graphics (api rt) c' (String c t') 5) as [c'' gs]. cbn.
    repeat split; try done. exists an. split; [done|exact Hanalysis].
  - cbn. repeat split; try done. exists an. split; [done|exact Hanalysis].
Qed.

Lemma search_with_results_witness :
  sources (process_section (sample_runtime two_records) 0
             (process_section (sample_runtime offline) 0 new_server init_art).1.2
             search_request).1.2
  = (search_sources two_records 0 "Art nouveau" 10).1.2.
Proof.
  destruct (search_with_results (sample_runtime two_records) 0
              (process_section (sample_runtime offline) 0 new_server init_art).1.2
              [("search_sources", VBool true)] "Art nouveau") as (_ & Hs & _);
    [by split|by vm_compute|done|by vm_compute|exact Hs].
Defined.

(** ** Acceptance of a section *)

Lemma check_citations_none (s : report_section) :
  check_citations s = Ok None <->
  pr_valid (_verify_content_has_citations (content s) (list_of (sources_used s))) = true
  /\ exists r, verify_citations (content s) (list_of (sources_used s)) = Ok r
               /\ cc_valid r = true.
Proof.
  unfold check_citations.
  destruct (pr_valid _); cbn [negb]; [|split; [done|by intros [? _]]].
  destruct (verify_citations _ _) as [cc|e]; cbn.
  - destruct (cc_valid cc) eqn:Hv; cbn.
    + split; [|done]. intros _. split; [done|]. by exists cc.
    + split; [done|]. intros [_ (r & [= <-] & Hr)]. congruence.
  - split; [done|]. by intros [_ (r & ? & _)].
Qed.

Lemma check_citations_flagged (s : report_section) (o : option response) :
  check_citations s = Ok o -> match o with Some r => isError r = true | None => True end.
Proof.
  destruct o as [r|]; [|done]. intros H. by apply check_citations_structured in H as [].
Qed.

Lemma record_section_keeps (rt : runtime) (sv : server) (s : report_section) :
  same_but_sections sv (record_section rt sv s).1
  /\ report_sections (record_section rt sv s).1 = report_sections sv.
Proof.
  unfold record_section, same_but_sections.
  destruct (format_section sv s).
  - destruct (plan sv) as [p|] eqn:Hp; cbn; rewrite ?Hp; repeat split; try done.
    cbn. by eexists.
  - cbn. repeat split; try done. by destruct (plan sv); [exists (pl_current_section r); destruct r|].
Qed.

(** What a submission does: it records the healed section when the
    section is accepted, and otherwise leaves the state alone and
    answers with a flagged response or an exception. *)
Lemma submit_section_outcome (rt : runtime) (sv : server) (input_data : value) :
  (exists s, validate_section_data input_data = Ok (Section s) /\ accepted s
             /\ submit_section rt sv input_data
                = record_section rt
                    (with_sections sv (report_sections sv ++ [healed s])) (healed s))
  \/ ((submit_section rt sv input_data).1 = sv
      /\ flagged (submit_section rt sv input_data).2
      /\ forall s, validate_section_data input_data = Ok (Section s) -> ~ accepted s).
Proof.
  unfold submit_section.
  destruct (validate_section_data input_data) as [v|e] eqn:Hval;
    [|right; by repeat split].
  destruct v as [| | |s]; try (right; by repeat split).
  pose proof (validate_section_data_accepts _ _ Hval) as Hacc.
  change (if num (total_sections s) <? num (section_number s) then _ else s)
    with (healed s).
  destruct (truthy (is_bibliography s)) eqn:Hb; cbn [negb].
  - left. exists s. split; [done|]. split; [by left|done].
  - destruct (Hacc eq_refl) as [(l & Hl & Hne) _].
    assert (Ht : truthy (sources_used s) = true) by (rewrite Hl; by destruct l).
    rewrite Ht. cbn [negb].
    pose proof (check_citations_none s) as Hnone.
    destruct (check_citations s) as [[rej|]|e] eqn:Hc.
    + right. split; [done|]. split; [by apply (check_citations_flagged s (Some rej))|].
      intros s' [= <-] [Hbib|Hok]; [congruence|]. by apply Hnone in Hok.
    + left. exists s. split; [done|]. split; [|done]. right. by apply Hnone.
    + right. split; [done|]. split; [done|].
      intros s' [= <-] [Hbib|Hok]; [congruence|]. by apply Hnone in Hok.
Qed.

Lemma validate_submission (d : list (string * value)) :
  has_key "topic" d = false -> has_key "search_sources" d = false ->
  has_key "confirm_sources" d = false ->
  validate_section_data (VDict d) = validate_section d.
Proof. intros Ht Hs Hc. cbn. by rewrite Ht, Hs, Hc. Qed.

Lemma process_submission (rt : runtime) (calls : nat) (sv : server) (input_data : value) :
  section_submission input_data ->
  process_section rt calls sv input_data
  = (calls, (submit_section rt sv input_data).1,
     match (submit_section rt sv input_data).2 with
     | Ok resp => resp
     | Raise e => exception_response rt e
     end).
Proof.
  intros (d & -> & Ht & Hs & Hc). unfold process_section.
  pose proof (validate_submission d Ht Hs Hc) as Hv.
  destruct (validate_section_data (VDict d)) as [v|e] eqn:Hval.
  - symmetry in Hv. apply validate_section_accepts in Hv as (s & -> & _).
    by destruct (submit_section rt sv (VDict d)).
  - unfold submit_section. by rewrite Hval.
Qed.

(** X10. A section submission is recorded exactly when it validates and
    is accepted: it is a bibliography, or it passes the presence check and
    the full verification.  An accepted section is appended with its
    total healed, and the rest of the session is untouched but for the
    section pointer of the plan.  Any other submission leaves the whole
    session as it was and is answered with a flagged response. *)
Theorem section_recorded_iff_accepted (rt : runtime) (calls : nat) (sv : server)
    (input_data : value) :
  section_submission input_data ->
  (exists s, validate_section_data input_data = Ok (Section s) /\ accepted s
             /\ report_sections (process_section rt calls sv input_data).1.2
                = report_sections sv ++ [healed s]
             /\ same_but_sections sv (process_section rt calls sv input_data).1.2)
  \/ ((process_section rt calls sv input_data).1.2 = sv
      /\ isError (process_section rt calls sv input_data).2 = true
      /\ forall s, validate_section_data input_data = Ok (Section s) -> ~ accepted s).
Proof.
  intros Hsub. rewrite (process_submission rt calls sv input_data Hsub). cbn [fst snd].
  destruct (submit_section_outcome rt sv input_data)
    as [(s & Hval & Hacc & ->)|(Hsame & Hflag & Hnot)].
  - left. exists s. split; [done|]. split; [done|].
    destruct (record_section_keeps rt
                (with_sections sv (report_sections sv ++ [healed s])) (healed s))
      as [Hkeep ->].
    split; [done|]. exact Hkeep.
  - right. split; [done|]. split; [|done].
    by destruct (submit_section rt sv input_data).2.
Qed.

Lemma section_recorded_iff_accepted_witness :
  exists s, validate_section_data section_five_of_three = Ok (Section s)
            /\ report_sections
                 (process_section (sample_runtime offline) 0 new_server
                    section_five_of_three).1.2 = [healed s]
            /\ total_sections (healed s) = VInt 5.
Proof.
  assert (Hsub : section_submission section_five_of_three).
  { eexists. split; [reflexivity|]. by vm_compute. }
  destruct (section_recorded_iff_accepted (sample_runtime offline) 0 new_server
              section_five_of_three Hsub)
    as [(s & Hval & _ & Hrec & _)|(Hsame & _)].
  - exists s. split; [exact Hval|]. split; [exact Hrec|].
    vm_compute in Hval. injection Hval as <-. reflexivity.
  - vm_compute in Hsame. discriminate Hsame.
Defined.


(** ** The numbers of the recorded sections *)

Lemma validate_section_numbers (d : list (string * value)) (s : report_section) :
  validate_section d = Ok (Section s) ->
  exists n m, as_num (section_number s) = Some n /\ as_num (total_sections s) = Some m.
Proof.
  unfold validate_section.
  destruct (negb (has_key "section_number" d)); [done|].
  destruct (negb (has_key "total_sections" d)); [done|].
  destruct (negb _ && _); [done|].
  destruct (coerce_number (get_default "section_number" VNone d) _) as [sn|] eqn:Hsn;
    [|done].
  destruct (coerce_number (get_default "total_sections" VNone d) _) as [ts|] eqn:Hts;
    [|done].
  assert (Hnum : forall v msg w, coerce_number v msg = Ok w -> exists n, as_num w = Some n).
  { intros v msg w. destruct v as [| | |t| |]; cbn; try done.
    - intros [= <-]. by eexists.
    - intros [= <-]. by eexists.
    - destruct (str_isdigit t); [|done]. intros [= <-]. by eexists. }
  apply Hnum in Hsn as [n Hn]. apply Hnum in Hts as [m Hm]. cbn.
  destruct (get_default "content" (VStr EmptyString) d); try done;
    destruct (negb _ && _); try done; intros [= <-]; by exists n, m.
Qed.

Lemma validate_section_data_numbers (input_data : value) (s : report_section) :
  validate_section_data input_data = Ok (Section s) ->
  exists n m, as_num (section_number s) = Some n /\ as_num (total_sections s) = Some m.
Proof.
  destruct input_data as [| | | | |d]; try done. cbn.
  destruct (has_key "topic" d); [done|].
  destruct (has_key "search_sources" d && _); [done|].
  destruct (has_key "confirm_sources" d && _); [done|].
  destruct (has_key "confirm_sources" d); [done|].
  apply validate_section_numbers.
Qed.

Lemma healed_numbers (s : report_section) :
  (exists n m, as_num (section_number s) = Some n /\ as_num (total_sections s) = Some m) ->
  section_numbers_ok (healed s).
Proof.
  intros (n & m & Hn & Hm). unfold healed, num. rewrite Hn, Hm. cbn.
  destruct (m <? n) eqn:Hlt.
  - exists n, n. cbn. repeat split; [done|done|lia].
  - exists n, m. repeat split; [done|done|lia].
Qed.

(** The sections after any call: emptied by an initialization, left
    alone, or extended by one accepted section with its total healed. *)
Lemma process_section_appends (rt : runtime) (calls : nat) (sv : server)
    (input_data : value) :
  report_sections (process_section rt calls sv input_data).1.2 = []
  \/ report_sections (process_section rt calls sv input_data).1.2 = report_sections sv
  \/ exists s, validate_section_data input_data = Ok (Section s) /\ accepted s
               /\ report_sections (process_section rt calls sv input_data).1.2
                  = report_sections sv ++ [healed s].
Proof.
  assert (Hsub : report_sections (submit_section rt sv input_data).1 = report_sections sv
                 \/ exists s, validate_section_data input_data = Ok (Section s)
                      /\ accepted s
                      /\ report_sections (submit_section rt sv input_data).1
                         = report_sections sv ++ [healed s]).
  { destruct (submit_section_outcome rt sv input_data)
      as [(s & Hval & Hacc & ->)|(-> & _)]; [|by left].
    right. exists s. split; [done|]. split; [done|].
    by destruct (record_section_keeps rt
                   (with_sections sv (report_sections sv ++ [healed s])) (healed s))
      as [_ ->]. }
  unfold process_section.
  destruct (validate_section_data input_data) as [v|e]; [|by auto].
  destruct v as [t pc sc ig| |[]|s].
  - left. done.
  - right. left. destruct (topic sv) as [t|]; [|done].
    destruct (is_empty t); [done|].
    pose proof (discover_frame rt calls sv t) as Hd.
    by destruct (discover rt calls sv t) as [[c sv'] r].
  - by auto.
  - right. by destruct (submit_section rt sv input_data).
  - right. by destruct (submit_section rt sv input_data).
Qed.

(** X11. The numbers of every recorded section are integers and the
    section number does not exceed the total, whatever the inputs of
    the session were: a section whose number exceeds its total is
    stored with the total raised to the number. *)
Theorem recorded_section_numbers (rt : runtime) (inputs : list value) :
  forall (calls : nat) (sv : server),
  Forall section_numbers_ok (report_sections sv) ->
  Forall section_numbers_ok (report_sections (run rt calls sv inputs).1.2).
Proof.
  induction inputs as [|input_data inputs IH]; intros calls sv Hinv; [done|].
  cbn [run].
  assert (Hstep : Forall section_numbers_ok
                    (report_sections (process_section rt calls sv input_data).1.2)).
  { destruct (process_section_appends rt calls sv input_data)
      as [-> | [-> | (s & Hval & _ & ->)]]; [constructor|done|].
    apply Forall_app. split; [done|]. constructor; [|constructor].
    apply healed_numbers. by apply (validate_section_data_numbers input_data). }
  destruct (process_section rt calls sv input_data) as [[calls' sv'] r].
  specialize (IH calls' sv' Hstep).
  by destruct (run rt calls' sv' inputs) as [[c s] rs].
Qed.

Lemma recorded_section_numbers_witness :
  Forall section_numbers_ok
    (report_sections
       (run (sample_runtime offline) 0 new_server
          [section_five_of_three; section_zero_of_zero]).1.2).
Proof.
  apply (recorded_section_numbers (sample_runtime offline)
           [section_five_of_three; section_zero_of_zero] 0 new_server).
  constructor.
Defined.

(** ** Sections and the phase of the workflow *)

Lemma record_section_phase (rt : runtime) (sv : server) (s : report_section)
    (t : option string) (step : Z) :
  record_section rt (in_phase sv t step) s
  = (in_phase (record_section rt sv s).1 t step, (record_section rt sv s).2).
Proof.
  unfold record_section.
  change (format_section (in_phase sv t step) s) with (format_section sv s).
  destruct (format_section sv s); [|done].
  change (plan (in_phase sv t step)) with (plan sv).
  by destruct (plan sv).
Qed.

Lemma submit_section_phase (rt : runtime) (sv : server) (input_data : value)
    (t : option string) (step : Z) :
  submit_section rt (in_phase sv t step) input_data
  = (in_phase (submit_section rt sv input_data).1 t step,
     (submit_section rt sv input_data).2).
Proof.
  assert (Hid : forall r : result response, (in_phase sv t step, r)
                  = (in_phase (sv, r).1 t step, (sv, r).2)) by done.
  unfold submit_section.
  destruct (validate_section_data input_data) as [v|e]; [|done].
  destruct v as [| | |s]; try done.
  destruct (if negb (truthy (is_bibliography s)) then _ else _) as [[rej|]|]; try done.
  apply (record_section_phase rt
           (with_sections sv (report_sections sv ++ [healed s])) (healed s)).
Qed.

(** X12. A section submission is handled without regard to the phase of
    the workflow: the topic and the step counter of the session change
    neither the response nor what is recorded, and both are left as
    they were.  A section is therefore accepted before any topic was
    given, before any search and before any confirmation. *)
Theorem section_submission_ignores_phase (rt : runtime) (calls : nat) (sv : server)
    (input_data : value) (t : option string) (step : Z) :
  section_submission input_data ->
  process_section rt calls (in_phase sv t step) input_data
  = (calls, in_phase (process_section rt calls sv input_data).1.2 t step,
     (process_section rt calls sv input_data).2).
Proof.
  intros Hsub.
  rewrite !(process_submission _ _ _ _ Hsub), submit_section_phase. done.
Qed.

Lemma section_submission_ignores_phase_witness :
  process_section (sample_runtime offline) 0
    (in_phase new_server (Some "Art nouveau") 2) section_five_of_three
  = (0%nat,
     in_phase (process_section (sample_runtime offline) 0 new_server
                 section_five_of_three).1.2 (Some "Art nouveau") 2,
     (process_section (sample_runtime offline) 0 new_server section_five_of_three).2).
Proof.
  apply (section_submission_ignores_phase (sample_runtime offline) 0 new_server
           section_five_of_three (Some "Art nouveau") 2).
  eexists. split; [reflexivity|]. by vm_compute.
Defined.

(** ** A section whose total is zero *)

Lemma record_section_zero_total (rt : runtime) (sv : server) (s : report_section) :
  num (total_sections s) = 0 -> flagged (record_section rt sv s).2.
Proof.
  intros Hz. unfold record_section.
  destruct (format_section sv s); [|done].
  assert (Hflag : forall (next_step : result string) k,
            flagged (next_step ← next_step;
                     _ ← (if num (total_sections s) =? 0
                          then Raise ZeroDivisionError else Ok ());
                     k next_step)).
  { intros [x|e] k; [|done]. cbn. by rewrite Hz. }
  destruct (plan sv) as [p|]; apply Hflag.
Qed.

(** X13. An accepted section whose total is zero once healed, so that
    its number is zero or less, is appended to the sections all the
    same, and the call is answered with a flagged response: the
    progress computation divides by the total after the append. *)
Theorem zero_total_recorded_and_flagged (rt : runtime) (calls : nat) (sv : server)
    (input_data : value) (s : report_section) :
  section_submission input_data ->
  validate_section_data input_data = Ok (Section s) ->
  accepted s ->
  num (total_sections (healed s)) = 0 ->
  report_sections (process_section rt calls sv input_data).1.2
  = report_sections sv ++ [healed s]
  /\ isError (process_section rt calls sv input_data).2 = true.
Proof.
  intros Hsub Hval Hacc Hz.
  rewrite (process_submission rt calls sv input_data Hsub). cbn [fst snd].
  destruct (submit_section_outcome rt sv input_data)
    as [(s' & Hval' & _ & ->)|(_ & _ & Hnot)]; [|by destruct (Hnot s Hval)].
  rewrite Hval in Hval'. injection Hval' as <-.
  destruct (record_section_keeps rt
              (with_sections sv (report_sections sv ++ [healed s])) (healed s))
    as [_ ->].
  split; [done|].
  pose proof (record_section_zero_total rt
                (with_sections sv (report_sections sv ++ [healed s])) (healed s) Hz).
  by destruct (record_section rt _ (healed s)).2.
Qed.

Lemma zero_total_recorded_and_flagged_witness :
  length (report_sections
            (process_section (sample_runtime offline) 0 new_server
               section_zero_of_zero).1.2) = 1%nat
  /\ isError (process_section (sample_runtime offline) 0 new_server
                section_zero_of_zero).2 = true.
Proof.
  assert (Hsub : section_submission section_zero_of_zero).
  { eexists. split; [reflexivity|]. by vm_compute. }
  destruct (validate_section_data section_zero_of_zero) as [[| | |s]|] eqn:Hval;
    try (vm_compute in Hval; discriminate Hval).
  assert (Hs : truthy (is_bibliography s) = true /\ num (total_sections (healed s)) = 0).
  { vm_compute in Hval. injection Hval as <-. by vm_compute. }
  destruct (zero_total_recorded_and_flagged (sample_runtime offline) 0 new_server
              section_zero_of_zero s Hsub Hval (or_introl (proj1 Hs)) (proj2 Hs))
    as [Hrec Herr].
  split; [by rewrite Hrec|exact Herr].
Defined.


(** ** The citation pattern analysis *)

Lemma zero_usage_spec (su : list value) :
  forall (seen : gset hkey) (u : list (value * Z)),
  zero_usage su seen = Ok u ->
  (forall k c, (k, c) ∈ u -> k ∈ su /\ c = 0)
  /\ (forall v, v ∈ su ->
        exists h, hash_key v = Some h
                  /\ (h ∈ seen \/ exists k, (k, 0) ∈ u /\ hash_key k = Some h)).
Proof.
  induction su as [|s su IH]; intros seen u; cbn.
  - intros [= <-]. split; [intros k c Hk|intros v Hv]; by apply elem_of_nil in Hk || by apply elem_of_nil in Hv.
  - destruct (hash_key s) as [h|] eqn:Hh; [|done].
    destruct (decide (h ∈ seen)) as [Hin|Hout].
    + intros Hu. destruct (IH _ _ Hu) as [Hkeys Hall]. split.
      * intros k c Hk. destruct (Hkeys k c Hk). split; [by right|done].
      * intros v [-> | Hv]%elem_of_cons; [exists h; by auto|]. by apply Hall.
    + destruct (zero_usage su ({[h]} ∪ seen)) as [later|] eqn:Hl; [|done].
      cbn. intros [= <-]. destruct (IH _ _ Hl) as [Hkeys Hall]. split.
      * intros k c [[= -> ->] | Hk]%elem_of_cons; [split; [by left|done]|].
        destruct (Hkeys k c Hk). split; [by right|done].
      * intros v [-> | Hv]%elem_of_cons.
        { exists h. split; [done|]. right. exists s. split; [by left|done]. }
        destruct (Hall v Hv) as (h' & Hh' & [Hs | (k & Hk & Hkh)]).
        -- exists h'. split; [done|].
           apply elem_of_union in Hs as [->%elem_of_singleton | Hs]; [|by left].
           right. exists s. split; [by left|done].
        -- exists h'. split; [done|]. right. exists k. split; [by right|done].
Qed.

Lemma zero_usage_raises (su : list value) :
  forall (seen : gset hkey),
  (exists u, zero_usage su seen = Ok u /\ forall v, v ∈ su -> hash_key v <> None)
  \/ (zero_usage su seen = Raise TypeError /\ exists v, v ∈ su /\ hash_key v = None).
Proof.
  induction su as [|s su IH]; intros seen; cbn.
  - left. eexists. split; [done|]. intros v Hv. by apply elem_of_nil in Hv.
  - destruct (hash_key s) as [h|] eqn:Hh;
      [|right; split; [done|]; exists s; split; [by left|done]].
    assert (Hcons : forall u seen', zero_usage su seen' = Ok u ->
              (forall v, v ∈ su -> hash_key v <> None) ->
              forall v, v ∈ s :: su -> hash_key v <> None).
    { intros u seen' _ Hall v [-> | Hv]%elem_of_cons; [by rewrite Hh|by apply Hall]. }
    destruct (decide (h ∈ seen)).
    + destruct (IH seen) as [(u & Hu & Hall) | (Hr & v & Hv & Hnone)].
      * left. exists u. split; [done|]. by apply (Hcons u seen).
      * right. split; [done|]. exists v. split; [by right|done].
    + destruct (IH ({[h]} ∪ seen)) as [(u & Hu & Hall) | (Hr & v & Hv & Hnone)].
      * left. rewrite Hu. cbn. eexists. split; [done|]. by apply (Hcons u ({[h]} ∪ seen)).
      * right. rewrite Hr. split; [done|]. exists v. split; [by right|done].
Qed.

Lemma count_cons (f : string -> bool) (p : string) (ps : list string) :
  count f (p :: ps) = (if f p then 1 else 0) + count f ps.
Proof. unfold count. cbn. destruct (f p); cbn; lia. Qed.

Lemma count_patterns_spec (ps : list string) :
  forall st : pattern_counts,
  pc_usage (count_patterns ps st)
  = map (fun e : value * Z => (e.1, e.2 + count (citing e.1) ps)) (pc_usage st)
  /\ pc_with_citations (count_patterns ps st)
     = pc_with_citations st + count cited_paragraph ps
  /\ pc_without_citations (count_patterns ps st)
     = pc_without_citations st + count bare_paragraph ps
  /\ pc_all_cited (count_patterns ps st)
     = pc_all_cited st && forallb (fun p => negb (bare_paragraph p)) ps.
Proof.
  induction ps as [|p ps IH]; intros st.
  - unfold count. cbn. split; [|split; [lia|split; [lia|by rewrite andb_true_r]]].
    rewrite <- (map_id (pc_usage st)) at 1. apply map_ext.
    intros [k c]. cbn. f_equal. lia.
  - cbn [count_patterns forallb]. rewrite !count_cons.
    destruct (len (strip p) <? 20) eqn:Hshort.
    + assert (Hq : qualifying p = false) by (unfold qualifying; by rewrite Hshort).
      assert (Hct : forall k, citing k p = false)
        by (intros k; unfold citing; by rewrite Hq).
      assert (Hcp : cited_paragraph p = false)
        by (unfold cited_paragraph; by rewrite Hq).
      assert (Hbp : bare_paragraph p = false)
        by (unfold bare_paragraph; by rewrite Hq).
      destruct (IH st) as (Hu & Hw & Hwo & Hc). rewrite Hu, Hw, Hwo, Hc, Hcp, Hbp.
      split; [|split; [lia|split; [lia|done]]].
      apply map_ext. intros [k c]. cbn [fst snd]. rewrite count_cons, Hct. f_equal; lia.
    + assert (Hq : qualifying p = true) by (unfold qualifying; by rewrite Hshort).
      match goal with |- context [count_patterns ps ?s] =>
        destruct (IH s) as (Hu & Hw & Hwo & Hc) end.
      rewrite Hu, Hw, Hwo, Hc. clear Hu Hw Hwo Hc.
      unfold cited_paragraph, bare_paragraph, is_cited. rewrite Hq.
      destruct (citations p) as [|c cs] eqn:Hcs;
        cbn [pc_usage pc_with_citations pc_without_citations pc_all_cited negb andb].
      * split; [|split; [lia|split; [lia|by rewrite andb_false_r]]].
        assert (Hct : forall k, citing k p = false)
          by (intros k; unfold citing; by rewrite Hq, Hcs).
        rewrite map_map. apply map_ext. intros [k c']. cbn. 
        rewrite count_cons, Hct. f_equal; lia.
      * split; [|split; [lia|split; [lia|done]]].
        assert (Hct : forall k, citing k p = cited_in (c :: cs) k)
          by (intros k; unfold citing; by rewrite Hq, Hcs).
        rewrite map_map. apply map_ext. intros [k c']. cbn [fst snd].
        rewrite count_cons, Hct.
        destruct (cited_in (c :: cs) k); cbn [fst snd]; f_equal; lia.
Qed.

Lemma cited_in_spec (cs : list Z) (k : value) :
  cited_in cs k = true <-> exists n, as_num k = Some n /\ n ∈ cs.
Proof.
  unfold cited_in. rewrite existsb_exists. split.
  - intros (c & Hc%list_elem_of_In & Heq). exists c. split; [|done].
    destruct k; cbn in *; try done; f_equal; lia.
  - intros (n & Hn & Hin). exists n. split; [by apply list_elem_of_In|].
    destruct k; cbn in *; try done; injection Hn as <-; lia.
Qed.

Lemma as_num_hash_key (k v : value) :
  hash_key k = hash_key v -> hash_key v <> None -> as_num k = as_num v.
Proof.
  destruct k, v; cbn; try done; intros [= ->]; done.
Qed.

Lemma count_positive (f : string -> bool) (ps : list string) :
  0 < count f ps <-> exists p, p ∈ ps /\ f p = true.
Proof.
  unfold count. split.
  - destruct (List.filter f ps) as [|p l] eqn:Hf; [cbn; lia|]. intros _.
    assert (Hp : In p (List.filter f ps)) by (rewrite Hf; by left).
    apply filter_In in Hp as [Hp Hfp]. exists p. by rewrite list_elem_of_In.
  - intros (p & Hp%list_elem_of_In & Hfp).
    assert (Hin : In p (List.filter f ps)) by by apply filter_In.
    destruct (List.filter f ps); [done|]. cbn. lia.
Qed.



(** What the analysis computes. *)
Lemma analyze_citation_patterns_spec (text : string) (su : list value)
    (a : citation_analysis) :
  analyze_citation_patterns text su = Ok a ->
  (forall k c, (k, c) ∈ ca_source_usage a ->
     k ∈ su /\ c = count (citing k) (paragraphs text))
  /\ (forall v, v ∈ su ->
        exists k c, (k, c) ∈ ca_source_usage a /\ hash_key k = hash_key v
                    /\ hash_key v <> None)
  /\ ca_paragraphs_with_citations a = count cited_paragraph (paragraphs text)
  /\ ca_paragraphs_without_citations a = count bare_paragraph (paragraphs text)
  /\ ca_total_paragraphs a = Z.of_nat (length (paragraphs text))
  /\ ca_all_paragraphs_cited a
     = forallb (fun p => negb (bare_paragraph p)) (paragraphs text)
  /\ (ca_all_sources_used a = true <->
      forall k c, (k, c) ∈ ca_source_usage a -> c <> 0)
  /\ ca_valid a = ca_all_paragraphs_cited a && ca_all_sources_used a.
Proof.
  unfold analyze_citation_patterns.
  destruct (zero_usage su ∅) as [u|] eqn:Hu; [|done]. cbn.
  destruct (zero_usage_spec su ∅ u Hu) as [Hkeys Hall].
  match goal with |- context [count_patterns ?ps ?s] =>
    destruct (count_patterns_spec ps s) as (Hus & Hwith & Hwithout & Hcited) end.
  cbn in Hus, Hwith, Hwithout, Hcited.
  intros [= <-]. cbn. rewrite Hwith, Hwithout, Hcited.
  split; [|split; [|split; [lia|split; [lia|split; [done|split; [done|split; [|done]]]]]]].
  - intros k c. rewrite Hus. intros ((k' & c') & [= -> ->] & Hin)%list_elem_of_fmap.
    destruct (Hkeys k' c' Hin) as [Hk ->]. cbn. split; [done|lia].
  - intros v Hv. destruct (Hall v Hv) as (h & Hh & [Hin | (k & Hk & Hkh)]);
      [by apply elem_of_empty in Hin|].
    exists k, (0 + count (citing k) (paragraphs text)).
    split; [|split; [congruence|congruence]].
    rewrite Hus. apply list_elem_of_fmap. by exists (k, 0).
  - set (usage := pc_usage _).
    destruct (map fst (List.filter (fun e : value * Z => e.2 =? 0) usage)) as [|x l] eqn:Hf.
    + split; [|done]. intros _ k c Hin Hz.
      apply fmap_nil_inv in Hf. 
      assert (In (k, c) (List.filter (fun e : value * Z => e.2 =? 0) usage)).
      { apply filter_In. split; [by apply list_elem_of_In|]. cbn. lia. }
      by rewrite Hf in *.
    + split; [done|]. intros Hnz. exfalso.
      destruct (List.filter (fun e : value * Z => e.2 =? 0) usage) as [|[k c] l'] eqn:Hfl;
        [done|].
      assert (Hin : In (k, c) (List.filter (fun e : value * Z => e.2 =? 0) usage))
        by (rewrite Hfl; by left).
      apply filter_In in Hin as [Hin Hz]. cbn in Hz.
      apply (Hnz k c); [by apply list_elem_of_In|lia].
Qed.

Lemma analyze_citation_patterns_valid (text : string) (su : list value)
    (a : citation_analysis) :
  analyze_citation_patterns text su = Ok a ->
  (ca_valid a = true <->
   (forall p, p ∈ paragraphs text -> qualifying p = true -> citations p <> [])
   /\ (forall v, v ∈ su -> exists p, p ∈ paragraphs text /\ citing v p = true)).
Proof.
  intros Ha.
  destruct (analyze_citation_patterns_spec text su a Ha)
    as (Hkeys & Hall & Hwith & Hwithout & Htotal & Hcited & Hused & Hvalid).
  rewrite Hvalid, andb_true_iff, Hcited, forallb_forall, Hused.
  split; intros [Hp Hs]; split.
  - intros p Hin Hq Hnil. specialize (Hp p (proj1 (list_elem_of_In _ _) Hin)).
    unfold bare_paragraph, is_cited in Hp. by rewrite Hq, Hnil in Hp.
  - intros v Hv. destruct (Hall v Hv) as (k & c & Hkc & Hh & Hnone).
    destruct (Hkeys k c Hkc) as [_ Hc]. pose proof (Hs k c Hkc) as Hnz.
    assert (Hpos : 0 < count (citing k) (paragraphs text))
      by (unfold count in *; lia).
    apply count_positive in Hpos as (p & Hin & Hciting). exists p. split; [done|].
    unfold citing in *. apply andb_true_iff in Hciting as [-> Hc'].
    apply cited_in_spec in Hc' as (n & Hn & Hcs). cbn.
    apply cited_in_spec. exists n. split; [|done].
    by rewrite <- (as_num_hash_key k v).
  - intros p Hin%list_elem_of_In. unfold bare_paragraph, is_cited.
    destruct (qualifying p) eqn:Hq; [|done]. specialize (Hp p Hin Hq).
    by destruct (citations p).
  - intros k c Hkc Hz. destruct (Hkeys k c Hkc) as [Hk Hc].
    destruct (Hs k Hk) as (p & Hin & Hciting).
    assert (0 < count (citing k) (paragraphs text))
      by (apply count_positive; by exists p).
    lia.
Qed.



(** X15. The pattern analysis of a section that the full verification
    could check returns, and it agrees with the verification but for
    the citations of ids that are not in [sources_used], which the
    analysis does not look at: the verification succeeds exactly when
    the analysis is valid and no such id is cited.  So the analysis
    never warns about a section that passed the verification. *)
Theorem analysis_agrees_with_verification (text : string) (su : list value)
    (r : citation_check) :
  verify_citations text su = Ok r ->
  exists a, analyze_citation_patterns text su = Ok a
            /\ (cc_valid r = true <->
                ca_valid a = true /\ cc_invalid_citations r = [])
            /\ (ca_valid a = true ->
                ca_message a = "All paragraphs properly cited and all sources used.").
Proof.
  intros Hr.
  assert (Hhash : forall v, v ∈ su -> hash_key v <> None).
  { revert Hr. unfold verify_citations.
    destruct (scan_paragraphs 0 (paragraphs text) su ∅) as [cited iss].
    destruct (uncited su cited) as [l|] eqn:Hl; [|done]. intros _.
    clear -Hl. revert l Hl. induction su as [|s su IH]; intros l; cbn.
    - intros _ v Hv. by apply elem_of_nil in Hv.
    - destruct (hash_key s) eqn:Hs; [|done].
      destruct (uncited su cited) as [later|]; [|done]. intros _.
      intros v [-> | Hv]%elem_of_cons; [by rewrite Hs|by apply (IH later)]. }
  destruct (zero_usage_raises su ∅) as [(u & Hu & _) | (_ & v & Hv & Hnone)];
    [|by destruct (Hhash v Hv)].
  destruct (analyze_citation_patterns text su) as [a|] eqn:Ha;
    [|unfold analyze_citation_patterns in Ha; by rewrite Hu in Ha].
  exists a. split; [done|].
  pose proof (analyze_citation_patterns_valid text su a Ha) as Hvalid.
  split.
  - rewrite (verify_citations_valid_iff text su r Hr), Hvalid.
    assert (Hinv : cc_invalid_citations r = [] <->
              forall p c, p ∈ paragraphs text -> qualifying p = true ->
                c ∈ citations p -> int_in c su = true).
    { revert Hr. unfold verify_citations.
      pose proof (scan_paragraphs_spec (paragraphs text) su 0 ∅) as [Hcited _].
      destruct (scan_paragraphs 0 (paragraphs text) su ∅) as [cited iss].
      destruct (uncited su cited) as [l|]; [|done]. cbn. intros [= <-]. cbn.
      rewrite filter_nil_iff. cbn in Hcited. split.
      - intros Hall p c Hp Hq Hc. apply negb_false_iff, Hall, elem_of_elements, Hcited.
        right. by exists p.
      - intros Hall c [Hin | (p & Hp & Hq & Hc)]%elem_of_elements%Hcited;
          [by apply elem_of_empty in Hin|].
        apply negb_false_iff. by apply (Hall p). }
    rewrite Hinv. split.
    + intros (Hp & Hc & Hs). split; [split; [done|]|done].
      intros v' Hv'. destruct (Hs v' Hv') as (n & p & Hn & Hin & Hq & Hcs).
      exists p. split; [done|]. unfold citing. rewrite Hq. cbn.
      apply cited_in_spec. by exists n.
    + intros [[Hp Hs] Hc]. split; [done|]. split; [done|].
      intros v' Hv'. destruct (Hs v' Hv') as (p & Hin & Hciting).
      unfold citing in Hciting. apply andb_true_iff in Hciting as [Hq Hcs].
      apply cited_in_spec in Hcs as (n & Hn & Hcs). by exists n, p.
  - revert Ha. unfold analyze_citation_patterns. rewrite Hu. cbn. intros [= <-]. cbn.
    destruct (pc_all_cited _); [|done].
    by destruct (map fst _).
Qed.

Lemma analysis_agrees_with_verification_witness :
  exists a, analyze_citation_patterns long_cited [VInt 1] = Ok a
            /\ ca_valid a = true.
Proof.
  destruct (verify_citations long_cited [VInt 1]) as [r|] eqn:Hr;
    [|vm_compute in Hr; discriminate Hr].
  destruct (analysis_agrees_with_verification long_cited [VInt 1] r Hr)
    as (a & Ha & Hiff & _).
  exists a. split; [exact Ha|]. apply Hiff.
  vm_compute in Hr. injection Hr as <-. reflexivity.
Defined.


(** ** The plan *)

(** X16. Whatever the page count, zero and negative ones included, the
    plan starts with the bibliography, which is its only bibliography
    section, followed by the introduction, and ends with the
    conclusion; its total is the number of its sections, between 3 and
    21, and its section pointer is 0. *)
Theorem create_plan_shape (t : string) (page_count : Z) :
  exists middle,
    pl_sections (create_plan t page_count)
    = ("Bibliography", true) :: ("Introduction", false) :: middle
      ++ [("Conclusion", false)]
    /\ Forall (fun s : string * bool => s.2 = false) middle
    /\ pl_total_sections (create_plan t page_count)
       = Z.of_nat (length (pl_sections (create_plan t page_count)))
    /\ 3 <= pl_total_sections (create_plan t page_count) <= 21
    /\ (page_count <= 0 -> middle = [])
    /\ pl_topic (create_plan t page_count) = t
    /\ pl_current_section (create_plan t page_count) = VInt 0.
Proof.
  unfold create_plan. cbn [pl_sections pl_total_sections pl_topic pl_current_section].
  set (fixed := [("Bibliography", true); ("Introduction", false)]).
  set (extra2 := if 2 <=? page_count then _ else fixed).
  set (extra3 := if 3 <=? page_count then _ else extra2).
  set (extra4 := if 4 <=? page_count then _ else extra3).
  set (additional := map _ (seqZ 0 _)).
  assert (Hfixed : exists m, extra4 = ("Bibliography", true) :: ("Introduction", false) :: m
                    /\ Forall (fun s : string * bool => s.2 = false) m
                    /\ (length m <= 5)%nat
                    /\ (page_count <= 1 -> m = [])).
  { unfold extra4, extra3, extra2, fixed.
    destruct (2 <=? page_count) eqn:H2; destruct (3 <=? page_count) eqn:H3;
      destruct (4 <=? page_count) eqn:H4; cbn [app];
      eexists; (split; [reflexivity|]);
      (split; [repeat constructor|]); (split; [cbn; lia|]); intros; try done; lia. }
  destruct Hfixed as (m & Hm & Hfalse & Hlen & Hnil).
  assert (Hadd : Forall (fun s : string * bool => s.2 = false) additional).
  { unfold additional. apply Forall_fmap, Forall_forall. done. }
  assert (Hal : Z.of_nat (length additional)
                = Z.max 0 (Z.min (page_count * 2 + 1) 20 - Z.of_nat (length extra4))).
  { unfold additional. rewrite length_map, length_seqZ. lia. }
  exists (m ++ additional). rewrite Hm in *. cbn [length] in Hal.
  split; [by rewrite <- !app_assoc, <- !app_comm_cons|].
  split; [by apply Forall_app|].
  split; [done|].
  split; [rewrite !length_app; cbn [length]; lia|].
  split; [|done].
  intros Hpc. rewrite (Hnil ltac:(lia)) in *. cbn [app length] in *.
  destruct additional; [done|]. cbn [length] in Hal. lia.
Qed.

(** ** The two blocking checks *)

Lemma presence_issues_nil (ps : list string) (su : list value) :
  forall i : Z,
  presence_issues i ps su = [] <->
  forall p, p ∈ ps -> qualifying p = true ->
    citations p <> [] /\ forall c, c ∈ citations p -> int_in c su = true.
Proof.
  induction ps as [|p ps IH]; intros i; cbn [presence_issues].
  - split; [|done]. intros _ p Hp. by apply elem_of_nil in Hp.
  - assert (Hcons : (forall q, q ∈ ps -> qualifying q = true ->
                       citations q <> []
                       /\ forall c, c ∈ citations q -> int_in c su = true) ->
                    (qualifying p = true ->
                       citations p <> []
                       /\ forall c, c ∈ citations p -> int_in c su = true) ->
                    forall q, q ∈ p :: ps -> qualifying q = true ->
                       citations q <> []
                       /\ forall c, c ∈ citations q -> int_in c su = true).
    { intros Hps Hp q [-> | Hq]%elem_of_cons; [done|by apply Hps]. }
    destruct (len (strip p) <? 20) eqn:Hshort.
    + rewrite IH. split.
      * intros Hps. apply Hcons; [done|]. unfold qualifying. by rewrite Hshort.
      * intros Hall q Hq. apply Hall. by right.
    + destruct (citations p) as [|c cs] eqn:Hcs.
      * split; [done|]. intros Hall.
        destruct (Hall p) as [Hne _]; [by left|unfold qualifying; by rewrite Hshort|].
        done.
      * destruct (List.filter _ (c :: cs)) as [|x l] eqn:Hf.
        -- rewrite IH. split.
           ++ intros Hps. apply Hcons; [done|]. intros _. split; [done|].
              intros c' Hc'. apply (proj1 (filter_nil_iff _ _)) with (x := c') in Hf;
                [|done]. by apply negb_false_iff in Hf.
           ++ intros Hall q Hq. apply Hall. by right.
        -- split; [done|]. intros Hall. exfalso.
           destruct (Hall p) as [_ Hin]; [by left|unfold qualifying; by rewrite Hshort|].
           rewrite Hcs in Hin.
           assert (Hnil : List.filter (fun c0 => negb (int_in c0 su)) (c :: cs) = []).
           { apply filter_nil_iff. intros c' Hc'. by rewrite (Hin c' Hc'). }
           by rewrite Hnil in Hf.
Qed.

(** X17. For a non-empty [sources_used], the full verification succeeds
    exactly when the presence check succeeds and no source of
    [sources_used] is left uncited: it is the presence check plus the
    demand that every listed source be cited. *)
Theorem verification_is_presence_and_coverage (text : string) (su : list value)
    (r : citation_check) :
  su <> [] ->
  verify_citations text su = Ok r ->
  (cc_valid r = true <->
   pr_valid (_verify_content_has_citations text su) = true
   /\ cc_uncited_sources r = []).
Proof.
  intros Hne Hr.
  assert (Hpresence : pr_valid (_verify_content_has_citations text su) = true <->
            forall p, p ∈ paragraphs text -> qualifying p = true ->
              citations p <> [] /\ forall c, c ∈ citations p -> int_in c su = true).
  { rewrite <- (presence_issues_nil (paragraphs text) su 0).
    unfold _verify_content_has_citations. destruct su; [done|]. cbn.
    by destruct (presence_issues _ _ _). }
  rewrite Hpresence. revert Hr. unfold verify_citations.
  pose proof (scan_paragraphs_spec (paragraphs text) su 0 ∅) as [Hcited Hissues].
  destruct (scan_paragraphs 0 (paragraphs text) su ∅) as [cited iss].
  cbn [fst snd] in Hcited, Hissues.
  destruct (uncited su cited) as [l|] eqn:Hl; [|done]. cbn. intros [= <-]. cbn.
  rewrite <- Hissues. destruct iss; [|split; [done|by intros []]].
  destruct l; [|split; [done|by intros []]].
  split; [done|]. intros _.
  assert (Hinv : List.filter (fun c => negb (int_in c su)) (elements cited) = []).
  { apply filter_nil_iff. intros c [Hc | (p & Hp & Hq & Hc)]%elem_of_elements%Hcited;
      [by apply elem_of_empty in Hc|].
    apply negb_false_iff. by apply (proj1 Hissues eq_refl p). }
  by rewrite Hinv.
Qed.

Lemma verification_is_presence_and_coverage_witness :
  exists r, verify_citations long_cited [VInt 1; VInt 2] = Ok r
            /\ cc_valid r = false
            /\ pr_valid (_verify_content_has_citations long_cited [VInt 1; VInt 2]) = true
            /\ cc_uncited_sources r <> [].
Proof.
  destruct (verify_citations long_cited [VInt 1; VInt 2]) as [r|] eqn:Hr;
    [|vm_compute in Hr; discriminate Hr].
  exists r. split; [reflexivity|].
  assert (Hne : [VInt 1; VInt 2] <> []) by discriminate.
  pose proof (verification_is_presence_and_coverage long_cited [VInt 1; VInt 2] r
                Hne Hr) as Hiff.
  assert (Hinvalid : cc_valid r = false)
    by (vm_compute in Hr; injection Hr as <-; reflexivity).
  split; [exact Hinvalid|]. split; [by vm_compute|].
  intros Hnil. rewrite (proj2 Hiff (conj eq_refl Hnil)) in Hinvalid.
  discriminate Hinvalid.
Defined.

(** ** The confirmation step *)

Lemma truthy_has_key (k : string) (d : list (string * value)) :
  truthy (get_default k VNone d) = true -> has_key k d = true.
Proof. unfold get_default, has_key. by destruct (dict_get k d). Qed.

(** X18. A confirmation, that is an input without a topic whose
    [search_sources] is absent or false and whose [confirm_sources] is
    true, is accepted in every state of the session, also before any
    topic was given or any source found: it sets the step to 2, leaves
    the rest of the session as it was, makes no call to the client, and
    is answered without an error flag. *)
Theorem confirmation_only_sets_step (rt : runtime) (calls : nat) (sv : server)
    (d : list (string * value)) :
  has_key "topic" d = false ->
  truthy (get_default "search_sources" VNone d) = false ->
  truthy (get_default "confirm_sources" VNone d) = true ->
  (process_section rt calls sv (VDict d)).1 = (calls, in_phase sv (topic sv) 2)
  /\ isError (process_section rt calls sv (VDict d)).2 = false.
Proof.
  intros Ht Hs Hc. unfold process_section. cbn [validate_section_data].
  rewrite Ht, Hs, Hc, (truthy_has_key _ _ Hc), andb_false_r. done.
Qed.

Lemma confirmation_only_sets_step_witness :
  (process_section (sample_runtime offline) 0 new_server
     (VDict [("confirm_sources", VBool true)])).1
  = (0%nat, in_phase new_server None 2).
Proof.
  apply (confirmation_only_sets_step (sample_runtime offline) 0 new_server
           [("confirm_sources", VBool true)]); reflexivity.
Defined.

(** ** Calls to the client *)

Lemma discover_effect (rt : runtime) (calls : nat) (sv : server) (t : string) :
  source_count (discover rt calls sv t).1.2 = source_count sv
  /\ sources (discover rt calls sv t).1.2
     = (search_sources (api rt) calls t (source_count sv)).1.2
  /\ (graphics (discover rt calls sv t).1.2 = graphics sv
      \/ exists c, graphics (discover rt calls sv t).1.2
                   = (search_graphics (api rt) c t 5).2)
  /\ (calls < (discover rt calls sv t).1.1 <= calls + 33)%nat
  /\ (include_graphics sv = false ->
      ((discover rt calls sv t).1.1 <= calls + 21)%nat).
Proof.
  unfold discover.
  pose proof (search_sources_calls (api rt) calls t (source_count sv)) as Hc.
  destruct (discover_sources_calls (api rt) calls t (source_count sv)) as [Hb _].
  rewrite <- Hc in Hb. clear Hc.
  destruct (search_sources (api rt) calls t (source_count sv)) as [[c found] an].
  cbn [fst snd] in Hb.
  destruct (count_media _ _); [|cbn; repeat split; by auto || lia].
  destruct (length _); [cbn; repeat split; by auto || lia|].
  cbn [include_graphics with_sources].
  destruct (include_graphics sv) eqn:Hg.
  - pose proof (discover_graphics_calls (api rt) c t 5) as Hgc.
    assert (Hcalls : (search_graphics (api rt) c t 5).1
                     = d_calls (discover_graphics (api rt) c t 5)).
    { unfold search_graphics. by destruct (sort_by_id _). }
    rewrite <- Hcalls in Hgc.
    destruct (search_graphics (api rt) c t 5) as [c' g] eqn:Hsg. cbn in *.
    split; [done|]. split; [done|].
    split; [right; exists c; by rewrite Hsg|]. split; [lia|done].
  - cbn. repeat split; by auto || lia.
Qed.

(** X19. One call of [process_section] makes at most 33 calls to the
    search client, at most 21 when graphics are not included, and none
    unless the input is a search request. *)
Theorem process_section_call_budget (rt : runtime) (calls : nat) (sv : server)
    (input_data : value) :
  (calls <= (process_section rt calls sv input_data).1.1 <= calls + 33)%nat
  /\ (include_graphics sv = false ->
      ((process_section rt calls sv input_data).1.1 <= calls + 21)%nat)
  /\ (validate_section_data input_data <> Ok SearchSources ->
      (process_section rt calls sv input_data).1.1 = calls).
Proof.
  unfold process_section.
  destruct (validate_section_data input_data) as [v|e]; [|cbn; repeat split; lia].
  destruct v as [t pc sc ig| |[]|s].
  - cbn. repeat split; lia.
  - destruct (topic sv) as [t|]; [|cbn; repeat split; by lia || done].
    destruct (is_empty t); [cbn; repeat split; by lia || done|].
    destruct (discover_effect rt calls sv t) as (_ & _ & _ & Hb & Hg).
    destruct (discover rt calls sv t) as [[c sv'] r]. cbn in *.
    split; [lia|]. split; [done|]. done.
  - cbn. repeat split; lia.
  - destruct (submit_section rt sv input_data). cbn. repeat split; lia.
  - destruct (submit_section rt sv input_data). cbn. repeat split; lia.
Qed.

Lemma process_section_call_budget_witness :
  (process_section (sample_runtime offline) 0 new_server section_five_of_three).1.1
  = 0%nat.
Proof.
  apply (process_section_call_budget (sample_runtime offline) 0 new_server
           section_five_of_three).
  by vm_compute.
Defined.

(** ** The sources and graphics of a session *)

Lemma search_sources_media_ok (a : client) (calls : nat) (t : string) (n : Z) :
  media_ok true (search_sources a calls t n).1.2
  /\ (0 < n -> Z.of_nat (length (search_sources a calls t n).1.2) <= n).
Proof.
  destruct (search_sources_ranked a calls t n)
    as [[-> _]|(sorted & an & Hperm & Hs & -> & _)].
  { split; [|cbn; lia]. split; [constructor|]. split; constructor. }
  assert (Hwf : Forall (well_formed true) sorted).
  { rewrite Hperm. apply discover_sources_well_formed. }
  assert (Hnd : NoDup (map origin_key sorted)).
  { rewrite Hperm. apply discover_sources_deduplicated. }
  apply sort_by_id_sorted in Hs.
  split.
  - destruct (0 <? n); [|done].
    split; [by apply Forall_take|]. split; [|by apply descending_take].
    apply (sublist_NoDup _ (map origin_key sorted)); [done|].
    apply fmap_sublist, sublist_take.
  - intros Hn. rewrite (proj2 (Z.ltb_lt 0 n) Hn), length_take. lia.
Qed.

Lemma search_graphics_media_ok (a : client) (calls : nat) (t : string) :
  media_ok false (search_graphics a calls t 5).2
  /\ (length (search_graphics a calls t 5).2 <= 5)%nat.
Proof.
  unfold search_graphics.
  destruct (sort_by_id _) as [sorted|] eqn:Hs; cbn [snd];
    [|split; [|cbn; lia]; split; [constructor|]; split; constructor].
  pose proof (sort_by_id_perm _ _ Hs) as Hperm.
  assert (Hwf : Forall (well_formed false) sorted).
  { rewrite Hperm. apply discover_graphics_well_formed. }
  assert (Hnd : NoDup (map origin_key sorted)).
  { rewrite Hperm. apply discover_graphics_deduplicated. }
  apply sort_by_id_sorted in Hs. unfold slice_to. cbn.
  split; [|rewrite length_take; lia].
  split; [by apply Forall_take|]. split; [|by apply descending_take].
  apply (sublist_NoDup _ (map origin_key sorted)); [done|].
  apply fmap_sublist, sublist_take.
Qed.

Lemma process_section_media (rt : runtime) (calls : nat) (sv : server)
    (input_data : value) :
  session_media_ok sv ->
  session_media_ok (process_section rt calls sv input_data).1.2.
Proof.
  intros (Hs & Hg & Hn & Hfive).
  assert (Hempty : forall fs, media_ok fs []).
  { intros fs. split; [constructor|]. split; constructor. }
  assert (Hsub : session_media_ok (submit_section rt sv input_data).1).
  { destruct (submit_section_outcome rt sv input_data)
      as [(s & _ & _ & ->)|(-> & _)]; [|done].
    destruct (record_section_keeps rt
                (with_sections sv (report_sections sv ++ [healed s])) (healed s))
      as [(_ & _ & Hsc & Hso & _ & _ & Hgr & _) _].
    unfold session_media_ok. by rewrite Hsc, Hso, Hgr. }
  unfold process_section.
  destruct (validate_section_data input_data) as [v|e]; [|done].
  destruct v as [t pc sc ig| |[]|s].
  - cbn. split; [done|]. split; [done|]. cbn. split; lia.
  - destruct (topic sv) as [t|]; [|done].
    destruct (is_empty t); [done|].
    destruct (discover_effect rt calls sv t) as (Hsc & Hso & Hgr & _).
    destruct (discover rt calls sv t) as [[c sv'] r]. cbn [fst snd] in *.
    unfold session_media_ok. rewrite Hsc, Hso.
    destruct (search_sources_media_ok (api rt) calls t (source_count sv)) as [Hok Hlen].
    split; [done|].
    destruct Hgr as [-> | (c' & ->)]; [done|].
    destruct (search_graphics_media_ok (api rt) c' t) as [Hgok Hglen]. done.
  - done.
  - by destruct (submit_section rt sv input_data).
  - by destruct (submit_section rt sv input_data).
Qed.

(** X20. At every point of a session the sources and the graphics are
    well formed, hold no two entries with the same origin identifier
    and are in descending order of it; the sources are no more than a
    positive [source_count] and the graphics no more than five.  The
    property holds of the state after any inputs when it held before
    them, and it holds of a new server. *)
Theorem session_media_invariant (rt : runtime) (inputs : list value) :
  forall (calls : nat) (sv : server),
  session_media_ok sv ->
  session_media_ok (run rt calls sv inputs).1.2.
Proof.
  induction inputs as [|input_data inputs IH]; intros calls sv Hinv; [done|].
  cbn [run].
  pose proof (process_section_media rt calls sv input_data Hinv) as Hstep.
  destruct (process_section rt calls sv input_data) as [[calls' sv'] r].
  specialize (IH calls' sv' Hstep).
  by destruct (run rt calls' sv' inputs) as [[c s] rs].
Qed.

Lemma session_media_invariant_witness :
  session_media_ok (run (sample_runtime two_records) 0 new_server art_session).1.2.
Proof.
  apply (session_media_invariant (sample_runtime two_records) art_session 0 new_server).
  split; [split; [constructor|split; constructor]|].
  split; [split; [constructor|split; constructor]|].
  split; [cbn; lia|cbn; lia].
Defined.


(** ** A client that fails *)

Lemma run_strategy_failing (a : client) (fs : bool) (t : string) (rq : request)
    (result_type : string) (st : discovery) :
  (forall n, failed (answer a n rq)) ->
  d_results (run_strategy a fs t rq result_type st) = d_results st.
Proof.
  intros Hf. unfold run_strategy, max_retries.
  destruct (search_with_retry_spec a rq 2 (d_calls st)) as (_ & _ & Hr & _).
  specialize (Hf ((search_with_retry a rq 3 (d_calls st)).1 - 1)%nat).
  rewrite <- Hr in Hf.
  destruct (search_with_retry a rq 3 (d_calls st)) as [calls r]. cbn in Hf.
  by destruct r.
Qed.

Lemma by_media_type_failing (a : client) (t : string) (n : Z) (media_types : list string) :
  (forall j rq, failed (answer a j rq)) ->
  forall st, d_results (by_media_type a t n media_types st) = d_results st.
Proof.
  intros Hf. induction media_types as [|m ms IH]; intros st; [done|]. cbn.
  destruct (negb (short_of n st)); [done|].
  rewrite IH. apply run_strategy_failing. intros j. apply Hf.
Qed.

Lemma discover_sources_failing (a : client) (calls : nat) (t : string) (n : Z) :
  (forall j rq, failed (answer a j rq)) ->
  d_results (discover_sources a calls t n) = [].
Proof.
  intros Hf. unfold discover_sources.
  repeat first [ rewrite by_media_type_failing by done
               | rewrite run_strategy_failing by (intros j; apply Hf)
               | case_match ]; done.
Qed.

Lemma discover_graphics_failing (a : client) (calls : nat) (t : string) (n : Z) :
  (forall j rq, failed (answer a j rq)) ->
  d_results (discover_graphics a calls t n) = [].
Proof.
  intros Hf. unfold discover_graphics.
  repeat first [ rewrite run_strategy_failing by (intros j; apply Hf)
               | case_match ]; done.
Qed.

Lemma repository_client_keyless (http : nat -> request -> result value) (j : nat)
    (rq : request) :
  failed (answer (repository_client false http) j rq).
Proof. unfold answer, repository_client. by destruct (rq_endpoint rq). Qed.

(** X21. When every request to the search client fails, as every
    request of the repository's client does without an API key, the
    discovery swallows the failures: [search_sources] and
    [search_graphics] return no entry and raise nothing, and the search
    step of a session with a topic answers with the flagged error that
    no sources were found and leaves the session without sources. *)
Theorem search_with_failing_client (rt : runtime) (calls : nat) (sv : server)
    (d : list (string * value)) (t : string) :
  (forall j rq, failed (answer (api rt) j rq)) ->
  search_input d -> topic sv = Some t -> t <> EmptyString ->
  (forall c q n, (search_sources (api rt) c q n).1.2 = []
                 /\ (search_graphics (api rt) c q n).2 = [])
  /\ (process_section rt calls sv (VDict d)).2 = no_sources_found
  /\ sources (process_section rt calls sv (VDict d)).1.2 = [].
Proof.
  intros Hf Hd Ht Hne.
  assert (Hs : forall c q n, (search_sources (api rt) c q n).1.2 = []).
  { intros c q n.
    destruct (search_sources_ranked (api rt) c q n)
      as [[-> _]|(sorted & an & Hperm & _ & -> & _)]; [done|].
    rewrite (discover_sources_failing _ _ _ _ Hf) in Hperm.
    symmetry in Hperm. apply Permutation_nil in Hperm. subst sorted.
    destruct (0 <? n); [apply take_nil|done]. }
  split.
  - intros c q n. split; [done|]. unfold search_graphics.
    rewrite (discover_graphics_failing _ _ _ _ Hf). cbn.
    unfold slice_to. destruct (0 <=? n); apply take_nil.
  - unfold process_section. rewrite (validate_search_input d Hd), Ht.
    destruct t as [|c t']; [done|]. cbn [is_empty]. unfold discover.
    specialize (Hs calls (String c t') (source_count sv)).
    destruct (search_sources (api rt) calls (String c t') (source_count sv))
      as [[c' found] an]. cbn in Hs. subst found. by cbn.
Qed.

Lemma search_with_failing_client_witness :
  (process_section (sample_runtime keyless) 0 art_server search_request).2
  = no_sources_found.
Proof.
  destruct (search_with_failing_client (sample_runtime keyless) 0 art_server
              [("search_sources", VBool true)] "Art nouveau") as (_ & Hr & _).
  - intros j rq. apply repository_client_keyless.
  - by split.
  - by vm_compute.
  - done.
  - exact Hr.
Defined.

(** ** Graphics with the repository's client *)

Lemma process_section_graphics (rt : runtime) (calls : nat) (sv : server)
    (input_data : value) :
  graphics (process_section rt calls sv input_data).1.2 = []
  \/ graphics (process_section rt calls sv input_data).1.2 = graphics sv
  \/ exists c t, graphics (process_section rt calls sv input_data).1.2
                 = (search_graphics (api rt) c t 5).2.
Proof.
  assert (Hsub : graphics (submit_section rt sv input_data).1 = graphics sv).
  { destruct (submit_section_outcome rt sv input_data)
      as [(s & _ & _ & ->)|(-> & _)]; [|done].
    by destruct (record_section_keeps rt
                   (with_sections sv (report_sections sv ++ [healed s])) (healed s))
      as [(_ & _ & _ & _ & _ & _ & -> & _) _]. }
  unfold process_section.
  destruct (validate_section_data input_data) as [v|e]; [|by auto].
  destruct v as [t pc sc ig| |[]|s].
  - by left.
  - destruct (topic sv) as [t|]; [|by auto].
    destruct (is_empty t); [by auto|].
    destruct (discover_effect rt calls sv t) as (_ & _ & Hgr & _).
    destruct (discover rt calls sv t) as [[c sv'] r]. cbn [fst snd] in *.
    destruct Hgr as [-> | (c' & ->)]; [by auto|]. right. right. by exists c', t.
  - by auto.
  - right. left. by destruct (submit_section rt sv input_data).
  - right. left. by destruct (submit_section rt sv input_data).
Qed.

(** X22. With the search client of this repository a session never
    holds a graphic, whatever the HTTP layer answers and whether or not
    graphics are asked for: [search_graphics] calls [search_by_type]
    with a keyword argument [query] that the method does not accept, so
    every graphics query raises and the failure is swallowed. *)
Theorem repository_sessions_without_graphics (rt : runtime) (k : bool)
    (http : nat -> request -> result value) (inputs : list value) :
  api rt = repository_client k http ->
  forall (calls : nat) (sv : server),
  graphics sv = [] ->
  graphics (run rt calls sv inputs).1.2 = [].
Proof.
  intros Hapi.
  induction inputs as [|input_data inputs IH]; intros calls sv Hinv; [done|].
  cbn [run].
  assert (Hstep : graphics (process_section rt calls sv input_data).1.2 = []).
  { destruct (process_section_graphics rt calls sv input_data)
      as [-> | [-> | (c & t & ->)]]; [done|done|].
    rewrite Hapi. apply search_graphics_repository. }
  destruct (process_section rt calls sv input_data) as [[calls' sv'] r].
  specialize (IH calls' sv' Hstep).
  by destruct (run rt calls' sv' inputs) as [[c s] rs].
Qed.

Lemma repository_sessions_without_graphics_witness :
  graphics (run (sample_runtime (repository_client true two_items)) 0 new_server
              art_session).1.2 = [].
Proof.
  apply (repository_sessions_without_graphics
           (sample_runtime (repository_client true two_items)) true two_items
           art_session eq_refl 0 new_server eq_refl).
Defined.


(** ** The answer to an accepted section *)

Lemma providers_used_returns (l : list source) (ids : list value) :
  (forall v, v ∈ ids -> is_Some (as_num v)) ->
  exists ps, providers_used l ids = Ok ps
             /\ forall p, p ∈ ps -> exists s, s ∈ l /\ s_provider s = p.
Proof.
  induction ids as [|v ids IH]; intros Hnum.
  - exists []. split; [done|]. intros p Hp. by apply elem_of_nil in Hp.
  - destruct (Hnum v) as [n Hn]; [by left|].
    destruct IH as (ps & Hps & Hfrom); [intros w Hw; apply Hnum; by right|].
    cbn. rewrite Hn, Hps. cbn.
    destruct ((0 <=? n - 1) && (n - 1 <? Z.of_nat (length l))); [|by exists ps].
    destruct (l !! Z.to_nat (n - 1)) as [s|] eqn:Hs; [|by exists ps].
    eexists. split; [done|]. intros p [-> | Hp]%elem_of_cons; [|by apply Hfrom].
    exists s. split; [|done]. by apply list_elem_of_lookup_2 in Hs.
Qed.

Lemma count_distinct_returns (ps : list value) :
  (forall p, p ∈ ps -> is_Some (hash_key p)) ->
  exists n, count_distinct ps = Ok n.
Proof.
  intros Hhash. unfold count_distinct.
  assert (Hkeys : exists ks, mapM (fun p => match hash_key p with
                                           | Some k => Ok k
                                           | None => Raise TypeError
                                           end) ps = Ok ks).
  { induction ps as [|p ps IH]; [by eexists|].
    destruct (Hhash p) as [k Hk]; [by left|].
    destruct IH as [ks Hks]; [intros q Hq; apply Hhash; by right|].
    cbn. rewrite Hk. cbn. rewrite Hks. by eexists. }
  destruct Hkeys as [ks ->]. by eexists.
Qed.

Lemma py_index_returns {A} (l : list A) (n : Z) :
  0 <= n < Z.of_nat (length l) -> exists x, py_index l n = Ok x.
Proof.
  intros Hn. unfold py_index.
  rewrite (proj2 (Z.ltb_ge n 0)) by lia. rewrite (proj2 (Z.ltb_ge n 0)) by lia.
  destruct (lookup_lt_is_Some_2 l (Z.to_nat n)) as [x ->]; [lia|]. by eexists.
Qed.

Lemma record_section_returns (rt : runtime) (sv : server) (s : report_section) :
  format_section sv s = Ok () ->
  1 <= num (section_number s) -> num (total_sections s) <> 0 ->
  (truthy (is_bibliography s) = false -> truthy (sources_used s) = true ->
   exists ps n, providers_used (sources sv) (list_of (sources_used s)) = Ok ps
                /\ count_distinct ps = Ok n) ->
  exists r, (record_section rt sv s).2 = Ok r.
Proof.
  intros Hfmt Hsn Hts Hprov. unfold record_section. rewrite Hfmt.
  assert (Hrest : forall (sv' : server) (next_step : string),
            sources sv' = sources sv ->
            exists r,
              (next_step ← Ok next_step;
               _ ← (if num (total_sections s) =? 0
                    then Raise ZeroDivisionError else Ok ());
               messages ←
                 (if negb (truthy (is_bibliography s)) && truthy (sources_used s)
                  then
                    providers ← providers_used (sources sv') (list_of (sources_used s));
                    distinct ← count_distinct providers;
                    Ok (VStr
                          (if 1 <? distinct
                           then "This section uses sources from " +:+ pretty distinct
                                +:+ " different providers. Continue using diverse sources in subsequent sections."
                           else match providers with
                                | p :: _ =>
                                    "This section uses sources from only one provider: "
                                    +:+ py_str p
                                    +:+ ". Try to incorporate sources from other providers in the next sections if possible."
                                | [] => "This section doesn't use any sources. Please include citations in your content."
                                end),
                        VStr "No sources with PDF content were used in this section. Be careful to limit claims to what is explicitly available in metadata.",
                        VStr no_content_warning)
                  else Ok (VNone, VNone, VNone));
               let '(source_analysis_message, pdf_content_message, warning_message) :=
                 messages in
               Ok (ok_response
                     [ ("sectionNumber", section_number s);
                       ("totalSections", total_sections s);
                       ("nextSectionNeeded", next_section_needed s);
                       ("progress",
                        VStr (format_progress rt
                                (Z.of_nat (length (report_sections sv')))
                                (num (total_sections s))));
                       ("reportSectionsCount", json_int (length (report_sections sv')));
                       ("nextStep", VStr next_step);
                       ("sources",
                        if truthy (is_bibliography s)
                        then VList (map source_json (sources sv')) else VNone);
                       ("sourceAnalysisMessage", source_analysis_message);
                       ("pdfContentMessage", pdf_content_message);
                       ("pdfSourcesUsed", VNone);
                       ("sourceProviderCount",
                        json_int (length (from_option provider_distribution []
                                            (provider_analysis sv'))));
                       ("imagesAvailable",
                        VBool (include_graphics sv'
                               && negb (bool_decide (graphics sv' = []))));
                       ("images",
                        if include_graphics sv' && negb (bool_decide (graphics sv' = []))
                        then VList (map source_json (take 3 (graphics sv'))) else VNone);
                       ("citationWarning", warning_message);
                       ("warningMessage", warning_message);
                       ("sourceDiversityReminder", VStr "Remember to include proper references with links to original sources, and try to use sources from at least two different providers for varied perspectives.");
                       ("noFabricationReminder", VStr "CRITICAL: NEVER invent or fabricate any information. If sources are insufficient, explicitly state these limitations in your report.");
                       ("citationReminder", VStr "Every paragraph in your report must contain at least one citation to a source. All statements must be directly supported by the source material.") ]))
              = Ok r).
  { intros sv' next_step Hsrc. cbn.
    rewrite (proj2 (Z.eqb_neq _ 0) Hts). cbn. rewrite Hsrc.
    destruct (negb (truthy (is_bibliography s)) && truthy (sources_used s)) eqn:Hnb.
    - apply andb_true_iff in Hnb as [Hb%negb_true_iff Hsu].
      destruct (Hprov Hb Hsu) as (ps & n & -> & Hn). cbn. rewrite Hn. cbn. by eexists.
    - cbn. by eexists. }
  destruct (plan sv) as [p|].
  - cbn [snd].
    destruct (num (section_number s) <? Z.of_nat (length (pl_sections p))) eqn:Hlt.
    + destruct (py_index_returns (pl_sections p) (num (section_number s))) as [x ->];
        [lia|]. by apply Hrest.
    + by apply Hrest.
  - cbn [snd]. by apply Hrest.
Qed.

(** X23. An accepted section whose number is 1 or more is answered
    without an error flag in every state where the formatting cannot
    fail: for a bibliography in any state, and for any other section
    when the session holds no graphics and the providers of its sources
    are hashable, as they are after every discovery. *)
Theorem accepted_section_answered (rt : runtime) (calls : nat) (sv : server)
    (input_data : value) (s : report_section) :
  section_submission input_data ->
  validate_section_data input_data = Ok (Section s) ->
  accepted s ->
  1 <= num (section_number s) ->
  truthy (is_bibliography s) = true
  \/ (graphics sv = [] /\ Forall (fun x => is_Some (provider_key x)) (sources sv)) ->
  isError (process_section rt calls sv input_data).2 = false
  /\ report_sections (process_section rt calls sv input_data).1.2
     = report_sections sv ++ [healed s].
Proof.
  intros Hsub Hval Hacc Hsn Hstate.
  rewrite (process_submission rt calls sv input_data Hsub). cbn [fst snd].
  destruct (submit_section_outcome rt sv input_data)
    as [(s' & Hval' & _ & ->)|(_ & _ & Hnot)]; [|by destruct (Hnot s Hval)].
  rewrite Hval in Hval'. injection Hval' as <-.
  set (sv' := with_sections sv (report_sections sv ++ [healed s])).
  destruct (record_section_keeps rt sv' (healed s)) as [_ ->].
  split; [|done].
  assert (Hfields : section_number (healed s) = section_number s
                    /\ is_bibliography (healed s) = is_bibliography s
                    /\ sources_used (healed s) = sources_used s
                    /\ content (healed s) = content s
                    /\ num (section_number s) <= num (total_sections (healed s))).
  { unfold healed. destruct (_ <? _) eqn:Hlt; cbn; repeat split; lia. }
  destruct Hfields as (Hn & Hb & Hsu & Hco & Hle).
  assert (Hprov : truthy (is_bibliography s) = false ->
            graphics sv = [] ->
            Forall (fun x => is_Some (provider_key x)) (sources sv) ->
            exists ps n, providers_used (sources sv) (list_of (sources_used s)) = Ok ps
                         /\ count_distinct ps = Ok n).
  { intros Hnb _ Hhash.
    destruct Hacc as [Hbib | (_ & r & Hr & Hvalid)]; [congruence|].
    apply (verify_citations_valid_iff _ _ _ Hr) in Hvalid as (_ & _ & Hcited).
    destruct (providers_used_returns (sources sv) (list_of (sources_used s)))
      as (ps & Hps & Hfrom).
    { intros v Hv. destruct (Hcited v Hv) as (n & _ & -> & _). by eexists. }
    destruct (count_distinct_returns ps) as [n Hcount].
    { intros p Hp. destruct (Hfrom p Hp) as (x & Hx & <-).
      by apply (proj1 (Forall_forall _ _) Hhash). }
    by exists ps, n. }
  destruct (record_section_returns rt sv' (healed s)) as [r Hr].
  - unfold format_section. rewrite Hb, Hsu. cbn [sv' with_sections include_graphics graphics sources].
    destruct (truthy (is_bibliography s)) eqn:Hbib; cbn [negb andb]; [done|].
    destruct Hstate as [? | [Hg Hhash]]; [done|]. rewrite Hg.
    rewrite andb_false_r. cbn.
    destruct (truthy (sources_used s)); [|done].
    destruct (Hprov eq_refl Hg Hhash) as (ps & n & -> & Hcount). cbn.
    by rewrite Hcount.
  - rewrite Hn. lia.
  - lia.
  - rewrite Hb, Hsu. intros Hnb _.
    destruct Hstate as [? | [Hg Hhash]]; [congruence|]. by apply Hprov.
  - rewrite Hr. by apply (record_section_unflagged rt sv' (healed s)).
Qed.

Lemma accepted_section_answered_witness :
  isError (process_section (sample_runtime offline) 0 new_server
             section_five_of_three).2 = false.
Proof.
  assert (Hsub : section_submission section_five_of_three).
  { eexists. split; [reflexivity|]. by vm_compute. }
  destruct (validate_section_data section_five_of_three) as [[| | |s]|] eqn:Hval;
    try (vm_compute in Hval; discriminate Hval).
  assert (Hs : num (section_number s) = 5
               /\ pr_valid (_verify_content_has_citations (content s)
                              (list_of (sources_used s))) = true
               /\ exists r, verify_citations (content s) (list_of (sources_used s)) = Ok r
                            /\ cc_valid r = true).
  { vm_compute in Hval. injection Hval as <-.
    split; [by vm_compute|]. split; [by vm_compute|].
    eexists. split; [by vm_compute|reflexivity]. }
  destruct Hs as (Hfive & Hp & Hv).
  apply (accepted_section_answered (sample_runtime offline) 0 new_server
           section_five_of_three s Hsub Hval (or_intror (conj Hp Hv))).
  - lia.
  - right. split; [reflexivity|constructor].
Defined.


(** ** The analysis of a PDF *)

Lemma occurrences_snoc (k w : string) (ws : list string) :
  occurrences k (ws ++ [w]) = occurrences k ws + (if String.eqb k w then 1 else 0).
Proof.
  unfold occurrences. rewrite List.filter_app, length_app. cbn.
  destruct (String.eqb k w); cbn; lia.
Qed.

Lemma count_word_keys (w : string) (counts : list (string * Z)) :
  forall k, k ∈ map fst (count_word w counts) <-> k = w \/ k ∈ map fst counts.
Proof.
  induction counts as [|[k' c'] counts IH]; intros k; cbn.
  - rewrite list_elem_of_singleton. split; [by left|]. intros [|H]; [done|].
    by apply elem_of_nil in H.
  - destruct (String.eqb k' w) eqn:Heq; cbn.
    + apply String.eqb_eq in Heq as ->. rewrite !elem_of_cons. tauto.
    + rewrite !elem_of_cons, IH. tauto.
Qed.

Lemma count_word_NoDup (w : string) (counts : list (string * Z)) :
  NoDup (map fst counts) -> NoDup (map fst (count_word w counts)).
Proof.
  induction counts as [|[k' c'] counts IH]; cbn.
  - intros _. apply NoDup_singleton.
  - intros [Hout Hnd]%NoDup_cons. destruct (String.eqb k' w) eqn:Heq; cbn.
    + by apply NoDup_cons.
    + apply NoDup_cons. split; [|by apply IH].
      rewrite count_word_keys. intros [-> | Hin]; [|done].
      by rewrite String.eqb_refl in Heq.
Qed.

Lemma count_word_entries (w : string) (counts : list (string * Z)) :
  NoDup (map fst counts) ->
  forall k c, (k, c) ∈ count_word w counts ->
    (k = w /\ ((w, c - 1) ∈ counts \/ ((w ∉ map fst counts) /\ c = 1)))
    \/ (k <> w /\ (k, c) ∈ counts).
Proof.
  induction counts as [|[k' c'] counts IH]; cbn.
  - intros _ k c [= -> ->]%list_elem_of_singleton. left. split; [done|]. right.
    split; [by intros H%elem_of_nil|done].
  - intros [Hout Hnd]%NoDup_cons k c. destruct (String.eqb k' w) eqn:Heq.
    + apply String.eqb_eq in Heq as ->.
      intros [[= -> ->] | Hin]%elem_of_cons.
      * left. split; [done|]. left. replace (c' + 1 - 1) with c' by lia. by left.
      * right. split; [|by right]. intros ->. apply Hout.
        apply list_elem_of_fmap. by exists (w, c).
    + assert (Hne : k' <> w) by (intros ->; by rewrite String.eqb_refl in Heq).
      intros [[= -> ->] | Hin]%elem_of_cons; [right; split; [done|by left]|].
      destruct (IH Hnd k c Hin) as [[-> [Hc | [Hw ->]]] | [Hk Hc]].
      * left. split; [done|]. left. by right.
      * left. split; [done|]. right. split; [|done].
        intros [-> | H]%elem_of_cons; done.
      * right. split; [done|by right].
Qed.

Lemma count_word_counted (ws : list string) (w : string) (counts : list (string * Z)) :
  counted ws counts -> counted (ws ++ [w]) (count_word w counts).
Proof.
  intros (Hnd & Hin & Hout). split; [by apply count_word_NoDup|]. split.
  - intros k c Hkc. rewrite occurrences_snoc.
    destruct (count_word_entries w counts Hnd k c Hkc)
      as [[-> [Hc | [Hw ->]]] | [Hk Hc]].
    + destruct (Hin w (c - 1) Hc). rewrite String.eqb_refl. lia.
    + rewrite (Hout w Hw), String.eqb_refl. lia.
    + destruct (Hin k c Hc). rewrite (proj2 (String.eqb_neq k w) Hk). lia.
  - intros k Hk. rewrite count_word_keys in Hk. rewrite occurrences_snoc.
    rewrite Hout by (intros H; apply Hk; by right).
    destruct (String.eqb k w) eqn:Heq; [|done].
    apply String.eqb_eq in Heq. destruct Hk. by left.
Qed.

Lemma Counter_counted (ws : list string) : counted ws (Counter ws).
Proof.
  unfold Counter.
  assert (H : forall done counts, counted done counts ->
            counted (done ++ ws) (fold_left (fun counts w => count_word w counts)
                                    ws counts)).
  { induction ws as [|w ws IH]; intros done counts Hc; cbn.
    - by rewrite app_nil_r.
    - replace (done ++ w :: ws) with ((done ++ [w]) ++ ws)
        by (by rewrite <- app_assoc).
      apply IH. by apply count_word_counted. }
  apply (H [] []). split; [constructor|]. split; [|done].
  intros k c Hk. by apply elem_of_nil in Hk.
Qed.

Lemma filter_sublist {A} (f : A -> bool) (l : list A) : List.filter f l `sublist_of` l.
Proof.
  induction l as [|x l IH]; cbn; [done|].
  destruct (f x); [by apply sublist_skip|by apply sublist_cons].
Qed.

Lemma most_common_sublist (n : nat) (counts : list (string * Z)) :
  exists sorted, sorted ≡ₚ counts /\ most_common n counts `sublist_of` sorted.
Proof.
  exists (sort_desc (fun x y : string * Z => x.2 <? y.2) counts).
  split; [apply sort_desc_perm|apply sublist_take].
Qed.

(** X24. When the analysis of a PDF succeeds, the extraction returned a
    dict without an error, the text has 100 characters or more apart
    from surrounding whitespace, the analysed pages are at most 10, and
    the key terms are at most ten distinct words, each of which occurs
    twice or more among the words of the text that are longer than
    three characters, compared in lower case. *)
Theorem pdf_analysis_success (rt : runtime)
    (extract_pdf_content : string -> result (list (string * value)))
    (record_id : string) (a : pdf_analysis) :
  extract_and_analyze_pdf_content rt extract_pdf_content record_id = PdfAnalysis a ->
  (exists d, extract_pdf_content record_id = Ok d /\ has_key "error" d = false
             /\ pa_page_count a = get_default "pages" (VInt 0) d)
  /\ pa_record_id a = record_id
  /\ 100 <= len (strip (pa_full_text a))
  /\ (length (pa_key_terms a) <= 10)%nat
  /\ NoDup (pa_key_terms a)
  /\ (forall t, t ∈ pa_key_terms a -> 2 <= occurrences t (long_words (pa_full_text a)))
  /\ (exists n, as_num (pa_analyzed_pages a) = Some n /\ n <= 10).
Proof.
  unfold extract_and_analyze_pdf_content.
  destruct (extract_pdf_content record_id) as [d|e]; cbn; [|done].
  unfold analyze_pdf. destruct (has_key "error" d) eqn:Herr; [done|].
  destruct (iterate _) as [pages|]; cbn; [|done].
  destruct (concat_pages pages EmptyString) as [all_text|]; cbn; [|done].
  destruct (len (strip all_text) <? 100) eqn:Hlen; [done|].
  unfold min_with_10.
  destruct (as_num (get_default "pages" (VInt 0) d)) as [n|] eqn:Hn; cbn; [|done].
  intros [= <-]. cbn.
  pose proof (Counter_counted (long_words all_text)) as (Hnd & Hin & _).
  destruct (most_common_sublist 10 (Counter (long_words all_text)))
    as (sorted & Hperm & Hsub).
  set (word_freq := most_common 10 (Counter (long_words all_text))) in *.
  pose proof (filter_sublist (fun e : string * Z => 1 <? e.2) word_freq) as Hf.
  split; [exists d; by repeat split|]. split; [done|].
  split; [apply Z.ltb_ge in Hlen; exact Hlen|].
  split.
  { rewrite length_map. apply sublist_length in Hf.
    assert (length word_freq <= 10)%nat by (unfold word_freq, most_common;
      rewrite length_take; lia).
    lia. }
  split.
  { apply (sublist_NoDup _ (map fst sorted)); [by rewrite Hperm|].
    apply fmap_sublist. by etrans. }
  split.
  { intros t ((k & c) & -> & Hkc)%list_elem_of_fmap. cbn.
    assert (Hc : 1 < c).
    { apply list_elem_of_In, filter_In in Hkc as [_ Hc]. cbn in Hc. lia. }
    assert (Hmem : (k, c) ∈ Counter (long_words all_text)).
    { rewrite <- Hperm. eapply elem_of_sublist; [|exact Hsub].
      apply list_elem_of_In, filter_In in Hkc as [Hk _]. by apply list_elem_of_In. }
    destruct (Hin k c Hmem) as [<- _]. lia. }
  destruct (10 <? n) eqn:Hten; [exists 10; split; [done|lia]|].
  exists n. split; [done|lia].
Qed.

Lemma pdf_analysis_success_witness :
  exists a, extract_and_analyze_pdf_content (sample_runtime offline) one_page "/9200/a"
            = PdfAnalysis a
            /\ (length (pa_key_terms a) <= 10)%nat
            /\ pa_key_terms a = ["were"; "tulips"; "from"; "traded"].
Proof.
  destruct (extract_and_analyze_pdf_content (sample_runtime offline) one_page "/9200/a")
    as [rid err|a] eqn:Ha; [vm_compute in Ha; discriminate Ha|].
  exists a. split; [reflexivity|].
  destruct (pdf_analysis_success (sample_runtime offline) one_page "/9200/a" a Ha)
    as (_ & _ & _ & Hten & _).
  split; [exact Hten|].
  vm_compute in Ha. injection Ha as <-. reflexivity.
Defined.

(** ** The citation of a record *)

Lemma first_of_returns (key default : string) (d : list (string * value)) :
  (exists v, first_of key default d = Ok v /\ dict_get key d <> Some (VList []))
  \/ (first_of key default d = Raise IndexError /\ dict_get key d = Some (VList [])).
Proof.
  unfold first_of. destruct (dict_get key d) as [[| | | |[|x l]|]|];
    try (left; eexists; by split); by right.
Qed.

(** X25. The citation of a record is built for every dict but one
    whose title, creator or provider is an empty list, for which
    [IndexError] is raised; no other exception leaves the function for
    a dict. *)
Theorem format_citation_raises (d : list (string * value)) :
  ((exists c, _format_citation (VDict d) = Ok c) <->
   dict_get "title" d <> Some (VList [])
   /\ dict_get "creator" d <> Some (VList [])
   /\ dict_get "provider" d <> Some (VList []))
  /\ (forall e, _format_citation (VDict d) = Raise e -> e = IndexError).
Proof.
  unfold _format_citation.
  destruct (first_of_returns "title" "Unknown Title" d)
    as [(t & -> & Ht) | [-> Ht]]; cbn;
    [|split; [split; [by intros [? ?]|by intros [? _]]|by intros e [= <-]]].
  destruct (first_of_returns "creator" "Unknown Creator" d)
    as [(c & -> & Hc) | [-> Hc]]; cbn;
    [|split; [split; [by intros [? ?]|by intros (_ & ? & _)]|by intros e [= <-]]].
  destruct (first_of_returns "provider" "Unknown Provider" d)
    as [(p & -> & Hp) | [-> Hp]]; cbn;
    [|split; [split; [by intros [? ?]|by intros (_ & _ & ?)]|by intros e [= <-]]].
  split; [|done]. split; [done|]. intros _. by eexists.
Qed.
